(** * go_collective_profiler: per-call bandwidth derivation

    A shallow embedding of package [internal/pkg/bandwidth]
    (GetFromCallCounts, GetFromCallsCounts, GetOutputFilename) and of the
    part of the [bandwidth] command's [main] that reduces the raw counts,
    validates the communicator header, calls the aggregator and renders the
    report.

    Go values are embedded as follows: [int] is a 64-bit two's complement
    integer carried by [Z] with explicit wrap-around, [float64] is IEEE-754
    binary64 given by the Standard Library's [spec_float] at precision 53 and
    [emax] 1024, a Go [map[int]V] is a [gmap Z V] read with the zero value of
    [V] when the key is absent, a pointer that may be nil is an [option].
    Printing, file writes, the standard logger, process exit and run-time
    panics are threaded explicitly through a [World]. *)

From Stdlib Require Import ZArith Lia Bool.
From Stdlib Require Import Floats.SpecFloat.
From Stdlib Require Import Sorting.Sorted.
From stdpp Require Import base option list gmap fin_maps strings sorting pretty.

Local Open Scope Z_scope.

(** ** The Go run-time values used by the program *)

Module Go.

Abbreviation float64 := spec_float.

Definition prec : Z := 53.
Definition emax : Z := 1024.

(** [int] on the 64-bit platforms the tool is built for. *)
Definition int_min : Z := - 2 ^ 63.
Definition int_max : Z := 2 ^ 63 - 1.
Definition in_int (z : Z) : Prop := int_min <= z <= int_max.

(** Two's complement wrap-around of an exact integer result. *)
Definition wrap (z : Z) : Z := (z + 2 ^ 63) mod 2 ^ 64 - 2 ^ 63.

(** [a + b] on [int]. *)
Definition int_add (a b : Z) : Z := wrap (a + b).

(** The conversion [float64(n)] of an [int]: round to nearest, ties to even. *)
Definition float64_of_int (n : Z) : float64 := binary_normalize prec emax n 0 false.

(** [x / y] on [float64]. *)
Definition fdiv (x y : float64) : float64 := SFdiv prec emax x y.

(** [x != y] on [float64]: true as soon as one side is NaN. *)
Definition fneq (x y : float64) : bool := negb (SFeqb x y).

(** [x > 0] on [float64]. *)
Definition fpos (x : float64) : bool := SFltb (S754_zero false) x.

(** The zero value of a type, which a map read returns for an absent key. *)
Class ZeroValue (A : Type) := zero_value : A.
#[global] Instance int_zero_value : ZeroValue Z := (0 : Z).
#[global] Instance float64_zero_value : ZeroValue float64 := (S754_zero false : float64).
#[global] Instance list_zero_value {A} : ZeroValue (list A) := (@nil A).
#[global] Instance map_zero_value {V} : ZeroValue (gmap Z V) := (∅ : gmap Z V).
#[global] Instance pointer_zero_value {A} : ZeroValue (option A) := (@None A).

(** The index expression [m[k]] on a map. *)
Definition index {V} `{ZeroValue V} (m : gmap Z V) (k : Z) : V :=
  default zero_value (m !! k).

(** *** The [fmt] verbs used by the report *)

(** [%d] of an [int]. *)
Definition fmt_d (n : Z) : string := pretty n.

(** [n / d] rounded to the nearest integer, ties to even, for [0 <= n], [0 < d]. *)
Definition round_half_even (n d : Z) : Z :=
  let q := n / d in
  match 2 * (n mod d) ?= d with
  | Lt => q
  | Gt => q + 1
  | Eq => if Z.even q then q else q + 1
  end.

(** The magnitude [m * 2^e] in hundredths, rounded as [strconv] does for a
    fixed number of decimals: on the exact binary value, ties to even. *)
Definition hundredths (m : positive) (e : Z) : Z :=
  if 0 <=? e then Z.pos m * 2 ^ e * 100
  else round_half_even (Z.pos m * 100) (2 ^ (- e)).

Definition sign_string (s : bool) : string := if s then "-" else EmptyString.

Definition two_digits (n : Z) : string :=
  if n <? 10 then "0" +:+ pretty n else pretty n.

(** [%.2f] of a [float64]. *)
Definition fmt_f2 (x : float64) : string :=
  match x with
  | S754_nan => "NaN"
  | S754_infinity s => if s then "-Inf" else "+Inf"
  | S754_zero s => sign_string s +:+ "0.00"
  | S754_finite s m e =>
      let h := hundredths m e in
      sign_string s +:+ pretty (h / 100) +:+ "." +:+ two_digits (h mod 100)
  end.

End Go.
Import Go.

(** ** Effects: standard output, files, the logger, exit and panic *)

Definition error := string.

Definition nl : string := String (Ascii.ascii_of_nat 10) EmptyString.
Definition tab : string := String (Ascii.ascii_of_nat 9) EmptyString.

(** Where [log.SetOutput] pointed the standard logger of package [log]:
    [main] gives it [ioutil.Discard] or, with [-v], the [io.MultiWriter] of
    [os.Stdout] and of the log file. *)
Inductive LogWriter : Type :=
| ioutil_Discard
| MultiWriter_Stdout (logFile : string).

(** The standard logger: its writer, the header that it puts before its
    [n]-th line (the prefix, the date and the time, as its flags and the clock
    have them), and the number of lines that it has written. *)
Record Logger := mkLogger {
  log_out : LogWriter;
  log_header : nat -> string;
  log_count : nat
}.

(** What the process can observe or change.  [scaler_calls] records, in
    order, the arguments of every call made to the Unit Scaler. *)
Record World := mkWorld {
  stdout : list string;
  files : gmap string string;
  scaler_calls : list (string * list float64);
  logger : Logger
}.

Inductive Outcome (A : Type) : Type :=
| Returned (a : A) (w : World)
| Exited (code : Z) (w : World)
| Panicked (w : World).
Arguments Returned {A} a w.
Arguments Exited {A} code w.
Arguments Panicked {A} w.

Definition M (A : Type) : Type := World -> Outcome A.

#[global] Instance M_ret : MRet M := fun A a w => Returned a w.
#[global] Instance M_bind : MBind M := fun A B k m w =>
  match m w with
  | Returned a w' => k a w'
  | Exited c w' => Exited c w'
  | Panicked w' => Panicked w'
  end.

(** A run-time panic (index out of range, nil dereference). *)
Definition panic {A} : M A := fun w => Panicked w.

(** [os.Exit(code)]. *)
Definition os_Exit {A} (code : Z) : M A := fun w => Exited code w.

(** [fmt.Printf] of an already formatted string. *)
Definition Printf (s : string) : M unit := fun w =>
  Returned tt (mkWorld (stdout w ++ [s]) (files w) (scaler_calls w) (logger w)).

Definition log_scaler_call (c : string * list float64) : M unit := fun w =>
  Returned tt (mkWorld (stdout w) (files w) (scaler_calls w ++ [c]) (logger w)).

(** Whether a string ends with a newline. *)
Fixpoint ends_with_newline (s : string) : bool :=
  match s with
  | EmptyString => false
  | String c EmptyString => Ascii.eqb c (Ascii.ascii_of_nat 10)
  | String _ rest => ends_with_newline rest
  end.

(** The line that the logger makes of [s]: its header, [s], and a newline
    when [s] does not end with one. *)
Definition log_line (lg : Logger) (s : string) : string :=
  log_header lg (log_count lg) +:+ (if ends_with_newline s then s else s +:+ nl).

(** The logger after a line. *)
Definition log_next (lg : Logger) : Logger :=
  mkLogger (log_out lg) (log_header lg) (S (log_count lg)).

Section Logger.

(** Whether a write to a file fails, given the file's content and the new piece. *)
Variable write_error : string -> string -> option error.

(** The world after the logger was given [s].  Nothing is written to
    [ioutil.Discard].  The multi-writer writes the line to the standard
    output and then to the log file; the logger ignores a failed write. *)
Definition logged (s : string) (w : World) : World :=
  match log_out (logger w) with
  | ioutil_Discard => w
  | MultiWriter_Stdout logFile =>
      let line := log_line (logger w) s in
      let old := default EmptyString (files w !! logFile) in
      mkWorld (stdout w ++ [line])
        (match write_error old line with
         | Some _ => files w
         | None => <[logFile := old +:+ line]> (files w)
         end)
        (scaler_calls w) (log_next (logger w))
  end.

(** [Output] of the standard logger. *)
Definition log_Output (s : string) : M unit := fun w => Returned tt (logged s w).

(** [log.Println] of one string: [fmt.Sprintln] ends it with a newline. *)
Definition log_Println (s : string) : M unit := log_Output (s +:+ nl).

(** [log.Printf] of an already formatted string. *)
Definition log_Printf (s : string) : M unit := log_Output s.

End Logger.

(** A loop body either falls through to the next iteration or returns from
    the enclosing function. *)
Inductive Flow (S R : Type) : Type :=
| Next (s : S)
| Return (r : R).
Arguments Next {S R} s.
Arguments Return {S R} r.

(** ** Package bandwidth: data *)

Record CallData := mkCallData {
  SendData : gmap Z Z;
  RecvData : gmap Z Z;
  SendRankBW : gmap Z float64;
  RecvRankBW : gmap Z float64;
  ScaledSendRankBW : gmap Z float64;
  ScaledSendRankBWUnit : string;
  ScaledRecvRankBW : gmap Z float64;
  ScaledRecvRankBWUnit : string
}.

(** The field is [CallData] in the source, a map from call id to a pointer
    to the record of the call; the name of the record type is taken here. *)
Record CallsData := mkCallsData {
  CallData_ : gmap Z (option CallData)
}.

(** [new(CallData)] followed by the six [make] calls. *)
Definition new_CallData : CallData :=
  mkCallData ∅ ∅ ∅ ∅ ∅ EmptyString ∅ EmptyString.

Definition set_SendRankBW (d : CallData) (rank : Z) (v : float64) : CallData :=
  mkCallData (SendData d) (RecvData d) (<[rank := v]> (SendRankBW d)) (RecvRankBW d)
    (ScaledSendRankBW d) (ScaledSendRankBWUnit d)
    (ScaledRecvRankBW d) (ScaledRecvRankBWUnit d).

Definition set_RecvRankBW (d : CallData) (rank : Z) (v : float64) : CallData :=
  mkCallData (SendData d) (RecvData d) (SendRankBW d) (<[rank := v]> (RecvRankBW d))
    (ScaledSendRankBW d) (ScaledSendRankBWUnit d)
    (ScaledRecvRankBW d) (ScaledRecvRankBWUnit d).

Definition set_ScaledSendRankBW (d : CallData) (rank : Z) (v : float64) : CallData :=
  mkCallData (SendData d) (RecvData d) (SendRankBW d) (RecvRankBW d)
    (<[rank := v]> (ScaledSendRankBW d)) (ScaledSendRankBWUnit d)
    (ScaledRecvRankBW d) (ScaledRecvRankBWUnit d).

Definition set_ScaledSendRankBWUnit (d : CallData) (u : string) : CallData :=
  mkCallData (SendData d) (RecvData d) (SendRankBW d) (RecvRankBW d)
    (ScaledSendRankBW d) u
    (ScaledRecvRankBW d) (ScaledRecvRankBWUnit d).

Definition set_ScaledRecvRankBW (d : CallData) (rank : Z) (v : float64) : CallData :=
  mkCallData (SendData d) (RecvData d) (SendRankBW d) (RecvRankBW d)
    (ScaledSendRankBW d) (ScaledSendRankBWUnit d)
    (<[rank := v]> (ScaledRecvRankBW d)) (ScaledRecvRankBWUnit d).

Definition set_ScaledRecvRankBWUnit (d : CallData) (u : string) : CallData :=
  mkCallData (SendData d) (RecvData d) (SendRankBW d) (RecvRankBW d)
    (ScaledSendRankBW d) (ScaledSendRankBWUnit d)
    (ScaledRecvRankBW d) u.

(** What a Go function returning a pointer to [T] and an [error] hands back. *)
Abbreviation result T := (option T * option error)%type.

(** [GetOutputFilename]. *)
Definition GetOutputFilename (leadRank : Z) : string :=
  "bandwidth-percall-comm" +:+ fmt_d leadRank +:+ ".md".

(** ** The Unit Scaler *)

(** [x * y] on [float64]. *)
Definition fmul (x y : float64) : float64 := SFmul prec emax x y.

(** Modelled from the spec: the multiplier between two successive unit
    prefixes of the scaler, whose package is not part of the sources at hand. *)
Definition prefix_step : float64 := float64_of_int 1000.

(** Modelled from the spec: the prefix selection of the scaler, whose package
    is not part of the sources at hand.  Walks up the prefixes while the
    magnitude of [v] still reaches the next one; returns the prefix and the
    divisor reached. *)
Fixpoint pick_prefix (prefixes : list string) (v : float64)
    (current : string) (divisor : float64) : string * float64 :=
  match prefixes with
  | [] => (current, divisor)
  | p :: rest =>
      if SFleb prefix_step (fdiv (SFabs v) divisor)
      then pick_prefix rest v p (fmul divisor prefix_step)
      else (current, divisor)
  end.

(** Modelled from the spec: [scale.Float64s] of package [internal/pkg/scale],
    which is not part of the sources at hand.  It picks the largest prefix
    among K, M, G, T (multiplier 1000) that brings the first value into
    [1, 1000), applies the same factor to every value, leaves a zero magnitude
    in the base unit, and fails on an unknown base unit or an empty sequence. *)
Definition Float64s_spec (unitID : string) (values : list float64)
  : string * list float64 * option error :=
  match values with
  | [] => (EmptyString, [], Some "ScalingError: empty value sequence")
  | v :: _ =>
      if String.eqb unitID "B/s" then
        let '(p, divisor) := pick_prefix ["K"; "M"; "G"; "T"] v EmptyString (float64_of_int 1) in
        (p +:+ unitID, map (fun x => fdiv x divisor) values, None)
      else (EmptyString, [], Some "InvalidUnitError: unknown unit")
  end.

(** A scaler that only handles rates below 1000 and reports an error above;
    used to exercise the error paths. *)
Definition Float64s_small_only (unitID : string) (values : list float64)
  : string * list float64 * option error :=
  match values with
  | v :: _ =>
      if SFleb prefix_step (SFabs v) then (EmptyString, [], Some "scale: value out of range")
      else (unitID, values, None)
  | [] => (EmptyString, [], Some "scale: empty")
  end.

Section Bandwidth.

(** [scale.Float64s], of package [internal/pkg/scale]: given a unit and the
    values, the new unit, the scaled values and an error. *)
Variable Float64s : string -> list float64 -> string * list float64 * option error.

Definition call_Float64s (unitID : string) (values : list float64)
  : M (string * list float64 * option error) :=
  _ ← log_scaler_call (unitID, values);
  mret (Float64s unitID values).

(** The [if d.SendRankBW[rank] != 0 { ... } else { ... }] statement. *)
Definition scale_send (rank : Z) (d : CallData) : M (Flow CallData (result CallData)) :=
  if fneq (index (SendRankBW d) rank) (S754_zero false) then
    '(u, scaledSendBW, err) ← call_Float64s "B/s" [index (SendRankBW d) rank];
    let d := set_ScaledSendRankBWUnit d u in
    match err with
    | Some e => mret (Return (None, Some e))
    | None =>
        match scaledSendBW with
        | [] => panic
        | x :: _ => mret (Next (set_ScaledSendRankBW d rank x))
        end
    end
  else
    let d := set_ScaledSendRankBW d rank (index (SendRankBW d) rank) in
    mret (Next (set_ScaledSendRankBWUnit d "B/s")).

(** The [if d.RecvRankBW[rank] != 0 { ... } else { ... }] statement. *)
Definition scale_recv (rank : Z) (d : CallData) : M (Flow CallData (result CallData)) :=
  if fneq (index (RecvRankBW d) rank) (S754_zero false) then
    '(u, scaledRecvBW, err) ← call_Float64s "B/s" [index (RecvRankBW d) rank];
    let d := set_ScaledRecvRankBWUnit d u in
    match err with
    | Some e => mret (Return (None, Some e))
    | None =>
        match scaledRecvBW with
        | [] => panic
        | x :: _ => mret (Next (set_ScaledRecvRankBW d rank x))
        end
    end
  else
    let d := set_ScaledRecvRankBW d rank (index (RecvRankBW d) rank) in
    mret (Next (set_ScaledRecvRankBWUnit d "B/s")).

(** One iteration of the loop over the ranks. *)
Definition rank_body (sendCounts recvCounts : gmap Z Z) (execTimes : gmap Z float64)
    (rank : Z) (d : CallData) : M (Flow CallData (result CallData)) :=
  let d := set_SendRankBW d rank
             (fdiv (float64_of_int (index sendCounts rank)) (index execTimes rank)) in
  let d := set_RecvRankBW d rank
             (fdiv (float64_of_int (index recvCounts rank)) (index execTimes rank)) in
  r ← scale_send rank d;
  match r with
  | Return x => mret (Return x)
  | Next d => scale_recv rank d
  end.

(** [for rank := ...; rank < ranks; rank++], with [n] iterations left. *)
Fixpoint rank_loop (sendCounts recvCounts : gmap Z Z) (execTimes : gmap Z float64)
    (n : nat) (rank : Z) (d : CallData) : M (result CallData) :=
  match n with
  | O => mret (Some d, None)
  | S n' =>
      r ← rank_body sendCounts recvCounts execTimes rank d;
      match r with
      | Return x => mret x
      | Next d' => rank_loop sendCounts recvCounts execTimes n' (rank + 1) d'
      end
  end.

Definition GetFromCallCounts (ranks : Z) (sendCounts recvCounts : gmap Z Z)
    (sendDatatypeSize recvDatatypeSize : Z) (execTimes : gmap Z float64)
  : M (result CallData) :=
  rank_loop sendCounts recvCounts execTimes (Z.to_nat ranks) 0 new_CallData.

(** [for call := ...; call < numCalls; call++], with [n] iterations left.
    The map entry is assigned before the error is looked at. *)
Fixpoint call_loop (ranks : Z) (sendCounts recvCounts : gmap Z (gmap Z Z))
    (sendDatatypeSize recvDatatypeSize : Z) (execTimes : gmap Z (gmap Z float64))
    (n : nat) (call : Z) (d : CallsData) : M (result CallsData) :=
  match n with
  | O => mret (Some d, None)
  | S n' =>
      '(cd, err) ← GetFromCallCounts ranks (index sendCounts call) (index recvCounts call)
                      sendDatatypeSize recvDatatypeSize (index execTimes call);
      let d := mkCallsData (<[call := cd]> (CallData_ d)) in
      match err with
      | Some e => mret (None, Some e)
      | None => call_loop ranks sendCounts recvCounts sendDatatypeSize recvDatatypeSize
                  execTimes n' (call + 1) d
      end
  end.

Definition GetFromCallsCounts (numCalls ranks : Z) (sendCounts recvCounts : gmap Z (gmap Z Z))
    (sendDatatypeSize recvDatatypeSize : Z) (execTimes : gmap Z (gmap Z float64))
  : M (result CallsData) :=
  call_loop ranks sendCounts recvCounts sendDatatypeSize recvDatatypeSize execTimes
    (Z.to_nat numCalls) 0 (mkCallsData ∅).

End Bandwidth.

(** ** The bandwidth command *)

(** The types of package [pkg/counts] that [main] reads.  The package is not
    part of the sources at hand: only the fields that [main] uses are given,
    with the types that its loops require. *)
Module counts.

(** Modelled from the spec: the parsed counts of one direction, missing with
    package [pkg/counts]; per call id and per rank a list of integer counts. *)
Record Data := mkData {
  Counts : gmap Z (gmap Z (list Z))
}.

(** Modelled from the spec: what the analysis returns for a call, missing
    with package [pkg/counts]; the send and the receive counts. *)
Record CallData := mkCallData {
  SendData : Data;
  RecvData : Data
}.

Module Raw.
(** Modelled from the spec: the header of a raw count record, missing with
    package [pkg/counts]; the communicator size and the two datatype sizes. *)
Record Header := mkHeader {
  CommSize : Z;
  SendDatatypeSize : Z;
  RecvDatatypeSize : Z
}.
(** Modelled from the spec: a raw count record, missing with package
    [pkg/counts]; [main] only reads its header. *)
Record t := mk {
  Counts : Header
}.
End Raw.

End counts.

(** [sort.Ints]. *)
Definition sort_Ints (l : list Z) : list Z := merge_sort Z.le l.

(** [for _, c := range counts { data[callId][rank] += c }] on the inner map. *)
Definition add_counts (rank : Z) (counts : list Z) (m : gmap Z Z) : gmap Z Z :=
  fold_left (fun m c => <[rank := int_add (index m rank) c]> m) counts m.

(** [for rank, counts := range ranksData { ... }], starting from the fresh
    inner map; the iteration order of a Go map is unspecified. *)
Definition reduce_ranks (ranksData : gmap Z (list Z)) : gmap Z Z :=
  map_fold add_counts ∅ ranksData.

(** The first post-processing loop: it collects the call ids and the send totals. *)
Definition reduce_send (callsData : gmap Z counts.CallData)
  : list Z * gmap Z (gmap Z Z) :=
  map_fold (fun callId callData '(allCalls, sendData) =>
              (allCalls ++ [callId],
               <[callId := reduce_ranks
                             (index (counts.Counts (counts.SendData callData)) callId)]>
                 sendData))
           ([], ∅) callsData.

(** The second post-processing loop: the receive totals. *)
Definition reduce_recv (callsData : gmap Z counts.CallData) : gmap Z (gmap Z Z) :=
  map_fold (fun callId callData recvData =>
              <[callId := reduce_ranks
                            (index (counts.Counts (counts.RecvData callData)) callId)]>
                recvData)
           ∅ callsData.

Definition call_header (callId : Z) : string :=
  "# Call " +:+ fmt_d callId +:+ nl +:+ "send BW (B/s)" +:+ tab +:+ "receive BW (B/s)" +:+ nl.

Definition rank_line (d : CallData) (rank : Z) : string :=
  fmt_f2 (index (SendRankBW d) rank) +:+ tab +:+ fmt_f2 (index (RecvRankBW d) rank) +:+ nl.

Section Driver.

Variable Float64s : string -> list float64 -> string * list float64 * option error.

(** [filepath.Join] on two elements. *)
Variable filepath_Join : string -> string -> string.

(** Whether [os.Create] fails on a path. *)
Variable create_error : string -> option error.

(** Whether a write to a file fails, given the file's content and the new
    piece: for [WriteString] on the report file and for the logger's write
    to the log file. *)
Variable write_error : string -> string -> option error.

Definition os_Create (path : string) : M (option error) := fun w =>
  match create_error path with
  | Some e => Returned (Some e) w
  | None =>
      Returned None
        (mkWorld (stdout w) (<[path := EmptyString]> (files w)) (scaler_calls w) (logger w))
  end.

Definition WriteString (path : string) (s : string) : M (option error) := fun w =>
  let old := default EmptyString (files w !! path) in
  match write_error old s with
  | Some e => Returned (Some e) w
  | None =>
      Returned None
        (mkWorld (stdout w) (<[path := old +:+ s]> (files w)) (scaler_calls w) (logger w))
  end.

Definition write_failed {A} (outputFilePath : string) (e : error) : M A :=
  _ ← Printf ("ERROR: unable to write output to " +:+ outputFilePath +:+ ": " +:+ e +:+ nl);
  os_Exit 1.

(** [for rank := ...; rank < numRanks; rank++] of the report, with [n]
    iterations left; [d] is dereferenced in the body. *)
Fixpoint write_ranks (outputFilePath : string) (d : option CallData)
    (n : nat) (rank : Z) : M unit :=
  match n with
  | O => mret tt
  | S n' =>
      match d with
      | None => panic
      | Some cd =>
          err ← WriteString outputFilePath (rank_line cd rank);
          match err with
          | Some e => write_failed outputFilePath e
          | None => write_ranks outputFilePath d n' (rank + 1)
          end
      end
  end.

(** [for _, callId := range allCalls] of the report. *)
Fixpoint write_calls (outputFilePath : string) (bwData : option CallsData) (numRanks : Z)
    (allCalls : list Z) : M unit :=
  match allCalls with
  | [] => mret tt
  | callId :: rest =>
      err ← WriteString outputFilePath (call_header callId);
      match err with
      | Some e => write_failed outputFilePath e
      | None =>
          match bwData with
          | None => panic
          | Some bw =>
              let d := index (CallData_ bw) callId in
              _ ← write_ranks outputFilePath d (Z.to_nat numRanks) 0;
              err ← WriteString outputFilePath nl;
              match err with
              | Some e => write_failed outputFilePath e
              | None => write_calls outputFilePath bwData numRanks rest
              end
          end
      end
  end.

(** The end of the body of [main] for one communicator: what is done with
    the two values returned by GetFromCallsCounts (lines 279 to 312). *)
Definition save_report (outputDir : string) (leadRank numRanks : Z) (allCalls : list Z)
    (r : result CallsData) : M unit :=
  let '(bwData, err) := r in
  match err with
  | Some e =>
      _ ← Printf ("ERROR: bandwidth.GetFromCallsCounts() failed: " +:+ e +:+ nl);
      os_Exit 1
  | None =>
      _ ← log_Println write_error "-> Saving results...";
      let outputFilePath := filepath_Join outputDir (GetOutputFilename leadRank) in
      err ← os_Create outputFilePath;
      match err with
      | Some e =>
          _ ← Printf ("ERROR: unable to create output file " +:+ outputFilePath
                        +:+ ": " +:+ e +:+ nl);
          os_Exit 1
      | None =>
          _ ← write_calls outputFilePath bwData numRanks allCalls;
          Printf ("Data successfully saved in " +:+ outputFilePath +:+ nl)
      end
  end.

(** The body of [main] for one communicator once the parsers have returned
    [callsData], [commCounts] and [execTimesCallsData]: the post-processing
    of the parsed counts (lines 222 to 243), which computes and touches
    nothing, and the lines from 262 on, run in the world that the loading of
    the execution times (lines 246 to 260) has left. *)
Definition main_comm (outputDir : string) (leadRank : Z)
    (callsData : gmap Z counts.CallData) (commCounts : list counts.Raw.t)
    (execTimesCallsData : gmap Z (gmap Z float64)) : M unit :=
  let '(allCalls, sendData) := reduce_send callsData in
  let recvData := reduce_recv callsData in
  let allCalls := sort_Ints allCalls in
  _ ← log_Println write_error "-> Calculating bandwidths...";
  match commCounts with
  | [] => panic
  | first :: _ =>
      let numRanks := counts.Raw.CommSize (counts.Raw.Counts first) in
      if numRanks =? 0 then
        _ ← Printf ("ERROR: invalid number of ranks: " +:+ fmt_d numRanks +:+ nl);
        os_Exit 1
      else
      let sendDatatypeSize := counts.Raw.SendDatatypeSize (counts.Raw.Counts first) in
      if sendDatatypeSize =? 0 then
        _ ← Printf ("ERROR: invalid send datatype size: " +:+ fmt_d sendDatatypeSize +:+ nl);
        os_Exit 1
      else
      let recvDatatypeSize := counts.Raw.RecvDatatypeSize (counts.Raw.Counts first) in
      if recvDatatypeSize =? 0 then
        _ ← Printf ("ERROR: invalid recv datatype size: " +:+ fmt_d recvDatatypeSize +:+ nl);
        os_Exit 1
      else
      r ← GetFromCallsCounts Float64s (Z.of_nat (size callsData)) numRanks
            sendData recvData sendDatatypeSize recvDatatypeSize execTimesCallsData;
      save_report outputDir leadRank numRanks allCalls r
  end.

End Driver.

(** ** What a computation leaves of the world *)

(** The result of a computation without the world it ends in. *)
Inductive Verdict (A : Type) : Type :=
| VReturned (a : A)
| VExited (code : Z)
| VPanicked.
Arguments VReturned {A} a.
Arguments VExited {A} code.
Arguments VPanicked {A}.

Definition verdict {A} (o : Outcome A) : Verdict A :=
  match o with
  | Returned a _ => VReturned a
  | Exited c _ => VExited c
  | Panicked _ => VPanicked
  end.

Definition final {A} (o : Outcome A) : World :=
  match o with
  | Returned _ w | Exited _ w | Panicked w => w
  end.

Definition with_world {A} (v : Verdict A) (w : World) : Outcome A :=
  match v with
  | VReturned a => Returned a w
  | VExited c => Exited c w
  | VPanicked => Panicked w
  end.

Definition add_scaler_calls (l : list (string * list float64)) (w : World) : World :=
  mkWorld (stdout w) (files w) (scaler_calls w ++ l) (logger w).

(** A scaler call made on the base unit with one value that is not zero. *)
Definition nonzero_call (c : string * list float64) : Prop :=
  exists v, c = ("B/s", [v]) /\ fneq v (S754_zero false) = true.

(** A computation whose only trace is a list of scaler calls, each on a
    value that is not zero, and whose result and trace do not depend on the
    world it starts in. *)
Definition scaler_only {A} (m : M A) : Prop :=
  exists (v : Verdict A) (l : list (string * list float64)),
    Forall nonzero_call l /\
    forall w, m w = with_world v (add_scaler_calls l w).

(** The scaler answers every non-zero rate in B/s with at least one value. *)
Definition scaler_accepts
    (Float64s : string -> list float64 -> string * list float64 * option error) : Prop :=
  forall v, fneq v (S754_zero false) = true ->
    exists u x xs, Float64s "B/s" [v] = (u, x :: xs, None).

(** The scaler never answers without both a value and an error. *)
Definition scaler_answers
    (Float64s : string -> list float64 -> string * list float64 * option error) : Prop :=
  forall unitID values u, Float64s unitID values <> (u, [], None).

(** The rate of a rank: its total over its execution time, both read from
    the maps as the program reads them. *)
Definition rate (totals : gmap Z Z) (execTimes : gmap Z float64) (rank : Z) : float64 :=
  fdiv (float64_of_int (index totals rank)) (index execTimes rank).

(** What one iteration of the loop over the ranks does to the record and to
    the world when it falls through to the next iteration. *)
Definition rank_done (sc rc : gmap Z Z) (et : gmap Z float64) (rank : Z)
    (d d' : CallData) (w w' : World) : Prop :=
  SendData d' = SendData d /\ RecvData d' = RecvData d /\
  SendRankBW d' = <[rank := rate sc et rank]> (SendRankBW d) /\
  RecvRankBW d' = <[rank := rate rc et rank]> (RecvRankBW d) /\
  (exists x, ScaledSendRankBW d' = <[rank := x]> (ScaledSendRankBW d) /\
     (fneq (rate sc et rank) (S754_zero false) = false ->
        x = rate sc et rank /\ ScaledSendRankBWUnit d' = "B/s")) /\
  (exists y, ScaledRecvRankBW d' = <[rank := y]> (ScaledRecvRankBW d) /\
     (fneq (rate rc et rank) (S754_zero false) = false ->
        y = rate rc et rank /\ ScaledRecvRankBWUnit d' = "B/s")) /\
  exists l, w' = add_scaler_calls l w /\ Forall nonzero_call l.

(** What [n] iterations of the loop over the ranks, started at [rank], have
    done when the loop runs to its end. *)
Definition ranks_done (sc rc : gmap Z Z) (et : gmap Z float64) (n : nat) (rank : Z)
    (d d' : CallData) (w w' : World) : Prop :=
  SendData d' = SendData d /\ RecvData d' = RecvData d /\
  (forall r, SendRankBW d' !! r =
     if decide (rank <= r < rank + Z.of_nat n) then Some (rate sc et r)
     else SendRankBW d !! r) /\
  (forall r, RecvRankBW d' !! r =
     if decide (rank <= r < rank + Z.of_nat n) then Some (rate rc et r)
     else RecvRankBW d !! r) /\
  (forall r,
     if decide (rank <= r < rank + Z.of_nat n)
     then exists x, ScaledSendRankBW d' !! r = Some x /\
            (fneq (rate sc et r) (S754_zero false) = false -> x = rate sc et r)
     else ScaledSendRankBW d' !! r = ScaledSendRankBW d !! r) /\
  (forall r,
     if decide (rank <= r < rank + Z.of_nat n)
     then exists y, ScaledRecvRankBW d' !! r = Some y /\
            (fneq (rate rc et r) (S754_zero false) = false -> y = rate rc et r)
     else ScaledRecvRankBW d' !! r = ScaledRecvRankBW d !! r) /\
  (if decide (n = 0%nat) then ScaledSendRankBWUnit d' = ScaledSendRankBWUnit d
   else fneq (rate sc et (rank + Z.of_nat n - 1)) (S754_zero false) = false ->
        ScaledSendRankBWUnit d' = "B/s") /\
  (if decide (n = 0%nat) then ScaledRecvRankBWUnit d' = ScaledRecvRankBWUnit d
   else fneq (rate rc et (rank + Z.of_nat n - 1)) (S754_zero false) = false ->
        ScaledRecvRankBWUnit d' = "B/s") /\
  exists l, w' = add_scaler_calls l w /\ Forall nonzero_call l.

(** What [n] iterations of the loop over the calls, started at [call], have
    done when the loop runs to its end: each call of the range holds the
    record that the per-call computation returned for it. *)
Definition calls_done
    (Float64s : string -> list float64 -> string * list float64 * option error)
    (ranks : Z) (sc rc : gmap Z (gmap Z Z)) (sds rds : Z) (et : gmap Z (gmap Z float64))
    (n : nat) (call : Z) (d d' : CallsData) : Prop :=
  forall c,
    if decide (call <= c < call + Z.of_nat n)
    then exists cd w0 w1,
           CallData_ d' !! c = Some (Some cd) /\
           GetFromCallCounts Float64s ranks (index sc c) (index rc c) sds rds (index et c) w0
             = Returned (Some cd, None) w1
    else CallData_ d' !! c = CallData_ d !! c.

(** An infinity or a NaN. *)
Definition non_finite (x : float64) : Prop :=
  match x with
  | S754_infinity _ | S754_nan => True
  | S754_zero _ | S754_finite _ _ _ => False
  end.

(** The sum of a list of counts as an exact integer. *)
Definition exact_sum (l : list Z) : Z := foldr Z.add 0 l.

(** The raw list of counts that [main] reads for a call and a rank. *)
Definition raw_send (callsData : gmap Z counts.CallData) (callId rank : Z) : list Z :=
  match callsData !! callId with
  | Some cd => index (index (counts.Counts (counts.SendData cd)) callId) rank
  | None => []
  end.

Definition raw_recv (callsData : gmap Z counts.CallData) (callId rank : Z) : list Z :=
  match callsData !! callId with
  | Some cd => index (index (counts.Counts (counts.RecvData cd)) callId) rank
  | None => []
  end.

(** The text that the report loops write when the record of every call is
    there: per call what the three [WriteString] statements are given. *)
Definition report_block (numRanks : Z) (d : CallData) (callId : Z) : string :=
  call_header callId
  +:+ foldr String.append EmptyString (rank_line d <$> seqZ 0 numRanks)
  +:+ nl.

Definition report (numRanks : Z) (bw : CallsData) (allCalls : list Z) : string :=
  foldr String.append EmptyString
    ((fun callId =>
        match index (CallData_ bw) callId with
        | Some d => report_block numRanks d callId
        | None => EmptyString
        end) <$> allCalls).

(** *** The report as the specification words it *)

(** The two separators of the format: the tab and the newline. *)
Definition spec_tab : string := String (Ascii.ascii_of_N 9) EmptyString.
Definition spec_newline : string := String (Ascii.ascii_of_N 10) EmptyString.

(** The header line identifying the call, and the line of column titles. *)
Definition spec_call_line (callId : Z) : string :=
  "# Call " +:+ pretty callId +:+ spec_newline.
Definition spec_column_line : string :=
  "send BW (B/s)" +:+ spec_tab +:+ "receive BW (B/s)" +:+ spec_newline.

(** The line of a rank: the send and the receive bandwidth, each with two
    decimals, separated by a tab. *)
Definition spec_rank_line (send recv : float64) : string :=
  fmt_f2 send +:+ spec_tab +:+ fmt_f2 recv +:+ spec_newline.

(** The block of a call: the two header lines, one line per rank in
    ascending order, and one empty line. *)
Definition spec_block (numRanks : Z) (send recv : Z -> float64) (callId : Z) : string :=
  spec_call_line callId +:+ spec_column_line
  +:+ foldr String.append EmptyString
        ((fun rank => spec_rank_line (send rank) (recv rank)) <$> seqZ 0 numRanks)
  +:+ spec_newline.

(** The report: the blocks of the calls in the order of [calls]; [send] and
    [recv] give the bandwidths of a call and a rank. *)
Definition spec_report (numRanks : Z) (send recv : Z -> Z -> float64) (calls : list Z)
  : string :=
  foldr String.append EmptyString
    ((fun callId => spec_block numRanks (send callId) (recv callId) callId) <$> calls).

(** The unscaled send and receive bandwidth that a CallsData holds for a
    call and a rank. *)
Definition unscaled_send (bw : CallsData) (callId rank : Z) : float64 :=
  match index (CallData_ bw) callId with
  | Some d => index (SendRankBW d) rank
  | None => zero_value
  end.
Definition unscaled_recv (bw : CallsData) (callId rank : Z) : float64 :=
  match index (CallData_ bw) callId with
  | Some d => index (RecvRankBW d) rank
  | None => zero_value
  end.

(** The character of a decimal digit. *)
Definition digit (d : Z) : string :=
  String (Ascii.ascii_of_nat (48 + Z.to_nat d)) EmptyString.

(** [s] shows [x] with two decimal places: a minus sign when the sign bit is
    set, the integer part in decimal, a point and exactly two digits, the
    number shown being within half a hundredth of the magnitude [m * 2^e] of
    [x].  An infinity and a NaN, which have no decimals, are shown by name. *)
Definition two_decimal_places (x : float64) (s : string) : Prop :=
  match x with
  | S754_nan => s = "NaN"
  | S754_infinity sg => s = if sg then "-Inf" else "+Inf"
  | S754_zero sg => s = (if sg then "-" else EmptyString) +:+ "0.00"
  | S754_finite sg m e =>
      exists units d1 d2 : Z,
        0 <= units /\ 0 <= d1 <= 9 /\ 0 <= d2 <= 9 /\
        s = (if sg then "-" else EmptyString) +:+ pretty units +:+ "."
            +:+ digit d1 +:+ digit d2 /\
        let shown := 100 * units + 10 * d1 + d2 in
        if 0 <=? e then shown = 100 * (Z.pos m * 2 ^ e)
        else 2 * Z.abs (100 * Z.pos m - shown * 2 ^ (- e)) <= 2 ^ (- e)
  end.

(** *** What the logger writes *)

(** The lines that the logger, in the state [lg], writes to the standard
    output for the strings [msgs]: none when it discards them. *)
Fixpoint log_lines (lg : Logger) (msgs : list string) : list string :=
  match msgs with
  | [] => []
  | s :: rest =>
      match log_out lg with
      | ioutil_Discard => []
      | MultiWriter_Stdout _ => log_line lg s :: log_lines (log_next lg) rest
      end
  end.

(** The two strings that the body of [main] gives to the logger from line
    262 on. *)
Definition calculating : string := "-> Calculating bandwidths..." +:+ nl.
Definition saving : string := "-> Saving results..." +:+ nl.

(** Every rank below [ranks], and no other key, has an entry in the four
    bandwidth maps. *)
Definition bandwidth_maps_populated (ranks : Z) (d : CallData) : Prop :=
  (forall r, is_Some (SendRankBW d !! r) <-> 0 <= r < ranks) /\
  (forall r, is_Some (RecvRankBW d !! r) <-> 0 <= r < ranks) /\
  (forall r, is_Some (ScaledSendRankBW d !! r) <-> 0 <= r < ranks) /\
  (forall r, is_Some (ScaledRecvRankBW d !! r) <-> 0 <= r < ranks) /\
  size (SendRankBW d) = Z.to_nat ranks /\
  size (RecvRankBW d) = Z.to_nat ranks /\
  size (ScaledSendRankBW d) = Z.to_nat ranks /\
  size (ScaledRecvRankBW d) = Z.to_nat ranks.

(** Every rank below [ranks] has an entry in each per-rank map of the record. *)
Definition all_maps_populated (ranks : Z) (d : CallData) : Prop :=
  forall r, 0 <= r < ranks ->
    is_Some (SendData d !! r) /\ is_Some (RecvData d !! r) /\
    is_Some (SendRankBW d !! r) /\ is_Some (RecvRankBW d !! r) /\
    is_Some (ScaledSendRankBW d !! r) /\ is_Some (ScaledRecvRankBW d !! r).

(** ** Sample data *)

(** A logger that discards its lines, and one that writes them, numbered,
    to the standard output and to a log file. *)
Definition discarding_logger : Logger := mkLogger ioutil_Discard (fun _ => EmptyString) 0.
Definition verbose_logger : Logger :=
  mkLogger (MultiWriter_Stdout "bandwidth.log") (fun n => "[" +:+ pretty n +:+ "] ") 0.

Definition empty_world : World := mkWorld [] ∅ [] discarding_logger.
Definition verbose_world : World := mkWorld [] ∅ [] verbose_logger.

Definition F (n : Z) : float64 := float64_of_int n.

(** One call, two ranks: 1000 and 2000 sent, 500 and 0 received, in 1 s and 2 s. *)
Definition sample_send : gmap Z (gmap Z Z) := {[ 0 := {[ 0 := 1000; 1 := 2000 ]} ]}.
Definition sample_recv : gmap Z (gmap Z Z) := {[ 0 := {[ 0 := 500; 1 := 0 ]} ]}.
Definition sample_times : gmap Z (gmap Z float64) := {[ 0 := {[ 0 := F 1; 1 := F 2 ]} ]}.

(** A first rank without traffic followed by a rank sending 5000000 in 1 s. *)
Definition idle_then_busy_send : gmap Z Z := {[ 0 := 0; 1 := 5000000 ]}.
Definition idle_then_busy_recv : gmap Z Z := {[ 0 := 0; 1 := 0 ]}.
Definition one_second_each : gmap Z float64 := {[ 0 := F 1; 1 := F 1 ]}.

Definition sample_join (dir name : string) : string := dir +:+ "/" +:+ name.
Definition never_fails1 (path : string) : option error := None.
Definition never_fails2 (content piece : string) : option error := None.

Definition sample_counts (l : list (Z * list Z)) : counts.Data :=
  counts.mkData {[ 0 := list_to_map l ]}.
Definition sample_callsData : gmap Z counts.CallData :=
  {[ 0 := counts.mkCallData (sample_counts [(0, [1000]); (1, [500; 1500])])
                            (sample_counts [(0, [500]); (1, [])]) ]}.
Definition sample_header (commSize sendSize recvSize : Z) : list counts.Raw.t :=
  [counts.Raw.mk (counts.Raw.mkHeader commSize sendSize recvSize)].

(** Call 2, rank 1 with the raw send list 3, 4, 5. *)
Definition three_counts_callsData : gmap Z counts.CallData :=
  {[ 2 := counts.mkCallData (counts.mkData {[ 2 := {[ 1 := [3; 4; 5] ]} ]})
                            (counts.mkData ∅) ]}.

(** Two calls on two ranks; the second call moves 5000 on rank 0 in 1 s. *)
Definition two_calls_send : gmap Z (gmap Z Z) :=
  {[ 0 := {[ 0 := 100; 1 := 200 ]}; 1 := {[ 0 := 5000; 1 := 1 ]} ]}.
Definition two_calls_recv : gmap Z (gmap Z Z) :=
  {[ 0 := {[ 0 := 100; 1 := 200 ]}; 1 := {[ 0 := 1; 1 := 1 ]} ]}.
Definition two_calls_times : gmap Z (gmap Z float64) :=
  {[ 0 := {[ 0 := F 1; 1 := F 1 ]}; 1 := {[ 0 := F 1; 1 := F 1 ]} ]}.

(** The record of a call with send bandwidths 100 and 0 and receive
    bandwidths 50 and 0. *)
Definition two_rank_record : CallData :=
  mkCallData ∅ ∅ {[ 0 := F 100; 1 := F 0 ]} {[ 0 := F 50; 1 := F 0 ]}
    {[ 0 := F 100; 1 := F 0 ]} "B/s" {[ 0 := F 50; 1 := F 0 ]} "B/s".

(** ** The getbins command *)

Section GetBins.

(** The bins computed from a count file, of package [internal/pkg/bins]. *)
Variable Bins : Type.

(** [bins.GetFromFile], [bins.Save] and [bins.GetFromInputDescr], of package
    [internal/pkg/bins]; [counts.GetJobIdFromLeadRank] and
    [counts.GetSendCountFile], of package [pkg/counts].  The two packages are
    not part of the sources at hand, so each of their functions is a
    computation: it may read and write files, print, log, exit or panic. *)
Variable bins_GetFromFile : string -> list Z -> M (Bins * option error).
Variable bins_Save : string -> Z -> Z -> Z -> Bins -> M (option error).
Variable bins_GetFromInputDescr : string -> M (list Z).
Variable counts_GetJobIdFromLeadRank : string -> Z -> M (Z * option error).
Variable counts_GetSendCountFile : Z -> Z -> M string.

(** [filepath.Join], of the standard library, on two elements. *)
Variable getbins_Join : string -> string -> string.

(** Whether a write to a file fails, given the file's content and the new piece. *)
Variable getbins_write_error : string -> string -> option error.

(** [getBinsFromCountFile]; the message of an error built with the verb [%w]
    is the format with the message of the wrapped error in its place. *)
Definition getBinsFromCountFile (inputFile : string) (jobId commId leadRank : Z)
    (listBins : list Z) (outputDir : string) : M (option error) :=
  if String.eqb inputFile EmptyString then mret (Some "undefined input file")
  else
    '(b, err) ← bins_GetFromFile inputFile listBins;
    match err with
    | Some e => mret (Some ("unable to get bins: " +:+ e))
    | None =>
        err ← bins_Save outputDir jobId commId leadRank b;
        match err with
        | Some e => mret (Some ("unable to save data in " +:+ outputDir +:+ ": " +:+ e))
        | None => mret None
        end
    end.

(** The body of the inner loop of [main]: one communicator of a lead rank. *)
Definition getbins_comm (inputDir binThresholds outputDir : string) (leadRank commId : Z)
  : M unit :=
  listBins ← bins_GetFromInputDescr binThresholds;
  '(jobId, err) ← counts_GetJobIdFromLeadRank inputDir leadRank;
  match err with
  | Some e =>
      _ ← Printf ("ERROR: counts.GetJobIdFromLeadRank() failed: " +:+ e +:+ nl);
      os_Exit 1
  | None =>
      _ ← log_Printf getbins_write_error
            ("Ready to create " +:+ fmt_d (Z.of_nat (length listBins)) +:+ " bins" +:+ nl);
      countFilePath ← counts_GetSendCountFile jobId leadRank;
      let countFilePath := getbins_Join inputDir countFilePath in
      err ← getBinsFromCountFile countFilePath jobId commId leadRank listBins outputDir;
      match err with
      | Some e =>
          _ ← Printf ("ERROR: getBinsFromCountFile() failed: " +:+ e +:+ nl);
          os_Exit 1
      | None => mret tt
      end
  end.

(** [for _, commId := range commIds]. *)
Fixpoint getbins_commIds (inputDir binThresholds outputDir : string) (leadRank : Z)
    (commIds : list Z) : M unit :=
  match commIds with
  | [] => mret tt
  | commId :: rest =>
      _ ← getbins_comm inputDir binThresholds outputDir leadRank commId;
      getbins_commIds inputDir binThresholds outputDir leadRank rest
  end.

(** [for leadRank, commIds := range commData.LeadMap], the entries of the
    map coming in the order [entries]. *)
Fixpoint getbins_leads (inputDir binThresholds outputDir : string)
    (entries : list (Z * list Z)) : M unit :=
  match entries with
  | [] => mret tt
  | (leadRank, commIds) :: rest =>
      _ ← getbins_commIds inputDir binThresholds outputDir leadRank commIds;
      getbins_leads inputDir binThresholds outputDir rest
  end.

End GetBins.

(** A computation that always returns and leaves the standard output and
    the logger alone. *)
Definition quiet {A} (m : M A) : Prop :=
  forall w, exists a w', m w = Returned a w' /\ stdout w' = stdout w /\ logger w' = logger w.

(** A line of the logger of the getbins command: after some header, the
    number of bins that are ready to be created. *)
Definition ready_line (l : string) : Prop :=
  exists (header : string) (n : Z),
    l = header +:+ "Ready to create " +:+ fmt_d n +:+ " bins" +:+ nl.

(** What the loop of the getbins command, run for [n] communicators from
    [w], does to the standard output.  The lines [ls] that the logger writes
    say that bins are ready: there is none when the logger discards its
    lines, one per communicator otherwise when the loop returns, and at most
    one per communicator when it exits.  When the loop returns nothing else
    is printed; when it exits, the status is 1 and one more line is printed,
    last, starting with ERROR.  The loop does not panic and leaves the writer
    of the logger as it was. *)
Definition getbins_discipline {A} (n : nat) (w : World) (o : Outcome A) : Prop :=
  log_out (logger (final o)) = log_out (logger w) /\
  exists ls : list string,
    Forall ready_line ls /\
    (log_out (logger w) = ioutil_Discard -> ls = []) /\
    match o with
    | Returned _ w' =>
        stdout w' = stdout w ++ ls /\
        (log_out (logger w) <> ioutil_Discard -> length ls = n)
    | Exited code w' =>
        code = 1 /\ (length ls <= n)%nat /\
        exists msg, stdout w' = stdout w ++ ls ++ ["ERROR: " +:+ msg]
    | Panicked _ => False
    end.

(** The number of communicators in the entries of the map of lead ranks. *)
Definition communicators (entries : list (Z * list Z)) : nat :=
  length (concat (snd <$> entries)).

(** Sample collaborators of the getbins command: the bins are the list of
    thresholds, job ids are found for the lead ranks below 2 only, and
    saving succeeds. *)
Definition sample_GetFromFile (inputFile : string) (listBins : list Z)
  : M (list Z * option error) := mret (listBins, None).
Definition sample_Save (outputDir : string) (jobId commId leadRank : Z) (b : list Z)
  : M (option error) := mret None.
Definition sample_GetFromInputDescr (descr : string) : M (list Z) := mret [200].
Definition sample_GetJobId (inputDir : string) (leadRank : Z) : M (Z * option error) :=
  if leadRank <? 2 then mret (0, None) else mret (0, Some "no count file").
Definition sample_GetSendCountFile (jobId leadRank : Z) : M string :=
  mret ("send-counters.job" +:+ fmt_d jobId +:+ ".rank" +:+ fmt_d leadRank +:+ ".txt").
Definition failing_GetFromFile (inputFile : string) (listBins : list Z)
  : M (list Z * option error) := mret ([], Some "cannot open file").

(** ** Further notions used to describe the per-call computation *)

(** What the scaling statement keeps for a bandwidth [v] when it falls
    through: the unit label and the value written to the scaled map. *)
Definition stored_scaled
    (Float64s : string -> list float64 -> string * list float64 * option error)
    (v : float64) : option (string * float64) :=
  if fneq v (S754_zero false) then
    match Float64s "B/s" [v] with
    | (u, x :: _, None) => Some (u, x)
    | _ => None
    end
  else Some ("B/s", v).

(** The scaler calls that the iteration of a rank makes: the send
    bandwidth, then the receive bandwidth, each only when it is not zero. *)
Definition calls_of_rank (sc rc : gmap Z Z) (et : gmap Z float64) (rank : Z)
  : list (string * list float64) :=
  (if fneq (rate sc et rank) (S754_zero false) then [("B/s", [rate sc et rank])] else [])
  ++ (if fneq (rate rc et rank) (S754_zero false) then [("B/s", [rate rc et rank])] else []).

(** The last scaler call recorded in [w] was answered with [answer]. *)
Definition last_scaler_answer
    (Float64s : string -> list float64 -> string * list float64 * option error)
    (w : World) (answer : string * list float64 * option error) : Prop :=
  exists v, last (scaler_calls w) = Some ("B/s", [v]) /\ Float64s "B/s" [v] = answer.

(** The outcomes of the two bandwidth functions: a record and no error, or
    no record and the error of the last scaler call, or a panic after a
    scaler call answered with neither a value nor an error. *)
Definition scaler_decides {T}
    (Float64s : string -> list float64 -> string * list float64 * option error)
    (o : Outcome (result T)) : Prop :=
  match o with
  | Returned (Some _, None) _ => True
  | Returned (None, Some e) w' => exists u xs, last_scaler_answer Float64s w' (u, xs, Some e)
  | Panicked w' => exists u, last_scaler_answer Float64s w' (u, [], None)
  | _ => False
  end.

(** The same for one iteration of the loop over the ranks. *)
Definition scaler_decides_step
    (Float64s : string -> list float64 -> string * list float64 * option error)
    (o : Outcome (Flow CallData (result CallData))) : Prop :=
  match o with
  | Returned (Next _) _ => True
  | Returned (Return (None, Some e)) w' =>
      exists u xs, last_scaler_answer Float64s w' (u, xs, Some e)
  | Panicked w' => exists u, last_scaler_answer Float64s w' (u, [], None)
  | _ => False
  end.

(** ** Further notions used to describe the command *)

(** What the report loop writes for a call whose record pointer is [d]: the
    rank lines are there only when the pointer is not nil. *)
Definition block_text (numRanks : Z) (d : option CallData) (callId : Z) : string :=
  call_header callId
  +:+ match d with
      | Some cd => foldr String.append EmptyString (rank_line cd <$> seqZ 0 numRanks)
      | None => EmptyString
      end
  +:+ nl.

Definition report_text (numRanks : Z) (bw : CallsData) (allCalls : list Z) : string :=
  foldr String.append EmptyString
    ((fun callId => block_text numRanks (index (CallData_ bw) callId) callId) <$> allCalls).

(** What a part of the command that does not use the logger may do to a
    world [w] when [path] is the report file and [said] what it prints when
    it returns: it only ever exits with status 1, after adding one line
    starting with ERROR to the standard output; it prints nothing before a
    panic; and it leaves the logger and every file other than [path] as they
    were. *)
Definition report_discipline {A} (path : string) (said : list string) (w : World)
    (o : Outcome A) : Prop :=
  (forall p, p <> path -> files (final o) !! p = files w !! p) /\
  logger (final o) = logger w /\
  match o with
  | Returned _ w' => stdout w' = stdout w ++ said
  | Exited code w' => code = 1 /\ exists msg, stdout w' = stdout w ++ ["ERROR: " +:+ msg]
  | Panicked w' => stdout w' = stdout w
  end.

(** What the body of [main] from line 262 on does to a world [w] when
    [path] is the report file.  It leaves alone every file other than [path]
    and the log file, and the writer of the logger.  To the standard output
    it adds the lines of the logger for [msgs], which are the string of line
    262 alone or followed by that of line 284, and after them: when it
    returns, having logged both, the line saying where the data was saved and
    nothing else; when it exits, which it does with status 1 only, one line
    starting with ERROR; nothing before a panic. *)
Definition main_discipline {A} (path : string) (w : World) (o : Outcome A) : Prop :=
  (forall p, p <> path -> log_out (logger w) <> MultiWriter_Stdout p ->
     files (final o) !! p = files w !! p) /\
  log_out (logger (final o)) = log_out (logger w) /\
  exists msgs : list string,
    (msgs = [calculating] \/ msgs = [calculating; saving]) /\
    match o with
    | Returned _ w' =>
        msgs = [calculating; saving] /\
        stdout w' = stdout w ++ log_lines (logger w) msgs
                    ++ ["Data successfully saved in " +:+ path +:+ nl]
    | Exited code w' =>
        code = 1 /\
        exists msg, stdout w' = stdout w ++ log_lines (logger w) msgs ++ ["ERROR: " +:+ msg]
    | Panicked w' => stdout w' = stdout w ++ log_lines (logger w) msgs
    end.

(** The loop over the ranks of a call when the entries of the map come in
    the order [l]. *)
Definition reduce_ranks_in_order (l : list (Z * list Z)) : gmap Z Z :=
  fold_left (fun m '(rank, counts) => add_counts rank counts m) l ∅.

(** A post-processing loop of [main], for the send or the receive side,
    when the calls come in the order [l] and the ranks of a call id in the
    order [inner callId]. *)
Definition reduce_in_order
    (l : list (Z * counts.CallData)) (inner : Z -> list (Z * list Z))
  : list Z * gmap Z (gmap Z Z) :=
  fold_left (fun '(allCalls, data) '(callId, callData) =>
               (allCalls ++ [callId],
                <[callId := reduce_ranks_in_order (inner callId)]> data))
            l ([], ∅).

(** [inner] lists, for every call id of [callsData], the ranks of that call
    on the given side in some order. *)
Definition orders_ranks_of (side : counts.CallData -> counts.Data)
    (callsData : gmap Z counts.CallData) (inner : Z -> list (Z * list Z)) : Prop :=
  forall callId callData, callsData !! callId = Some callData ->
    inner callId ≡ₚ map_to_list (index (counts.Counts (side callData)) callId).

(** A second set of calls: one call on two ranks. *)
Definition other_callsData : gmap Z counts.CallData :=
  {[ 0 := counts.mkCallData (sample_counts [(0, [7]); (1, [9])])
                            (sample_counts [(0, [1]); (1, [2])]) ]}.

(** What [main] does between two communicators, on sample data: the logger
    is told that the execution times are loaded and the parsers give the
    second set of calls. *)
Definition sample_parse_next
  : M (gmap Z counts.CallData * list counts.Raw.t * gmap Z (gmap Z float64)) :=
  _ ← log_Println never_fails2 "-> Loading execution times...";
  mret (other_callsData, sample_header 2 4 4, sample_times).

(** Call ids 0 and 2 for two calls: the ids are not those below the number
    of calls. *)
Definition gap_callsData : gmap Z counts.CallData :=
  {[ 0 := counts.mkCallData (sample_counts [(0, [7]); (1, [9])])
                            (sample_counts [(0, [1]); (1, [2])]);
     2 := counts.mkCallData (sample_counts [(0, [7]); (1, [9])])
                            (sample_counts [(0, [1]); (1, [2])]) ]}.

(** A scaler that leaves every value in the base unit. *)
Definition Float64s_identity (unitID : string) (values : list float64)
  : string * list float64 * option error := (unitID, values, None).

(** A file system on which nothing can be created. *)
Definition always_fails1 (path : string) : option error := Some "permission denied".

(** The line of a rank and the block of a call as functions of the totals
    and the times given to the aggregator, without the records. *)
Definition line_of_rates (sc rc : gmap Z Z) (et : gmap Z float64) (rank : Z) : string :=
  fmt_f2 (rate sc et rank) +:+ tab +:+ fmt_f2 (rate rc et rank) +:+ nl.

Definition block_of_rates (numCalls ranks : Z) (scs rcs : gmap Z (gmap Z Z))
    (ets : gmap Z (gmap Z float64)) (callId : Z) : string :=
  call_header callId
  +:+ (if decide (0 <= callId < numCalls)
       then foldr String.append EmptyString
              (line_of_rates (index scs callId) (index rcs callId) (index ets callId)
                 <$> seqZ 0 ranks)
       else EmptyString)
  +:+ nl.

(** The sample totals with entries added outside one call and two ranks. *)
Definition sample_send_extra : gmap Z (gmap Z Z) :=
  {[ 0 := {[ 0 := 1000; 1 := 2000; 7 := 5 ]}; 3 := {[ 0 := 1 ]} ]}.

(** The ranks of each call in the reverse of the order of [map_to_list]. *)
Definition reversed_ranks (side : counts.CallData -> counts.Data)
    (callsData : gmap Z counts.CallData) (callId : Z) : list (Z * list Z) :=
  match callsData !! callId with
  | Some callData => reverse (map_to_list (index (counts.Counts (side callData)) callId))
  | None => []
  end.

(** Two calls, the ranks of each with their raw lists. *)
Definition two_calls_callsData : gmap Z counts.CallData :=
  {[ 0 := counts.mkCallData (sample_counts [(0, [3; 4]); (1, [5]); (2, [])])
                            (sample_counts [(0, [1]); (1, [2; 2])]);
     1 := counts.mkCallData (counts.mkData {[ 1 := {[ 0 := [8]; 1 := [9; 1] ]} ]})
                            (counts.mkData {[ 1 := {[ 0 := [6] ]} ]}) ]}.

(** * Properties *)

(** ** The monad *)

Lemma bind_unfold {A B} (m : M A) (k : A -> M B) (w : World) :
  (m ≫= k) w =
  match m w with
  | Returned a w' => k a w'
  | Exited c w' => Exited c w'
  | Panicked w' => Panicked w'
  end.
Proof. reflexivity. Qed.

Lemma add_scaler_calls_nil w : add_scaler_calls [] w = w.
Proof. destruct w. unfold add_scaler_calls. simpl. by rewrite app_nil_r. Qed.

Lemma add_scaler_calls_app l1 l2 w :
  add_scaler_calls l2 (add_scaler_calls l1 w) = add_scaler_calls (l1 ++ l2) w.
Proof. unfold add_scaler_calls. simpl. by rewrite app_assoc. Qed.

Lemma scaler_only_ret {A} (a : A) : scaler_only (mret a).
Proof. exists (VReturned a), []. split; [done|]. intros w. by rewrite add_scaler_calls_nil. Qed.

Lemma scaler_only_panic {A} : scaler_only (@panic A).
Proof. exists VPanicked, []. split; [done|]. intros w. by rewrite add_scaler_calls_nil. Qed.

Lemma scaler_only_bind {A B} (m : M A) (k : A -> M B) :
  scaler_only m -> (forall a, scaler_only (k a)) -> scaler_only (m ≫= k).
Proof.
  intros (v & l & Hl & Hm) Hk. destruct v as [a|c|].
  - destruct (Hk a) as (v' & l' & Hl' & Hka). exists v', (l ++ l').
    split; [by apply Forall_app|]. intros w.
    rewrite bind_unfold, Hm. simpl. by rewrite Hka, add_scaler_calls_app.
  - exists (VExited c), l. split; [done|]. intros w. by rewrite bind_unfold, Hm.
  - exists VPanicked, l. split; [done|]. intros w. by rewrite bind_unfold, Hm.
Qed.

Lemma scaler_only_verdict {A} (m : M A) (w1 w2 : World) :
  scaler_only m -> verdict (m w1) = verdict (m w2).
Proof. intros (v & l & _ & Hm). rewrite !Hm. by destruct v. Qed.

Lemma scaler_only_frame {A} (m : M A) (w : World) :
  scaler_only m ->
  stdout (final (m w)) = stdout w /\ files (final (m w)) = files w.
Proof. intros (v & l & _ & Hm). rewrite Hm. by destruct v. Qed.

Lemma scaler_only_calls {A} (m : M A) (w : World) :
  scaler_only m ->
  exists l, scaler_calls (final (m w)) = scaler_calls w ++ l /\ Forall nonzero_call l.
Proof. intros (v & l & Hl & Hm). exists l. rewrite Hm. by destruct v. Qed.

Lemma scaler_only_logger {A} (m : M A) (w : World) :
  scaler_only m -> logger (final (m w)) = logger w.
Proof. intros (v & l & _ & Hm). rewrite Hm. by destruct v. Qed.

Lemma scaler_only_returned {A} (m : M A) (a : A) (w w1 : World) :
  scaler_only m -> m w = Returned a w1 ->
  exists l, w1 = add_scaler_calls l w /\
    forall w', m w' = Returned a (add_scaler_calls l w').
Proof.
  intros (v & l & _ & Hm) H. rewrite Hm in H.
  destruct v as [a'| |]; simpl in H; [|done..]. injection H as -> <-.
  exists l. split; [done|]. intros w'. by rewrite Hm.
Qed.

(** ** The logger *)

Lemma bind_log_Println {B} we s (k : unit -> M B) w :
  (log_Println we s ≫= k) w = k tt (logged we (s +:+ nl) w).
Proof. reflexivity. Qed.

Lemma bind_log_Printf {B} we s (k : unit -> M B) w :
  (log_Printf we s ≫= k) w = k tt (logged we s w).
Proof. reflexivity. Qed.

Lemma logged_scaler_calls we s w : scaler_calls (logged we s w) = scaler_calls w.
Proof. unfold logged. by destruct (log_out (logger w)). Qed.

Lemma logged_log_out we s w : log_out (logger (logged we s w)) = log_out (logger w).
Proof. unfold logged. by destruct (log_out (logger w)) eqn:H. Qed.

Lemma logged_discard we s w : log_out (logger w) = ioutil_Discard -> logged we s w = w.
Proof. intros H. unfold logged. by rewrite H. Qed.

Lemma logged_files we s w p :
  log_out (logger w) <> MultiWriter_Stdout p -> files (logged we s w) !! p = files w !! p.
Proof.
  unfold logged. destruct (log_out (logger w)) as [|logFile] eqn:H; [done|].
  intros Hp. simpl. destruct (we _ _); [done|]. apply lookup_insert_ne. congruence.
Qed.

Lemma log_lines_discard lg msgs : log_out lg = ioutil_Discard -> log_lines lg msgs = [].
Proof. intros H. destruct msgs; [done|]. simpl. by rewrite H. Qed.

Lemma logged_stdout we s w : stdout (logged we s w) = stdout w ++ log_lines (logger w) [s].
Proof.
  unfold logged. simpl. destruct (log_out (logger w)); simpl; [by rewrite app_nil_r|done].
Qed.

Lemma log_lines_cons we s rest w :
  log_lines (logger w) (s :: rest)
  = log_lines (logger w) [s] ++ log_lines (logger (logged we s w)) rest.
Proof.
  unfold logged. simpl. destruct (log_out (logger w)) eqn:H; simpl; [|done].
  by rewrite log_lines_discard.
Qed.

Lemma logged_add_scaler_calls we s l w :
  logged we s (add_scaler_calls l w) = add_scaler_calls l (logged we s w).
Proof. unfold logged, add_scaler_calls. simpl. by destruct (log_out (logger w)). Qed.

Lemma index_insert_ne {V} `{ZeroValue V} (m : gmap Z V) (k k' : Z) (v : V) :
  k <> k' -> index (<[k := v]> m) k' = index m k'.
Proof. intros Hne. unfold index. by rewrite lookup_insert_ne. Qed.

Lemma index_insert_same {V} `{ZeroValue V} (m : gmap Z V) (k : Z) (v : V) :
  index (<[k := v]> m) k = v.
Proof. unfold index. by rewrite lookup_insert_eq. Qed.

Section BandwidthFacts.

Variable Float64s : string -> list float64 -> string * list float64 * option error.

Lemma scaler_only_call v :
  fneq v (S754_zero false) = true -> scaler_only (call_Float64s Float64s "B/s" [v]).
Proof.
  intros Hnz. exists (VReturned (Float64s "B/s" [v])), [("B/s", [v])]. split; [|done].
  constructor; [|done]. by exists v.
Qed.

Lemma scaler_only_scale_send rank d : scaler_only (scale_send Float64s rank d).
Proof.
  unfold scale_send. case_match; [|apply scaler_only_ret].
  apply scaler_only_bind; [by apply scaler_only_call|].
  intros [[u xs] [e|]]; [apply scaler_only_ret|].
  destruct xs; [apply scaler_only_panic|apply scaler_only_ret].
Qed.

Lemma scaler_only_scale_recv rank d : scaler_only (scale_recv Float64s rank d).
Proof.
  unfold scale_recv. case_match; [|apply scaler_only_ret].
  apply scaler_only_bind; [by apply scaler_only_call|].
  intros [[u xs] [e|]]; [apply scaler_only_ret|].
  destruct xs; [apply scaler_only_panic|apply scaler_only_ret].
Qed.

Lemma scaler_only_rank_body sc rc et rank d :
  scaler_only (rank_body Float64s sc rc et rank d).
Proof.
  unfold rank_body. apply scaler_only_bind; [apply scaler_only_scale_send|].
  intros [d'|x]; [apply scaler_only_scale_recv|apply scaler_only_ret].
Qed.

Lemma scaler_only_rank_loop sc rc et n : forall rank d,
  scaler_only (rank_loop Float64s sc rc et n rank d).
Proof.
  induction n as [|n IH]; intros rank d; simpl; [apply scaler_only_ret|].
  apply scaler_only_bind; [apply scaler_only_rank_body|].
  intros [d'|x]; [apply IH|apply scaler_only_ret].
Qed.

Lemma scaler_only_GetFromCallCounts ranks sc rc sds rds et :
  scaler_only (GetFromCallCounts Float64s ranks sc rc sds rds et).
Proof. apply scaler_only_rank_loop. Qed.

Lemma scaler_only_call_loop ranks sc rc sds rds et n : forall call d,
  scaler_only (call_loop Float64s ranks sc rc sds rds et n call d).
Proof.
  induction n as [|n IH]; intros call d; simpl; [apply scaler_only_ret|].
  apply scaler_only_bind; [apply scaler_only_GetFromCallCounts|].
  intros [cd [e|]]; [apply scaler_only_ret|apply IH].
Qed.

Lemma scaler_only_GetFromCallsCounts numCalls ranks sc rc sds rds et :
  scaler_only (GetFromCallsCounts Float64s numCalls ranks sc rc sds rds et).
Proof. apply scaler_only_call_loop. Qed.

Lemma scale_send_next rank d w d' w' :
  scale_send Float64s rank d w = Returned (Next d') w' ->
  SendData d' = SendData d /\ RecvData d' = RecvData d /\
  SendRankBW d' = SendRankBW d /\ RecvRankBW d' = RecvRankBW d /\
  ScaledRecvRankBW d' = ScaledRecvRankBW d /\
  ScaledRecvRankBWUnit d' = ScaledRecvRankBWUnit d /\
  (exists x, ScaledSendRankBW d' = <[rank := x]> (ScaledSendRankBW d) /\
     (fneq (index (SendRankBW d) rank) (S754_zero false) = false ->
        x = index (SendRankBW d) rank /\ ScaledSendRankBWUnit d' = "B/s")) /\
  exists l, w' = add_scaler_calls l w /\ Forall nonzero_call l.
Proof.
  unfold scale_send. destruct (fneq _ _) eqn:Hnz.
  - unfold call_Float64s. rewrite !bind_unfold. simpl.
    destruct (Float64s _ _) as [[u xs] [e|]] eqn:HF; [done|].
    destruct xs as [|x xs]; [done|]. intros [= <- <-]. simpl.
    repeat split; try done.
    + exists x. split; [done|]. intros ?; congruence.
    + exists [("B/s", [index (SendRankBW d) rank])]. split; [done|].
      constructor; [|constructor]. by eexists.
  - intros [= <- <-]. simpl. repeat split; try done.
    + by eexists.
    + exists []. by rewrite add_scaler_calls_nil.
Qed.

Lemma scale_recv_next rank d w d' w' :
  scale_recv Float64s rank d w = Returned (Next d') w' ->
  SendData d' = SendData d /\ RecvData d' = RecvData d /\
  SendRankBW d' = SendRankBW d /\ RecvRankBW d' = RecvRankBW d /\
  ScaledSendRankBW d' = ScaledSendRankBW d /\
  ScaledSendRankBWUnit d' = ScaledSendRankBWUnit d /\
  (exists y, ScaledRecvRankBW d' = <[rank := y]> (ScaledRecvRankBW d) /\
     (fneq (index (RecvRankBW d) rank) (S754_zero false) = false ->
        y = index (RecvRankBW d) rank /\ ScaledRecvRankBWUnit d' = "B/s")) /\
  exists l, w' = add_scaler_calls l w /\ Forall nonzero_call l.
Proof.
  unfold scale_recv. destruct (fneq _ _) eqn:Hnz.
  - unfold call_Float64s. rewrite !bind_unfold. simpl.
    destruct (Float64s _ _) as [[u xs] [e|]] eqn:HF; [done|].
    destruct xs as [|x xs]; [done|]. intros [= <- <-]. simpl.
    repeat split; try done.
    + exists x. split; [done|]. intros ?; congruence.
    + exists [("B/s", [index (RecvRankBW d) rank])]. split; [done|].
      constructor; [|constructor]. by eexists.
  - intros [= <- <-]. simpl. repeat split; try done.
    + by eexists.
    + exists []. by rewrite add_scaler_calls_nil.
Qed.

Lemma rank_body_next sc rc et rank d w d' w' :
  rank_body Float64s sc rc et rank d w = Returned (Next d') w' ->
  rank_done sc rc et rank d d' w w'.
Proof.
  unfold rank_body. rewrite bind_unfold.
  destruct (scale_send _ _ _ _) as [[d1|x] w1| |] eqn:Hs; try done.
  intros Hr.
  apply scale_send_next in Hs as (Hs1 & Hs2 & Hs3 & Hs4 & Hs5 & Hs6 & (x & Hs7 & Hs8) & ls & -> & Hls).
  apply scale_recv_next in Hr as (Hr1 & Hr2 & Hr3 & Hr4 & Hr5 & Hr6 & (y & Hr7 & Hr8) & lr & -> & Hlr).
  simpl in *. rewrite Hs3, Hs4 in *. simpl in *.
  unfold rank_done. rewrite Hr1, Hr2, Hr3, Hr4, Hr5, Hr6, Hr7, Hs1, Hs2, Hs5, Hs7.
  rewrite index_insert_same in Hs8, Hr8.
  repeat split; try done.
  - exists x. split; [done|]. intros Hz. destruct (Hs8 Hz) as [-> ->]. done.
  - exists y. split; [done|]. done.
  - exists (ls ++ lr). rewrite add_scaler_calls_app. split; [done|].
    by apply Forall_app.
Qed.

Lemma scale_send_total rank d w :
  scaler_accepts Float64s ->
  exists d' w', scale_send Float64s rank d w = Returned (Next d') w'.
Proof.
  intros Hok. unfold scale_send. destruct (fneq _ _) eqn:Hnz; [|by eexists _, _].
  unfold call_Float64s. rewrite !bind_unfold. simpl.
  destruct (Hok _ Hnz) as (u & x & xs & ->). by eexists _, _.
Qed.

Lemma scale_recv_total rank d w :
  scaler_accepts Float64s ->
  exists d' w', scale_recv Float64s rank d w = Returned (Next d') w'.
Proof.
  intros Hok. unfold scale_recv. destruct (fneq _ _) eqn:Hnz; [|by eexists _, _].
  unfold call_Float64s. rewrite !bind_unfold. simpl.
  destruct (Hok _ Hnz) as (u & x & xs & ->). by eexists _, _.
Qed.

Lemma rank_body_total sc rc et rank d w :
  scaler_accepts Float64s ->
  exists d' w', rank_body Float64s sc rc et rank d w = Returned (Next d') w'.
Proof.
  intros Hok. unfold rank_body. rewrite bind_unfold.
  edestruct scale_send_total as (d1 & w1 & ->); [done|].
  by apply scale_recv_total.
Qed.

Lemma scale_send_return rank d w x w' :
  scale_send Float64s rank d w = Returned (Return x) w' ->
  exists e, x = (None, Some e).
Proof.
  unfold scale_send. destruct (fneq _ _); [|done].
  unfold call_Float64s. rewrite !bind_unfold. simpl.
  destruct (Float64s _ _) as [[u xs] [e|]]; [|by destruct xs].
  intros [= <- <-]. by eexists.
Qed.

Lemma scale_recv_return rank d w x w' :
  scale_recv Float64s rank d w = Returned (Return x) w' ->
  exists e, x = (None, Some e).
Proof.
  unfold scale_recv. destruct (fneq _ _); [|done].
  unfold call_Float64s. rewrite !bind_unfold. simpl.
  destruct (Float64s _ _) as [[u xs] [e|]]; [|by destruct xs].
  intros [= <- <-]. by eexists.
Qed.

Lemma rank_body_return sc rc et rank d w x w' :
  rank_body Float64s sc rc et rank d w = Returned (Return x) w' ->
  exists e, x = (None, Some e).
Proof.
  unfold rank_body. rewrite bind_unfold.
  destruct (scale_send _ _ _ _) as [[d1|y] w1| |] eqn:Hs; try done.
  - apply scale_recv_return.
  - apply scale_send_return in Hs as (e & ->). intros [= <- <-]. by eexists.
Qed.

Lemma rank_loop_returns sc rc et n : forall rank d w d' w',
  rank_loop Float64s sc rc et n rank d w = Returned (Some d', None) w' ->
  ranks_done sc rc et n rank d d' w w'.
Proof.
  induction n as [|n IH]; intros rank d w d' w'.
  - intros [= <- <-]. unfold ranks_done. repeat split; try done.
    + intros r. case_decide; [lia|done].
    + intros r. case_decide; [lia|done].
    + intros r. case_decide; [lia|done].
    + intros r. case_decide; [lia|done].
    + exists []. by rewrite add_scaler_calls_nil.
  - simpl. rewrite bind_unfold.
    destruct (rank_body _ _ _ _ _ _ _) as [[d1|x] w1| |] eqn:Hb; try done.
    + intros Hl. apply rank_body_next in Hb. apply IH in Hl.
      destruct Hb as (B1 & B2 & B3 & B4 & (x & B5 & B6) & (y & B7 & B8) & lb & -> & Hlb).
      destruct Hl as (L1 & L2 & L3 & L4 & L5 & L6 & L7 & L8 & ll & -> & Hll).
      unfold ranks_done. split_and!.
      * congruence.
      * congruence.
      * intros r. rewrite L3, B3. destruct (decide (r = rank)) as [->|Hne].
        -- rewrite lookup_insert_eq. repeat case_decide; (lia || done).
        -- rewrite lookup_insert_ne by done. repeat case_decide; (lia || done).
      * intros r. rewrite L4, B4. destruct (decide (r = rank)) as [->|Hne].
        -- rewrite lookup_insert_eq. repeat case_decide; (lia || done).
        -- rewrite lookup_insert_ne by done. repeat case_decide; (lia || done).
      * intros r. specialize (L5 r). rewrite B5 in L5.
        destruct (decide (r = rank)) as [->|Hne].
        -- rewrite lookup_insert_eq in L5.
           rewrite decide_False in L5 by lia. rewrite decide_True by lia.
           exists x. split; [done|]. intros Hz. by destruct (B6 Hz).
        -- rewrite lookup_insert_ne in L5 by done.
           repeat case_decide; (lia || done).
      * intros r. specialize (L6 r). rewrite B7 in L6.
        destruct (decide (r = rank)) as [->|Hne].
        -- rewrite lookup_insert_eq in L6.
           rewrite decide_False in L6 by lia. rewrite decide_True by lia.
           exists y. split; [done|]. intros Hz. by destruct (B8 Hz).
        -- rewrite lookup_insert_ne in L6 by done.
           repeat case_decide; (lia || done).
      * rewrite decide_False by done. intros Hz.
        destruct (decide (n = 0%nat)) as [->|Hn].
        -- replace (rank + Z.of_nat 1 - 1) with rank in Hz by lia.
           destruct (B6 Hz) as [_ HU]. congruence.
        -- apply L7. by replace (rank + 1 + Z.of_nat n - 1)
             with (rank + Z.of_nat (S n) - 1) by lia.
      * rewrite decide_False by done. intros Hz.
        destruct (decide (n = 0%nat)) as [->|Hn].
        -- replace (rank + Z.of_nat 1 - 1) with rank in Hz by lia.
           destruct (B8 Hz) as [_ HU]. congruence.
        -- apply L8. by replace (rank + 1 + Z.of_nat n - 1)
             with (rank + Z.of_nat (S n) - 1) by lia.
      * exists (lb ++ ll). rewrite add_scaler_calls_app. split; [done|].
        by apply Forall_app.
    + apply rank_body_return in Hb as (e & ->). by intros [= ->].
Qed.

Lemma rank_loop_result_shape sc rc et n rank d w p err w' :
  rank_loop Float64s sc rc et n rank d w = Returned (p, err) w' ->
  (exists d', p = Some d' /\ err = None) \/ (exists e, p = None /\ err = Some e).
Proof.
  revert rank d w. induction n as [|n IH]; intros rank d w; simpl.
  - intros [= <- <- <-]. left. by eexists.
  - rewrite bind_unfold.
    destruct (rank_body _ _ _ _ _ _ _) as [[d1|x] w1| |] eqn:Hb; try done.
    + apply IH.
    + apply rank_body_return in Hb as (e & ->). intros [= <- <- <-]. right. by eexists.
Qed.

Lemma rank_loop_total sc rc et n : forall rank d w,
  scaler_accepts Float64s ->
  exists d' w', rank_loop Float64s sc rc et n rank d w = Returned (Some d', None) w'.
Proof.
  induction n as [|n IH]; intros rank d w Hok; simpl; [by eexists _, _|].
  rewrite bind_unfold.
  destruct (rank_body_total sc rc et rank d w Hok) as (d1 & w1 & ->).
  by apply IH.
Qed.

Lemma scale_send_cases rank d w :
  scaler_answers Float64s ->
  exists w', (exists d', scale_send Float64s rank d w = Returned (Next d') w') \/
             (exists e, scale_send Float64s rank d w = Returned (Return (None, Some e)) w').
Proof.
  intros Hans. unfold scale_send. destruct (fneq _ _); [|eexists; left; by eexists].
  unfold call_Float64s. rewrite !bind_unfold. simpl.
  destruct (Float64s _ _) as [[u xs] [e|]] eqn:HF.
  - eexists; right; by eexists.
  - destruct xs; [by apply Hans in HF|]. eexists; left; by eexists.
Qed.

Lemma scale_recv_cases rank d w :
  scaler_answers Float64s ->
  exists w', (exists d', scale_recv Float64s rank d w = Returned (Next d') w') \/
             (exists e, scale_recv Float64s rank d w = Returned (Return (None, Some e)) w').
Proof.
  intros Hans. unfold scale_recv. destruct (fneq _ _); [|eexists; left; by eexists].
  unfold call_Float64s. rewrite !bind_unfold. simpl.
  destruct (Float64s _ _) as [[u xs] [e|]] eqn:HF.
  - eexists; right; by eexists.
  - destruct xs; [by apply Hans in HF|]. eexists; left; by eexists.
Qed.

Lemma rank_body_cases sc rc et rank d w :
  scaler_answers Float64s ->
  exists w', (exists d', rank_body Float64s sc rc et rank d w = Returned (Next d') w') \/
             (exists e, rank_body Float64s sc rc et rank d w
                          = Returned (Return (None, Some e)) w').
Proof.
  intros Hans. unfold rank_body. rewrite bind_unfold.
  edestruct scale_send_cases as (w1 & [(d1 & ->)|(e & ->)]); [done| |].
  - by apply scale_recv_cases.
  - eexists; right; by eexists.
Qed.

Lemma rank_loop_cases sc rc et n : forall rank d w,
  scaler_answers Float64s ->
  exists w', (exists d', rank_loop Float64s sc rc et n rank d w = Returned (Some d', None) w') \/
             (exists e, rank_loop Float64s sc rc et n rank d w = Returned (None, Some e) w').
Proof.
  induction n as [|n IH]; intros rank d w Hans; simpl.
  - eexists; left; by eexists.
  - rewrite bind_unfold.
    destruct (rank_body_cases sc rc et rank d w Hans) as (w1 & [(d1 & ->)|(e & ->)]).
    + by apply IH.
    + eexists; right; by eexists.
Qed.

Lemma call_loop_returns ranks sc rc sds rds et n : forall call d w d' w',
  call_loop Float64s ranks sc rc sds rds et n call d w = Returned (Some d', None) w' ->
  calls_done Float64s ranks sc rc sds rds et n call d d'.
Proof.
  induction n as [|n IH]; intros call d w d' w'.
  - intros [= <- <-] c. rewrite decide_False by lia. done.
  - simpl. rewrite bind_unfold.
    destruct (GetFromCallCounts _ _ _ _ _ _ _ _) as [[cd [e|]] w1| |] eqn:HG; try done.
    intros Hl. apply IH in Hl. intros c. specialize (Hl c). simpl in Hl.
    destruct (decide (c = call)) as [->|Hne].
    + rewrite decide_False in Hl by lia. rewrite decide_True by lia.
      rewrite lookup_insert_eq in Hl.
      destruct cd as [cd|].
      * by exists cd, w, w1.
      * apply rank_loop_result_shape in HG as [(? & ? & ?)|(? & ? & ?)]; congruence.
    + rewrite lookup_insert_ne in Hl by done.
      repeat case_decide; (lia || done).
Qed.

Lemma call_loop_cases ranks sc rc sds rds et n : forall call d w,
  scaler_answers Float64s ->
  exists w',
    (exists d', call_loop Float64s ranks sc rc sds rds et n call d w
                  = Returned (Some d', None) w') \/
    (exists e, call_loop Float64s ranks sc rc sds rds et n call d w
                 = Returned (None, Some e) w').
Proof.
  induction n as [|n IH]; intros call d w Hans; simpl.
  - eexists; left; by eexists.
  - rewrite bind_unfold. unfold GetFromCallCounts.
    edestruct rank_loop_cases as (w1 & [(cd & ->)|(e & ->)]); [done| |].
    + by apply IH.
    + eexists; right; by eexists.
Qed.

Lemma size_of_range {V} (m : gmap Z V) (n : Z) :
  (forall r, is_Some (m !! r) <-> 0 <= r < n) -> size m = Z.to_nat n.
Proof.
  intros Hm. rewrite <- size_dom.
  assert (dom m = list_to_set (seqZ 0 n)) as ->.
  { apply set_eq. intros r. rewrite elem_of_dom, elem_of_list_to_set, elem_of_seqZ, Hm. lia. }
  rewrite size_list_to_set by apply NoDup_seqZ. by rewrite length_seqZ.
Qed.

Lemma ranks_done_populated sc rc et ranks d w w' :
  ranks_done sc rc et (Z.to_nat ranks) 0 new_CallData d w w' ->
  bandwidth_maps_populated ranks d.
Proof.
  intros (_ & _ & L3 & L4 & L5 & L6 & _).
  assert (forall r, is_Some (SendRankBW d !! r) <-> 0 <= r < ranks) as H1.
  { intros r. rewrite L3. case_decide; simpl.
    - split; [lia|by eexists].
    - rewrite lookup_empty. split; [by intros [? ?]|lia]. }
  assert (forall r, is_Some (RecvRankBW d !! r) <-> 0 <= r < ranks) as H2.
  { intros r. rewrite L4. case_decide; simpl.
    - split; [lia|by eexists].
    - rewrite lookup_empty. split; [by intros [? ?]|lia]. }
  assert (forall r, is_Some (ScaledSendRankBW d !! r) <-> 0 <= r < ranks) as H3.
  { intros r. specialize (L5 r). case_decide.
    - destruct L5 as (x & -> & _). split; [lia|by eexists].
    - rewrite L5. simpl. rewrite lookup_empty. split; [by intros [? ?]|lia]. }
  assert (forall r, is_Some (ScaledRecvRankBW d !! r) <-> 0 <= r < ranks) as H4.
  { intros r. specialize (L6 r). case_decide.
    - destruct L6 as (x & -> & _). split; [lia|by eexists].
    - rewrite L6. simpl. rewrite lookup_empty. split; [by intros [? ?]|lia]. }
  unfold bandwidth_maps_populated. split_and!; try done; by apply size_of_range.
Qed.

Lemma fdiv_zero_non_finite (x : float64) : non_finite (fdiv x (S754_zero false)).
Proof. by destruct x. Qed.

(** C1: for every [ranks >= 0] and every maps with a positive execution
    time for each rank below [ranks], GetFromCallCounts returns without
    error a record whose SendRankBW and RecvRankBW hold, for each such
    rank, the float64 quotient of the converted count by the time.  The
    scaler is assumed to answer the non-zero rates it is given. *)
Theorem GetFromCallCounts_rates ranks sc rc sds rds et w :
  scaler_accepts Float64s ->
  0 <= ranks ->
  (forall r, 0 <= r < ranks -> fpos (index et r) = true) ->
  exists d w',
    GetFromCallCounts Float64s ranks sc rc sds rds et w = Returned (Some d, None) w' /\
    forall r, 0 <= r < ranks ->
      SendRankBW d !! r = Some (fdiv (float64_of_int (index sc r)) (index et r)) /\
      RecvRankBW d !! r = Some (fdiv (float64_of_int (index rc r)) (index et r)).
Proof.
  intros Hok Hranks _. unfold GetFromCallCounts.
  destruct (rank_loop_total sc rc et (Z.to_nat ranks) 0 new_CallData w Hok) as (d & w' & Hl).
  exists d, w'. split; [done|]. intros r Hr.
  apply rank_loop_returns in Hl as (_ & _ & L3 & L4 & _).
  rewrite L3, L4. rewrite !decide_True by lia. done.
Qed.

(** C2, as amended: in every record produced by a successful
    GetFromCallCounts, and so in every record stored by a successful
    GetFromCallsCounts, the four bandwidth maps (raw and scaled, send and
    receive) have an entry for each rank below [ranks] and for nothing
    else, hence exactly [ranks] entries. *)
Theorem bandwidth_maps_all_ranks numCalls ranks sc rc sds rds et scs rcs ets d :
  (exists w w', GetFromCallCounts Float64s ranks sc rc sds rds et w
                  = Returned (Some d, None) w') \/
  (exists w w' bw call,
      GetFromCallsCounts Float64s numCalls ranks scs rcs sds rds ets w
        = Returned (Some bw, None) w' /\
      CallData_ bw !! call = Some (Some d)) ->
  bandwidth_maps_populated ranks d.
Proof.
  intros [(w & w' & HG)|(w & w' & bw & call & HG & Hcall)].
  - eapply ranks_done_populated, rank_loop_returns, HG.
  - apply call_loop_returns in HG. specialize (HG call). case_decide.
    + destruct HG as (cd & w0 & w1 & Hcd & HG). simplify_eq.
      eapply ranks_done_populated, rank_loop_returns, HG.
    + simpl in HG. rewrite lookup_empty in HG. congruence.
Qed.

(** C3, as amended: when [execTimes] has no entry for a rank below
    [ranks], the time is read as 0 and the call still succeeds (as long as
    the scaler answers): the two bandwidths of that rank are the quotients
    by zero, an infinity or a NaN. *)
Theorem missing_time_reads_zero ranks sc rc sds rds et w r :
  scaler_accepts Float64s ->
  0 <= r < ranks ->
  et !! r = None ->
  exists d w',
    GetFromCallCounts Float64s ranks sc rc sds rds et w = Returned (Some d, None) w' /\
    SendRankBW d !! r = Some (fdiv (float64_of_int (index sc r)) (S754_zero false)) /\
    RecvRankBW d !! r = Some (fdiv (float64_of_int (index rc r)) (S754_zero false)) /\
    non_finite (index (SendRankBW d) r) /\
    non_finite (index (RecvRankBW d) r).
Proof.
  intros Hok Hr Hnone. unfold GetFromCallCounts.
  destruct (rank_loop_total sc rc et (Z.to_nat ranks) 0 new_CallData w Hok) as (d & w' & Hl).
  exists d, w'. split; [done|].
  apply rank_loop_returns in Hl as (_ & _ & L3 & L4 & _).
  assert (index et r = S754_zero false) as Het by (unfold index; by rewrite Hnone).
  specialize (L3 r). specialize (L4 r). rewrite decide_True in L3, L4 by lia.
  unfold rate in L3, L4. rewrite Het in L3, L4.
  unfold index at 3 4. rewrite L3, L4. simpl.
  split_and!; try done; apply fdiv_zero_non_finite.
Qed.

(** C4, as amended: GetFromCallCounts never hands a zero bandwidth to the
    scaler, whatever its outcome; in a returned record a rank whose send
    (resp. receive) bandwidth is zero has that zero copied into the scaled
    map; and the single send (resp. receive) unit label of the record is
    "B/s" when the last rank, [ranks - 1], has a zero send (resp. receive)
    bandwidth. *)
Theorem zero_bandwidth_bypass ranks sc rc sds rds et w :
  (exists l,
      scaler_calls (final (GetFromCallCounts Float64s ranks sc rc sds rds et w))
        = scaler_calls w ++ l /\
      Forall nonzero_call l) /\
  forall d w',
    GetFromCallCounts Float64s ranks sc rc sds rds et w = Returned (Some d, None) w' ->
    (forall r, 0 <= r < ranks ->
       (fneq (index (SendRankBW d) r) (S754_zero false) = false ->
          ScaledSendRankBW d !! r = SendRankBW d !! r) /\
       (fneq (index (RecvRankBW d) r) (S754_zero false) = false ->
          ScaledRecvRankBW d !! r = RecvRankBW d !! r)) /\
    (0 < ranks -> fneq (index (SendRankBW d) (ranks - 1)) (S754_zero false) = false ->
       ScaledSendRankBWUnit d = "B/s") /\
    (0 < ranks -> fneq (index (RecvRankBW d) (ranks - 1)) (S754_zero false) = false ->
       ScaledRecvRankBWUnit d = "B/s").
Proof.
  split; [apply scaler_only_calls, scaler_only_GetFromCallCounts|].
  intros d w' HG. apply rank_loop_returns in HG as (_ & _ & L3 & L4 & L5 & L6 & L7 & L8 & _).
  assert (forall r, 0 <= r < ranks -> index (SendRankBW d) r = rate sc et r) as Hs.
  { intros r Hr. unfold index. rewrite L3, decide_True by lia. done. }
  assert (forall r, 0 <= r < ranks -> index (RecvRankBW d) r = rate rc et r) as Hr.
  { intros r Hr. unfold index. rewrite L4, decide_True by lia. done. }
  split_and!.
  - intros r Hrange. rewrite Hs, Hr, L3, L4 by done. rewrite !decide_True by lia.
    specialize (L5 r). specialize (L6 r). rewrite decide_True in L5, L6 by lia.
    destruct L5 as (x & -> & Hx). destruct L6 as (y & -> & Hy).
    split; intros Hz; f_equal; auto.
  - intros Hpos. rewrite Hs by lia. rewrite decide_False in L7 by lia.
    by replace (0 + Z.of_nat (Z.to_nat ranks) - 1) with (ranks - 1) in L7 by lia.
  - intros Hpos. rewrite Hr by lia. rewrite decide_False in L8 by lia.
    by replace (0 + Z.of_nat (Z.to_nat ranks) - 1) with (ranks - 1) in L8 by lia.
Qed.

(** C5: GetFromCallCounts and GetFromCallsCounts do not depend on the two
    datatype sizes: with every other argument equal, any two choices of
    sizes give the same computation. *)
Theorem datatype_sizes_unused numCalls ranks sc rc et scs rcs ets
    (sds1 rds1 sds2 rds2 : Z) (w : World) :
  GetFromCallCounts Float64s ranks sc rc sds1 rds1 et w
    = GetFromCallCounts Float64s ranks sc rc sds2 rds2 et w /\
  GetFromCallsCounts Float64s numCalls ranks scs rcs sds1 rds1 ets w
    = GetFromCallsCounts Float64s numCalls ranks scs rcs sds2 rds2 ets w.
Proof.
  split; [reflexivity|]. unfold GetFromCallsCounts.
  generalize (mkCallsData ∅). generalize 0. revert w.
  induction (Z.to_nat numCalls) as [|n IH]; intros w call d; [reflexivity|].
  simpl. rewrite !bind_unfold.
  change (GetFromCallCounts Float64s ranks (index scs call) (index rcs call) sds2 rds2
            (index ets call) w)
    with (GetFromCallCounts Float64s ranks (index scs call) (index rcs call) sds1 rds1
            (index ets call) w).
  destruct (GetFromCallCounts _ _ _ _ _ _ _ _) as [[cd [e|]] w1| |];
    [reflexivity|apply IH|reflexivity|reflexivity].
Qed.

(** C6: when the per-call computation of some call id below [numCalls]
    fails, GetFromCallsCounts returns an error and a nil CallsData, never
    the calls computed before the failure.  The scaler is assumed not to
    answer with neither a value nor an error. *)
Theorem GetFromCallsCounts_all_or_nothing numCalls ranks scs rcs sds rds ets w c p e w0 w1 :
  scaler_answers Float64s ->
  0 <= c < numCalls ->
  GetFromCallCounts Float64s ranks (index scs c) (index rcs c) sds rds (index ets c) w0
    = Returned (p, Some e) w1 ->
  exists e' w',
    GetFromCallsCounts Float64s numCalls ranks scs rcs sds rds ets w
      = Returned (None, Some e') w'.
Proof.
  intros Hans Hc Hfail. unfold GetFromCallsCounts.
  edestruct call_loop_cases as (w' & [(d' & Hl)|(e' & Hl)]); [done| |by eexists _, _].
  exfalso. apply call_loop_returns in Hl. specialize (Hl c).
  rewrite decide_True in Hl by lia. destruct Hl as (cd & w2 & w3 & _ & Hok).
  pose proof (scaler_only_verdict _ w0 w2
                (scaler_only_GetFromCallCounts ranks (index scs c) (index rcs c)
                   sds rds (index ets c))) as Hv.
  rewrite Hfail, Hok in Hv. done.
Qed.

(** C10: GetFromCallsCounts is a function of its arguments only: its
    result is the same in any two worlds, it touches neither the standard
    output nor the files, and two invocations in a row yield the same
    result. *)
Theorem GetFromCallsCounts_pure numCalls ranks scs rcs sds rds ets :
  let m := GetFromCallsCounts Float64s numCalls ranks scs rcs sds rds ets in
  (forall w1 w2, verdict (m w1) = verdict (m w2)) /\
  (forall w, stdout (final (m w)) = stdout w /\ files (final (m w)) = files w) /\
  (forall w, verdict ((r1 ← m; r2 ← m; mret (r1, r2)) w)
             = verdict ((r ← m; mret (r, r)) w)).
Proof.
  intros m.
  pose proof (scaler_only_GetFromCallsCounts numCalls ranks scs rcs sds rds ets) as Hm.
  fold m in Hm. split_and!.
  - intros w1 w2. by apply scaler_only_verdict.
  - intros w. by apply scaler_only_frame.
  - intros w. destruct Hm as (v & l & _ & Hm). rewrite !bind_unfold, Hm.
    destruct v as [r| |]; simpl; try done.
    rewrite !bind_unfold, Hm. done.
Qed.

End BandwidthFacts.

(** ** The reduction of the raw counts *)

Lemma wrap_in_int (z : Z) : in_int z -> wrap z = z.
Proof.
  unfold in_int, int_min, int_max, wrap. intros Hz.
  rewrite Z.mod_small by lia. lia.
Qed.

Lemma wrap_add_l (a c : Z) : wrap (wrap a + c) = wrap (a + c).
Proof.
  unfold wrap. f_equal.
  replace ((a + 2 ^ 63) mod 2 ^ 64 - 2 ^ 63 + c + 2 ^ 63)
    with ((a + 2 ^ 63) mod 2 ^ 64 + c) by lia.
  rewrite Zplus_mod_idemp_l. f_equal. lia.
Qed.

Lemma add_counts_other rank counts : forall m rank',
  rank <> rank' -> index (add_counts rank counts m) rank' = index m rank'.
Proof.
  unfold add_counts. induction counts as [|c cs IH]; intros m rank' Hne; simpl; [done|].
  rewrite IH by done. by apply index_insert_ne.
Qed.

Lemma add_counts_same rank counts : forall m,
  index (add_counts rank counts m) rank =
  match counts with
  | [] => index m rank
  | _ :: _ => wrap (index m rank + exact_sum counts)
  end.
Proof.
  unfold add_counts. induction counts as [|c cs IH]; intros m; simpl; [done|].
  rewrite IH, index_insert_same. unfold int_add. destruct cs as [|c' cs]; simpl.
  - f_equal. lia.
  - rewrite wrap_add_l. f_equal. lia.
Qed.

Lemma reduce_ranks_index (ranksData : gmap Z (list Z)) (rank : Z) :
  index (reduce_ranks ranksData) rank = wrap (exact_sum (index ranksData rank)).
Proof.
  unfold reduce_ranks. revert rank.
  apply (map_fold_weak_ind
           (fun r m => forall rank, index r rank = wrap (exact_sum (index m rank)))).
  - intros rank. reflexivity.
  - intros i x m r Hi IH rank. destruct (decide (i = rank)) as [->|Hne].
    + rewrite add_counts_same, index_insert_same, IH.
      unfold index at 1 2. rewrite Hi. simpl.
      destruct x; [reflexivity|]. by rewrite wrap_add_l.
    + rewrite add_counts_other, index_insert_ne by done. apply IH.
Qed.

Lemma reduce_send_lookup (callsData : gmap Z counts.CallData) (callId : Z) :
  (reduce_send callsData).2 !! callId =
  (fun cd => reduce_ranks (index (counts.Counts (counts.SendData cd)) callId))
    <$> callsData !! callId.
Proof.
  unfold reduce_send. revert callId.
  apply (map_fold_weak_ind
           (fun (r : list Z * gmap Z (gmap Z Z)) m => forall callId,
              r.2 !! callId =
              (fun cd => reduce_ranks (index (counts.Counts (counts.SendData cd)) callId))
                <$> m !! callId)).
  - intros callId. by rewrite !lookup_empty.
  - intros i x m [l sd] Hi IH callId. simpl in *.
    destruct (decide (i = callId)) as [->|Hne].
    + by rewrite !lookup_insert_eq.
    + rewrite !lookup_insert_ne by done. apply IH.
Qed.

Lemma reduce_recv_lookup (callsData : gmap Z counts.CallData) (callId : Z) :
  reduce_recv callsData !! callId =
  (fun cd => reduce_ranks (index (counts.Counts (counts.RecvData cd)) callId))
    <$> callsData !! callId.
Proof.
  unfold reduce_recv. revert callId.
  apply (map_fold_weak_ind
           (fun (r : gmap Z (gmap Z Z)) m => forall callId,
              r !! callId =
              (fun cd => reduce_ranks (index (counts.Counts (counts.RecvData cd)) callId))
                <$> m !! callId)).
  - intros callId. by rewrite !lookup_empty.
  - intros i x m r Hi IH callId.
    destruct (decide (i = callId)) as [->|Hne].
    + by rewrite !lookup_insert_eq.
    + rewrite !lookup_insert_ne by done. apply IH.
Qed.

Lemma send_total_sum callsData callId rank :
  index (index (reduce_send callsData).2 callId) rank
  = wrap (exact_sum (raw_send callsData callId rank)).
Proof.
  unfold raw_send, index at 1 2. rewrite reduce_send_lookup.
  destruct (callsData !! callId) as [cd|]; simpl; [|reflexivity].
  apply reduce_ranks_index.
Qed.

Lemma recv_total_sum callsData callId rank :
  index (index (reduce_recv callsData) callId) rank
  = wrap (exact_sum (raw_recv callsData callId rank)).
Proof.
  unfold raw_recv, index at 1 2. rewrite reduce_recv_lookup.
  destruct (callsData !! callId) as [cd|]; simpl; [|reflexivity].
  apply reduce_ranks_index.
Qed.

(** ** The two decimals of [%.2f] *)

Lemma two_digits_length (n : Z) : 0 <= n < 100 -> String.length (two_digits n) = 2%nat.
Proof.
  intros Hn.
  assert (forallb (fun k => Nat.eqb (String.length (two_digits k)) 2) (seqZ 0 100) = true)
    as Hall by (vm_compute; reflexivity).
  rewrite forallb_forall in Hall. apply Nat.eqb_eq, Hall.
  apply list_elem_of_In, elem_of_seqZ. lia.
Qed.

Lemma fmt_f2_finite (s : bool) (m : positive) (e : Z) :
  exists units cents : Z,
    fmt_f2 (S754_finite s m e)
      = sign_string s +:+ pretty units +:+ "." +:+ two_digits cents /\
    0 <= cents < 100 /\ String.length (two_digits cents) = 2%nat.
Proof.
  exists (hundredths m e / 100), (hundredths m e mod 100).
  assert (0 <= hundredths m e mod 100 < 100) as Hc by (apply Z.mod_pos_bound; lia).
  split_and!; [reflexivity|lia|lia|]. by apply two_digits_length.
Qed.

(** ** The call ids of the report *)

Lemma reduce_send_calls (callsData : gmap Z counts.CallData) :
  NoDup (reduce_send callsData).1 /\
  forall c, c ∈ (reduce_send callsData).1 <-> is_Some (callsData !! c).
Proof.
  unfold reduce_send.
  apply (map_fold_weak_ind
           (fun (r : list Z * gmap Z (gmap Z Z)) (m : gmap Z counts.CallData) =>
              NoDup r.1 /\ forall c, c ∈ r.1 <-> is_Some (m !! c))).
  - split; [constructor|]. intros c. rewrite lookup_empty. simpl.
    split; [by intros ?%elem_of_nil|by intros [? ?]].
  - intros i x m [l sd] Hi [Hnd Hin]. simpl in *. split.
    + apply NoDup_app. split_and!; [done| |apply NoDup_singleton].
      intros c Hc ->%list_elem_of_singleton. apply Hin in Hc as [? ?]. congruence.
    + intros c. rewrite elem_of_app, list_elem_of_singleton, Hin.
      destruct (decide (i = c)) as [->|Hne].
      * rewrite lookup_insert_eq. split; [by eexists|by right].
      * rewrite lookup_insert_ne by done. split; [by intros [?|?]|by left].
Qed.

Lemma StronglySorted_le_NoDup_lt (l : list Z) :
  StronglySorted Z.le l -> NoDup l -> StronglySorted Z.lt l.
Proof.
  induction 1 as [|x l Hs IH Hall]; intros Hnd; [constructor|].
  apply NoDup_cons in Hnd as [Hx Hnd]. constructor; [by apply IH|].
  rewrite Forall_forall in Hall |- *. intros y Hy.
  assert (x <> y) by (intros ->; done). specialize (Hall y Hy). lia.
Qed.

Lemma sorted_calls (callsData : gmap Z counts.CallData) :
  StronglySorted Z.lt (sort_Ints (reduce_send callsData).1) /\
  forall c, c ∈ sort_Ints (reduce_send callsData).1 <-> is_Some (callsData !! c).
Proof.
  destruct (reduce_send_calls callsData) as [Hnd Hin]. unfold sort_Ints. split.
  - apply StronglySorted_le_NoDup_lt.
    + apply StronglySorted_merge_sort; apply _.
    + by rewrite merge_sort_Permutation.
  - intros c. by rewrite merge_sort_Permutation.
Qed.

(** ** Writing the report *)

Lemma string_app_nil_r (s : string) : s +:+ EmptyString = s.
Proof.
  induction s as [|a s IH]; [done|].
  change (String a (s +:+ EmptyString) = String a s). by f_equal.
Qed.

Lemma string_app_assoc (s1 s2 s3 : string) : (s1 +:+ s2) +:+ s3 = s1 +:+ (s2 +:+ s3).
Proof.
  induction s1 as [|a s1 IH]; [done|].
  change (String a ((s1 +:+ s2) +:+ s3) = String a (s1 +:+ (s2 +:+ s3))). by f_equal.
Qed.

Lemma seqZ_of_to_nat (m n : Z) : seqZ m (Z.of_nat (Z.to_nat n)) = seqZ m n.
Proof. unfold seqZ. by rewrite Nat2Z.id. Qed.

Section DriverFacts.

Variable Float64s : string -> list float64 -> string * list float64 * option error.
Variable filepath_Join : string -> string -> string.
Variable create_error : string -> option error.
Variable write_error : string -> string -> option error.

Hypothesis writes_succeed : forall content piece, write_error content piece = None.

Lemma WriteString_appends path s w old :
  files w !! path = Some old ->
  WriteString write_error path s w
  = Returned None
      (mkWorld (stdout w) (<[path := old +:+ s]> (files w)) (scaler_calls w) (logger w)).
Proof. intros Hold. unfold WriteString. by rewrite Hold, writes_succeed. Qed.

Lemma write_ranks_appends path cd n : forall rank w old,
  files w !! path = Some old ->
  write_ranks write_error path (Some cd) n rank w
  = Returned tt
      (mkWorld (stdout w)
         (<[path := old +:+ foldr String.append EmptyString (rank_line cd <$> seqZ rank (Z.of_nat n))]>
            (files w))
         (scaler_calls w) (logger w)).
Proof.
  induction n as [|n IH]; intros rank w old Hold.
  - simpl. rewrite string_app_nil_r, insert_id by done. by destruct w.
  - cbn [write_ranks]. rewrite bind_unfold.
    rewrite (WriteString_appends _ _ _ old) by done.
    rewrite (IH _ _ (old +:+ rank_line cd rank)) by (simpl; apply lookup_insert_eq).
    cbn [files stdout scaler_calls logger]. rewrite insert_insert_eq.
    rewrite (seqZ_cons rank (Z.of_nat (S n))) by lia.
    cbn [fmap list_fmap foldr]. rewrite string_app_assoc.
    replace (Z.pred (Z.of_nat (S n))) with (Z.of_nat n) by lia.
    replace (Z.succ rank) with (rank + 1) by lia. done.
Qed.

Lemma write_calls_appends path bw numRanks : forall allCalls w old,
  (forall c, c ∈ allCalls -> is_Some (index (CallData_ bw) c)) ->
  files w !! path = Some old ->
  write_calls write_error path (Some bw) numRanks allCalls w
  = Returned tt
      (mkWorld (stdout w)
         (<[path := old +:+ report numRanks bw allCalls]> (files w))
         (scaler_calls w) (logger w)).
Proof.
  induction allCalls as [|c cs IH]; intros w old Hall Hold.
  - simpl. unfold report. simpl. rewrite string_app_nil_r, insert_id by done. by destruct w.
  - cbn [write_calls]. rewrite bind_unfold.
    rewrite (WriteString_appends _ _ _ old) by done.
    destruct (Hall c) as [cd Hcd]; [by left|]. rewrite Hcd.
    rewrite !bind_unfold.
    rewrite (write_ranks_appends _ _ _ _ _ (old +:+ call_header c))
      by (simpl; apply lookup_insert_eq).
    cbn [files stdout scaler_calls logger]. rewrite insert_insert_eq.
    rewrite bind_unfold.
    erewrite WriteString_appends by (simpl; apply lookup_insert_eq).
    cbn [files stdout scaler_calls logger]. rewrite insert_insert_eq.
    erewrite IH; [|by intros c' Hc'; apply Hall; right|simpl; apply lookup_insert_eq].
    cbn [files stdout scaler_calls logger]. rewrite insert_insert_eq.
    do 3 f_equal. unfold report. cbn [fmap list_fmap foldr]. rewrite Hcd.
    unfold report_block. rewrite seqZ_of_to_nat.
    by rewrite !string_app_assoc.
Qed.

Lemma main_comm_calls_aggregator outputDir leadRank callsData first rest execTimes w :
  let numRanks := counts.Raw.CommSize (counts.Raw.Counts first) in
  let sendDatatypeSize := counts.Raw.SendDatatypeSize (counts.Raw.Counts first) in
  let recvDatatypeSize := counts.Raw.RecvDatatypeSize (counts.Raw.Counts first) in
  numRanks <> 0 -> sendDatatypeSize <> 0 -> recvDatatypeSize <> 0 ->
  main_comm Float64s filepath_Join create_error write_error outputDir leadRank
    callsData (first :: rest) execTimes w
  = (_ ← log_Println write_error "-> Calculating bandwidths...";
     r ← GetFromCallsCounts Float64s (Z.of_nat (size callsData)) numRanks
           (reduce_send callsData).2 (reduce_recv callsData)
           sendDatatypeSize recvDatatypeSize execTimes;
     save_report filepath_Join create_error write_error outputDir leadRank numRanks
       (sort_Ints (reduce_send callsData).1) r) w.
Proof.
  intros numRanks sds rds Hn Hs Hr. unfold main_comm.
  destruct (reduce_send callsData) as [allCalls sd]. simpl.
  fold numRanks sds rds.
  destruct (Z.eqb_spec numRanks 0); [done|].
  destruct (Z.eqb_spec sds 0); [done|].
  destruct (Z.eqb_spec rds 0); [done|]. done.
Qed.

(** The text that the report loops write is the report of the
    specification on the unscaled bandwidths of the records. *)
Lemma call_header_as_specified callId :
  call_header callId = spec_call_line callId +:+ spec_column_line.
Proof.
  unfold call_header, spec_call_line, spec_column_line.
  by rewrite !string_app_assoc.
Qed.

Lemma report_as_specified numRanks bw allCalls :
  (forall c, c ∈ allCalls -> is_Some (index (CallData_ bw) c)) ->
  report numRanks bw allCalls
  = spec_report numRanks (unscaled_send bw) (unscaled_recv bw) allCalls.
Proof.
  intros Hall. unfold report, spec_report. f_equal.
  apply list_fmap_ext. intros i c Hc.
  destruct (Hall c) as [d Hd]; [by eapply list_elem_of_lookup_2|].
  rewrite Hd. unfold report_block, spec_block.
  rewrite call_header_as_specified, !string_app_assoc. do 3 f_equal. f_equal.
  apply list_fmap_ext. intros j r _.
  unfold rank_line, spec_rank_line, unscaled_send, unscaled_recv. by rewrite Hd.
Qed.

Lemma round_half_even_nearest (n d : Z) :
  0 <= n -> 0 < d -> 2 * Z.abs (n - round_half_even n d * d) <= d.
Proof.
  intros Hn Hd. unfold round_half_even.
  pose proof (Z.div_mod n d ltac:(lia)) as Hdiv.
  pose proof (Z.mod_pos_bound n d Hd) as Hmod.
  destruct (Z.compare_spec (2 * (n mod d)) d) as [Heq|Hlt|Hgt].
  - destruct (Z.even (n / d)); nia.
  - nia.
  - nia.
Qed.

Lemma hundredths_nonneg (m : positive) (e : Z) : 0 <= hundredths m e.
Proof.
  unfold hundredths. destruct (Z.leb_spec 0 e) as [He|He].
  - assert (0 < 2 ^ e) by (apply Z.pow_pos_nonneg; lia). nia.
  - assert (0 < 2 ^ (- e)) as Hd by (apply Z.pow_pos_nonneg; lia).
    pose proof (round_half_even_nearest (Z.pos m * 100) (2 ^ (- e)) ltac:(lia) Hd). nia.
Qed.

Lemma two_digits_digits (c : Z) :
  0 <= c < 100 -> two_digits c = digit (c / 10) +:+ digit (c mod 10).
Proof.
  intros Hc.
  assert (forallb (fun k => String.eqb (two_digits k) (digit (k / 10) +:+ digit (k mod 10)))
            (seqZ 0 100) = true) as Hall by (vm_compute; reflexivity).
  rewrite forallb_forall in Hall. apply String.eqb_eq, Hall.
  apply list_elem_of_In, elem_of_seqZ. lia.
Qed.

(** [%.2f] shows a number with two decimal places. *)
Lemma fmt_f2_two_decimal_places (x : float64) : two_decimal_places x (fmt_f2 x).
Proof.
  destruct x as [sg|sg| |sg m e]; try done.
  pose proof (hundredths_nonneg m e) as Hh.
  set (h := hundredths m e) in *.
  assert (0 <= h mod 100 < 100) as Hc by (apply Z.mod_pos_bound; lia).
  exists (h / 100), (h mod 100 / 10), (h mod 100 mod 10).
  assert (0 <= h / 100) by (apply Z.div_pos; lia).
  assert (0 <= h mod 100 / 10 <= 9).
  { split; [apply Z.div_pos; lia|].
    assert (h mod 100 / 10 < 10) by (apply Z.div_lt_upper_bound; lia). lia. }
  assert (0 <= h mod 100 mod 10 <= 9).
  { pose proof (Z.mod_pos_bound (h mod 100) 10 ltac:(lia)). lia. }
  split; [done|]. split; [done|]. split; [done|]. split.
  - cbn [fmt_f2]. fold h. rewrite two_digits_digits by done.
    unfold sign_string. by destruct sg.
  - cbv zeta.
    assert (100 * (h / 100) + 10 * (h mod 100 / 10) + h mod 100 mod 10 = h) as ->.
    { pose proof (Z.div_mod h 100 ltac:(lia)). pose proof (Z.div_mod (h mod 100) 10 ltac:(lia)).
      lia. }
    subst h. unfold hundredths. destruct (Z.leb_spec 0 e) as [He|He]; [lia|].
    assert (0 < 2 ^ (- e)) as Hd by (apply Z.pow_pos_nonneg; lia).
    pose proof (round_half_even_nearest (Z.pos m * 100) (2 ^ (- e)) ltac:(lia) Hd).
    by replace (100 * Z.pos m) with (Z.pos m * 100) by lia.
Qed.

(** C7: before the aggregator is called, [main] has reduced the raw
    counts: the send and the receive total that GetFromCallsCounts is given
    for a call id and a rank are the sums, in [int] arithmetic, of the raw
    list of counts of that call and rank, and the exact sums whenever these
    fit an [int]; GetFromCallsCounts only ever gets the totals. *)
Theorem raw_counts_reduced outputDir leadRank callsData first rest execTimes callId rank :
  let numRanks := counts.Raw.CommSize (counts.Raw.Counts first) in
  let sendDatatypeSize := counts.Raw.SendDatatypeSize (counts.Raw.Counts first) in
  let recvDatatypeSize := counts.Raw.RecvDatatypeSize (counts.Raw.Counts first) in
  let sendData := (reduce_send callsData).2 in
  let recvData := reduce_recv callsData in
  numRanks <> 0 -> sendDatatypeSize <> 0 -> recvDatatypeSize <> 0 ->
  (forall w,
     main_comm Float64s filepath_Join create_error write_error outputDir leadRank
       callsData (first :: rest) execTimes w
     = (_ ← log_Println write_error "-> Calculating bandwidths...";
        r ← GetFromCallsCounts Float64s (Z.of_nat (size callsData)) numRanks
              sendData recvData sendDatatypeSize recvDatatypeSize execTimes;
        save_report filepath_Join create_error write_error outputDir leadRank numRanks
          (sort_Ints (reduce_send callsData).1) r) w) /\
  index (index sendData callId) rank = wrap (exact_sum (raw_send callsData callId rank)) /\
  index (index recvData callId) rank = wrap (exact_sum (raw_recv callsData callId rank)) /\
  (in_int (exact_sum (raw_send callsData callId rank)) ->
     index (index sendData callId) rank = exact_sum (raw_send callsData callId rank)) /\
  (in_int (exact_sum (raw_recv callsData callId rank)) ->
     index (index recvData callId) rank = exact_sum (raw_recv callsData callId rank)).
Proof.
  intros numRanks sds rds sendData recvData Hn Hs Hr. split_and!.
  - intros w. by apply main_comm_calls_aggregator.
  - apply send_total_sum.
  - apply recv_total_sum.
  - intros Hin. subst sendData. by rewrite send_total_sum, wrap_in_int.
  - intros Hin. subst recvData. by rewrite recv_total_sum, wrap_in_int.
Qed.

(** C9: when the communicator size, the send datatype size or the receive
    datatype size of the first count record is zero, [main] prints an error
    and exits with status 1 before any bandwidth is computed and before the
    report file is created or written.  The world [w0] in which it does so is
    the one that the logger leaves at line 262: it is [w] itself unless the
    logger writes its lines, it has the scaler calls of [w], and its files
    are those of [w] but for the log file. *)
Theorem degenerate_header_exits outputDir leadRank callsData first rest execTimes w :
  counts.Raw.CommSize (counts.Raw.Counts first) = 0 \/
  counts.Raw.SendDatatypeSize (counts.Raw.Counts first) = 0 \/
  counts.Raw.RecvDatatypeSize (counts.Raw.Counts first) = 0 ->
  let w0 := logged write_error calculating w in
  exists msg,
    main_comm Float64s filepath_Join create_error write_error outputDir leadRank
      callsData (first :: rest) execTimes w
    = Exited 1 (mkWorld (stdout w0 ++ [msg]) (files w0) (scaler_calls w0) (logger w0)) /\
    (msg = "ERROR: invalid number of ranks: 0" +:+ nl \/
     msg = "ERROR: invalid send datatype size: 0" +:+ nl \/
     msg = "ERROR: invalid recv datatype size: 0" +:+ nl) /\
    scaler_calls w0 = scaler_calls w /\
    (forall p, log_out (logger w) <> MultiWriter_Stdout p -> files w0 !! p = files w !! p) /\
    (log_out (logger w) = ioutil_Discard -> w0 = w).
Proof.
  intros Hzero w0.
  assert (scaler_calls w0 = scaler_calls w /\
          (forall p, log_out (logger w) <> MultiWriter_Stdout p ->
             files w0 !! p = files w !! p) /\
          (log_out (logger w) = ioutil_Discard -> w0 = w)) as Hw0.
  { split_and!; [apply logged_scaler_calls|intros p; apply logged_files|apply logged_discard]. }
  unfold main_comm.
  destruct (reduce_send callsData) as [allCalls sd]. rewrite bind_unfold.
  change (log_Println write_error "-> Calculating bandwidths..." w) with (Returned tt w0).
  cbv iota.
  destruct (Z.eqb_spec (counts.Raw.CommSize (counts.Raw.Counts first)) 0) as [->|Hn].
  { eexists. split; [reflexivity|]. split; [by left|done]. }
  destruct (Z.eqb_spec (counts.Raw.SendDatatypeSize (counts.Raw.Counts first)) 0) as [->|Hs].
  { eexists. split; [reflexivity|]. split; [right; by left|done]. }
  destruct (Z.eqb_spec (counts.Raw.RecvDatatypeSize (counts.Raw.Counts first)) 0) as [->|Hr].
  { eexists. split; [reflexivity|]. split; [right; by right|done]. }
  by destruct Hzero as [?|[?|?]].
Qed.

(** C8: when the call ids are those below the number of calls and the
    file operations succeed, the report written for a computed CallsData is
    the report of the specification: for each call id in ascending order,
    the header line "# Call" with the id, the line of the two column titles,
    one line per rank in ascending order with the send and then the receive
    bandwidth under [%.2f] separated by a tab, and one empty line.  The
    bandwidths are the unscaled ones of the CallsData, which are the
    quotients of the totals by the execution times, and [%.2f] shows a
    number with two decimal places. *)
Theorem report_rendered outputDir leadRank callsData first rest execTimes w bw w1 :
  let numRanks := counts.Raw.CommSize (counts.Raw.Counts first) in
  let sendDatatypeSize := counts.Raw.SendDatatypeSize (counts.Raw.Counts first) in
  let recvDatatypeSize := counts.Raw.RecvDatatypeSize (counts.Raw.Counts first) in
  let outputFilePath := filepath_Join outputDir (GetOutputFilename leadRank) in
  numRanks <> 0 -> sendDatatypeSize <> 0 -> recvDatatypeSize <> 0 ->
  (forall c, is_Some (callsData !! c) -> 0 <= c < Z.of_nat (size callsData)) ->
  GetFromCallsCounts Float64s (Z.of_nat (size callsData)) numRanks
    (reduce_send callsData).2 (reduce_recv callsData)
    sendDatatypeSize recvDatatypeSize execTimes w = Returned (Some bw, None) w1 ->
  create_error outputFilePath = None ->
  exists allCalls w2,
    StronglySorted Z.lt allCalls /\
    (forall c, c ∈ allCalls <-> is_Some (callsData !! c)) /\
    main_comm Float64s filepath_Join create_error write_error outputDir leadRank
      callsData (first :: rest) execTimes w = Returned tt w2 /\
    files w2 !! outputFilePath
    = Some (spec_report numRanks (unscaled_send bw) (unscaled_recv bw) allCalls) /\
    (forall c r, c ∈ allCalls -> 0 <= r < numRanks ->
       exists d,
         CallData_ bw !! c = Some (Some d) /\
         SendRankBW d !! r = Some (unscaled_send bw c r) /\
         RecvRankBW d !! r = Some (unscaled_recv bw c r) /\
         unscaled_send bw c r
         = rate (index (reduce_send callsData).2 c) (index execTimes c) r /\
         unscaled_recv bw c r
         = rate (index (reduce_recv callsData) c) (index execTimes c) r) /\
    (forall x, two_decimal_places x (fmt_f2 x)).
Proof.
  intros numRanks sds rds path Hn Hs Hr Hids Hbw Hcreate.
  destruct (sorted_calls callsData) as [Hsorted Hin].
  assert (forall c r, c ∈ sort_Ints (reduce_send callsData).1 -> 0 <= r < numRanks ->
            exists d,
              CallData_ bw !! c = Some (Some d) /\
              SendRankBW d !! r = Some (unscaled_send bw c r) /\
              RecvRankBW d !! r = Some (unscaled_recv bw c r) /\
              unscaled_send bw c r
              = rate (index (reduce_send callsData).2 c) (index execTimes c) r /\
              unscaled_recv bw c r
              = rate (index (reduce_recv callsData) c) (index execTimes c) r) as Hrates.
  { intros c r Hc Hrk. apply Hin, Hids in Hc.
    pose proof (call_loop_returns _ _ _ _ _ _ _ _ _ _ _ _ _ Hbw c) as Hcall.
    rewrite decide_True in Hcall by lia.
    destruct Hcall as (d & w0 & w0' & Hd & Hrun). exists d.
    apply rank_loop_returns in Hrun as (_ & _ & L3 & L4 & _).
    specialize (L3 r). specialize (L4 r). rewrite decide_True in L3, L4 by lia.
    assert (index (CallData_ bw) c = Some d) as Hidx by (unfold index; by rewrite Hd).
    assert (index (SendRankBW d) r
            = rate (index (reduce_send callsData).2 c) (index execTimes c) r) as Es
      by (unfold index at 1; by rewrite L3).
    assert (index (RecvRankBW d) r
            = rate (index (reduce_recv callsData) c) (index execTimes c) r) as Er
      by (unfold index at 1; by rewrite L4).
    unfold unscaled_send, unscaled_recv. rewrite Hidx, Es, Er. done. }
  assert (forall c, c ∈ sort_Ints (reduce_send callsData).1 ->
                    is_Some (index (CallData_ bw) c)) as Hall.
  { intros c Hc. apply Hin, Hids in Hc.
    pose proof (call_loop_returns _ _ _ _ _ _ _ _ _ _ _ _ _ Hbw c) as Hcall.
    rewrite decide_True in Hcall by lia.
    destruct Hcall as (cd & _ & _ & Hcd & _). unfold index. rewrite Hcd. by eexists. }
  destruct (scaler_only_returned _ _ _ _
              (scaler_only_GetFromCallsCounts Float64s (Z.of_nat (size callsData)) numRanks
                 (reduce_send callsData).2 (reduce_recv callsData) sds rds execTimes) Hbw)
    as (l & _ & Hany).
  eexists (sort_Ints (reduce_send callsData).1), _.
  split_and!; [done|done| | |done|apply fmt_f2_two_decimal_places].
  - rewrite main_comm_calls_aggregator by done.
    fold numRanks sds rds. rewrite bind_log_Println, bind_unfold, Hany.
    unfold save_report. fold path. rewrite bind_log_Println, bind_unfold.
    unfold os_Create. rewrite Hcreate. rewrite bind_unfold.
    erewrite write_calls_appends; [|done|simpl; apply lookup_insert_eq].
    reflexivity.
  - simpl. rewrite insert_insert_eq, lookup_insert_eq.
    by rewrite report_as_specified.
Qed.

End DriverFacts.

(** ** The modelled scalers meet the assumptions made on the scaler *)

Lemma Float64s_spec_accepts : scaler_accepts Float64s_spec.
Proof.
  intros v _. unfold Float64s_spec.
  change (String.eqb "B/s" "B/s") with true. cbv iota.
  destruct (pick_prefix _ _ _ _) as [p divisor]. by eexists _, _, _.
Qed.

Lemma Float64s_spec_answers : scaler_answers Float64s_spec.
Proof.
  intros unitID values u. unfold Float64s_spec.
  destruct values as [|v vs]; [done|].
  destruct (String.eqb unitID "B/s"); [|done].
  by destruct (pick_prefix _ _ _ _) as [p divisor].
Qed.

Lemma Float64s_small_only_answers : scaler_answers Float64s_small_only.
Proof.
  intros unitID values u. unfold Float64s_small_only.
  destruct values as [|v vs]; [done|]. by destruct (SFleb _ _).
Qed.

(** ** The scenarios of the specification *)

Example report_block_example :
  report_block 2 two_rank_record 0
  = "# Call 0" +:+ nl
    +:+ "send BW (B/s)" +:+ tab +:+ "receive BW (B/s)" +:+ nl
    +:+ "100.00" +:+ tab +:+ "50.00" +:+ nl
    +:+ "0.00" +:+ tab +:+ "0.00" +:+ nl
    +:+ nl.
Proof. vm_compute. reflexivity. Qed.

Example end_to_end_example :
  exists bw d w',
    GetFromCallsCounts Float64s_spec 1 2 sample_send sample_recv 4 4 sample_times empty_world
      = Returned (Some bw, None) w' /\
    CallData_ bw !! 0 = Some (Some d) /\
    SendRankBW d = {[ 0 := F 1000; 1 := F 1000 ]} /\
    RecvRankBW d = {[ 0 := F 500; 1 := F 0 ]}.
Proof.
  eexists _, _, _. split_and!.
  - vm_compute. reflexivity.
  - vm_compute. reflexivity.
  - vm_compute. reflexivity.
  - vm_compute. reflexivity.
Qed.

Example fmt_f2_ties_to_even :
  fmt_f2 (fdiv (F 1) (F 8)) = "0.12" /\ fmt_f2 (fdiv (F 3) (F (-8))) = "-0.38" /\
  fmt_f2 (fdiv (F 1) (F 0)) = "+Inf" /\ fmt_f2 (fdiv (F 0) (F 0)) = "NaN".
Proof. vm_compute. done. Qed.

Example GetOutputFilename_example : GetOutputFilename 3 = "bandwidth-percall-comm3.md".
Proof. vm_compute. reflexivity. Qed.

(** ** The theorems at concrete inputs *)

Lemma GetFromCallCounts_rates_witness :
  scaler_accepts Float64s_spec /\ 0 <= 2 /\
  (forall r, 0 <= r < 2 -> fpos (index (index sample_times 0) r) = true) /\
  exists d w',
    GetFromCallCounts Float64s_spec 2 (index sample_send 0) (index sample_recv 0) 4 4
      (index sample_times 0) empty_world = Returned (Some d, None) w' /\
    forall r, 0 <= r < 2 ->
      SendRankBW d !! r
        = Some (fdiv (float64_of_int (index (index sample_send 0) r))
                  (index (index sample_times 0) r)) /\
      RecvRankBW d !! r
        = Some (fdiv (float64_of_int (index (index sample_recv 0) r))
                  (index (index sample_times 0) r)).
Proof.
  assert (forall r, 0 <= r < 2 -> fpos (index (index sample_times 0) r) = true) as Hpos.
  { intros r Hr. assert (r = 0 \/ r = 1) as [-> | ->] by lia; vm_compute; reflexivity. }
  split; [apply Float64s_spec_accepts|]. split; [lia|]. split; [exact Hpos|].
  apply (GetFromCallCounts_rates Float64s_spec 2 (index sample_send 0) (index sample_recv 0)
           4 4 (index sample_times 0) empty_world Float64s_spec_accepts).
  - lia.
  - exact Hpos.
Defined.

Lemma send_and_recv_bytes_not_populated :
  exists d w',
    GetFromCallCounts Float64s_spec 2 (index sample_send 0) (index sample_recv 0) 4 4
      (index sample_times 0) empty_world = Returned (Some d, None) w' /\
    ~ all_maps_populated 2 d.
Proof.
  eexists _, _. split; [vm_compute; reflexivity|].
  intros Hall. destruct (Hall 0) as ([x Hx] & _); [lia|].
  vm_compute in Hx. discriminate.
Qed.

Lemma bandwidth_maps_all_ranks_witness :
  exists d w',
    GetFromCallCounts Float64s_spec 2 (index sample_send 0) (index sample_recv 0) 4 4
      (index sample_times 0) empty_world = Returned (Some d, None) w' /\
    bandwidth_maps_populated 2 d.
Proof.
  eexists _, _. split; [vm_compute; reflexivity|].
  apply (bandwidth_maps_all_ranks Float64s_spec 0 2 (index sample_send 0)
           (index sample_recv 0) 4 4 (index sample_times 0) ∅ ∅ ∅).
  left. eexists empty_world, _. vm_compute. reflexivity.
Defined.

Lemma missing_time_is_no_error :
  exists d w',
    GetFromCallCounts Float64s_spec 1 {[ 0 := 1000 ]} {[ 0 := 0 ]} 4 4 ∅ empty_world
      = Returned (Some d, None) w' /\
    SendRankBW d !! 0 = Some (S754_infinity false) /\
    RecvRankBW d !! 0 = Some S754_nan.
Proof.
  eexists _, _. split_and!; vm_compute; reflexivity.
Qed.

Lemma missing_time_reads_zero_witness :
  scaler_accepts Float64s_spec /\ 0 <= 0 < 1 /\ (∅ : gmap Z float64) !! 0 = None /\
  exists d w',
    GetFromCallCounts Float64s_spec 1 {[ 0 := 1000 ]} {[ 0 := 0 ]} 4 4 ∅ empty_world
      = Returned (Some d, None) w' /\
    SendRankBW d !! 0
      = Some (fdiv (float64_of_int (index ({[ 0 := 1000 ]} : gmap Z Z) 0)) (S754_zero false)) /\
    RecvRankBW d !! 0
      = Some (fdiv (float64_of_int (index ({[ 0 := 0 ]} : gmap Z Z) 0)) (S754_zero false)) /\
    non_finite (index (SendRankBW d) 0) /\
    non_finite (index (RecvRankBW d) 0).
Proof.
  split; [apply Float64s_spec_accepts|]. split; [lia|]. split; [reflexivity|].
  apply (missing_time_reads_zero Float64s_spec 1 {[ 0 := 1000 ]} {[ 0 := 0 ]} 4 4 ∅
           empty_world 0 Float64s_spec_accepts).
  - lia.
  - reflexivity.
Defined.

Lemma idle_rank_gets_later_unit :
  exists d w',
    GetFromCallCounts Float64s_spec 2 idle_then_busy_send idle_then_busy_recv 4 4
      one_second_each empty_world = Returned (Some d, None) w' /\
    SendRankBW d !! 0 = Some (S754_zero false) /\
    ScaledSendRankBW d !! 0 = Some (S754_zero false) /\
    ScaledSendRankBWUnit d = "MB/s" /\
    ScaledSendRankBWUnit d <> "B/s".
Proof.
  eexists _, _. split_and!; try (vm_compute; reflexivity).
  vm_compute. discriminate.
Qed.

Lemma zero_bandwidth_bypass_witness :
  exists d w',
    GetFromCallCounts Float64s_spec 2 (index sample_send 0) (index sample_recv 0) 4 4
      (index sample_times 0) empty_world = Returned (Some d, None) w' /\
    (fneq (index (RecvRankBW d) 1) (S754_zero false) = false ->
       ScaledRecvRankBW d !! 1 = RecvRankBW d !! 1) /\
    (0 < 2 -> fneq (index (RecvRankBW d) (2 - 1)) (S754_zero false) = false ->
       ScaledRecvRankBWUnit d = "B/s") /\
    fneq (index (RecvRankBW d) 1) (S754_zero false) = false.
Proof.
  assert (0 <= 1 < 2) as Hrange by lia.
  eexists _, _. split; [vm_compute; reflexivity|].
  destruct (zero_bandwidth_bypass Float64s_spec 2 (index sample_send 0) (index sample_recv 0)
              4 4 (index sample_times 0) empty_world) as [_ Hb].
  edestruct Hb as (Hr & _ & Hu); [vm_compute; reflexivity|].
  destruct (Hr 1 Hrange) as [_ Hr1].
  split; [exact Hr1|]. split; [exact Hu|]. vm_compute. reflexivity.
Defined.

Lemma GetFromCallsCounts_all_or_nothing_witness :
  scaler_answers Float64s_small_only /\ 0 <= 1 < 2 /\
  (exists p e w1,
      GetFromCallCounts Float64s_small_only 2 (index two_calls_send 1) (index two_calls_recv 1)
        4 4 (index two_calls_times 1) empty_world = Returned (p, Some e) w1) /\
  exists e' w',
    GetFromCallsCounts Float64s_small_only 2 2 two_calls_send two_calls_recv 4 4
      two_calls_times empty_world = Returned (None, Some e') w'.
Proof.
  split; [apply Float64s_small_only_answers|]. split; [lia|].
  split; [eexists _, _, _; vm_compute; reflexivity|].
  eapply (GetFromCallsCounts_all_or_nothing Float64s_small_only 2 2 two_calls_send
            two_calls_recv 4 4 two_calls_times empty_world 1 _ _ empty_world _
            Float64s_small_only_answers).
  - lia.
  - vm_compute. reflexivity.
Defined.

Lemma raw_counts_reduced_witness :
  exact_sum (raw_send three_counts_callsData 2 1) = 12 /\
  in_int (exact_sum (raw_send three_counts_callsData 2 1)) /\
  index (index (reduce_send three_counts_callsData).2 2) 1
    = exact_sum (raw_send three_counts_callsData 2 1).
Proof.
  split; [vm_compute; reflexivity|].
  assert (in_int (exact_sum (raw_send three_counts_callsData 2 1))) as Hin.
  { vm_compute. split; discriminate. }
  split; [exact Hin|].
  destruct (raw_counts_reduced Float64s_spec sample_join never_fails1 never_fails2
              "out" 0 three_counts_callsData
              (counts.Raw.mk (counts.Raw.mkHeader 2 4 4)) [] ∅ 2 1)
    as (_ & _ & _ & Hs & _); [done..|].
  exact (Hs Hin).
Defined.

Lemma degenerate_header_exits_witness :
  let w0 := logged never_fails2 calculating verbose_world in
  exists msg,
    main_comm Float64s_spec sample_join never_fails1 never_fails2 "out" 3
      sample_callsData (sample_header 2 0 4) sample_times verbose_world
    = Exited 1 (mkWorld (stdout w0 ++ [msg]) (files w0) (scaler_calls w0) (logger w0)) /\
    (msg = "ERROR: invalid number of ranks: 0" +:+ nl \/
     msg = "ERROR: invalid send datatype size: 0" +:+ nl \/
     msg = "ERROR: invalid recv datatype size: 0" +:+ nl) /\
    scaler_calls w0 = scaler_calls verbose_world /\
    (forall p, log_out (logger verbose_world) <> MultiWriter_Stdout p ->
       files w0 !! p = files verbose_world !! p) /\
    (log_out (logger verbose_world) = ioutil_Discard -> w0 = verbose_world).
Proof.
  apply (degenerate_header_exits Float64s_spec sample_join never_fails1 never_fails2
           "out" 3 sample_callsData (counts.Raw.mk (counts.Raw.mkHeader 2 0 4)) []
           sample_times verbose_world).
  right. left. reflexivity.
Defined.

Example degenerate_header_example :
  main_comm Float64s_spec sample_join never_fails1 never_fails2 "out" 3
    sample_callsData (sample_header 2 0 4) sample_times verbose_world
  = Exited 1
      (mkWorld ["[0] -> Calculating bandwidths..." +:+ nl;
                "ERROR: invalid send datatype size: 0" +:+ nl]
         {[ "bandwidth.log" := "[0] -> Calculating bandwidths..." +:+ nl ]}
         [] (log_next verbose_logger)) /\
  main_comm Float64s_spec sample_join never_fails1 never_fails2 "out" 3
    sample_callsData (sample_header 2 0 4) sample_times empty_world
  = Exited 1
      (mkWorld ["ERROR: invalid send datatype size: 0" +:+ nl] ∅ [] discarding_logger).
Proof. split; vm_compute; reflexivity. Qed.

Lemma report_rendered_witness :
  exists allCalls w2 bw,
    StronglySorted Z.lt allCalls /\
    (forall c, c ∈ allCalls <-> is_Some (sample_callsData !! c)) /\
    main_comm Float64s_spec sample_join never_fails1 never_fails2 "out" 3
      sample_callsData (sample_header 2 4 4) sample_times verbose_world = Returned tt w2 /\
    files w2 !! sample_join "out" (GetOutputFilename 3)
    = Some (spec_report 2 (unscaled_send bw) (unscaled_recv bw) allCalls) /\
    (forall c r, c ∈ allCalls -> 0 <= r < 2 ->
       exists d,
         CallData_ bw !! c = Some (Some d) /\
         SendRankBW d !! r = Some (unscaled_send bw c r) /\
         RecvRankBW d !! r = Some (unscaled_recv bw c r) /\
         unscaled_send bw c r
         = rate (index (reduce_send sample_callsData).2 c) (index sample_times c) r /\
         unscaled_recv bw c r
         = rate (index (reduce_recv sample_callsData) c) (index sample_times c) r) /\
    (forall x, two_decimal_places x (fmt_f2 x)).
Proof.
  edestruct (report_rendered Float64s_spec sample_join never_fails1 never_fails2
               (fun _ _ => eq_refl) "out" 3 sample_callsData
               (counts.Raw.mk (counts.Raw.mkHeader 2 4 4)) [] sample_times verbose_world)
    as (allCalls & w2 & H); [done|done|done| | |reflexivity|].
  - intros c [x Hx]. unfold sample_callsData in *.
    apply lookup_singleton_Some in Hx as [<- _]. rewrite map_size_singleton. lia.
  - vm_compute. reflexivity.
  - exists allCalls, w2. eexists. exact H.
Defined.

Example report_rendered_example :
  exists w2,
    main_comm Float64s_spec sample_join never_fails1 never_fails2 "out" 3
      sample_callsData (sample_header 2 4 4) sample_times empty_world = Returned tt w2 /\
    files w2 !! "out/bandwidth-percall-comm3.md"
    = Some ("# Call 0" +:+ nl
            +:+ "send BW (B/s)" +:+ tab +:+ "receive BW (B/s)" +:+ nl
            +:+ "1000.00" +:+ tab +:+ "500.00" +:+ nl
            +:+ "1000.00" +:+ tab +:+ "0.00" +:+ nl
            +:+ nl) /\
    stdout w2 = ["Data successfully saved in out/bandwidth-percall-comm3.md" +:+ nl].
Proof.
  eexists. split_and!; vm_compute; reflexivity.
Qed.

Example report_rendered_verbose_example :
  exists w2,
    main_comm Float64s_spec sample_join never_fails1 never_fails2 "out" 3
      sample_callsData (sample_header 2 4 4) sample_times verbose_world = Returned tt w2 /\
    files w2 !! "out/bandwidth-percall-comm3.md"
    = Some ("# Call 0" +:+ nl
            +:+ "send BW (B/s)" +:+ tab +:+ "receive BW (B/s)" +:+ nl
            +:+ "1000.00" +:+ tab +:+ "500.00" +:+ nl
            +:+ "1000.00" +:+ tab +:+ "0.00" +:+ nl
            +:+ nl) /\
    files w2 !! "bandwidth.log"
    = Some ("[0] -> Calculating bandwidths..." +:+ nl
            +:+ "[1] -> Saving results..." +:+ nl) /\
    stdout w2 = ["[0] -> Calculating bandwidths..." +:+ nl;
                 "[1] -> Saving results..." +:+ nl;
                 "Data successfully saved in out/bandwidth-percall-comm3.md" +:+ nl].
Proof.
  eexists. split_and!; vm_compute; reflexivity.
Qed.

Example spec_block_example :
  spec_block 2 (index (SendRankBW two_rank_record)) (index (RecvRankBW two_rank_record)) 0
  = "# Call 0" +:+ nl
    +:+ "send BW (B/s)" +:+ tab +:+ "receive BW (B/s)" +:+ nl
    +:+ "100.00" +:+ tab +:+ "50.00" +:+ nl
    +:+ "0.00" +:+ tab +:+ "0.00" +:+ nl
    +:+ nl.
Proof. vm_compute. reflexivity. Qed.

(** * Further properties of package bandwidth *)

Section BandwidthMore.

Variable Float64s : string -> list float64 -> string * list float64 * option error.

Lemma scale_send_exact rank d w :
  scale_send Float64s rank d w =
  let v := index (SendRankBW d) rank in
  if fneq v (S754_zero false) then
    let '(u, values, err) := Float64s "B/s" [v] in
    let w' := add_scaler_calls [("B/s", [v])] w in
    match err, values with
    | Some e, _ => Returned (Return (None, Some e)) w'
    | None, [] => Panicked w'
    | None, x :: _ =>
        Returned (Next (set_ScaledSendRankBW (set_ScaledSendRankBWUnit d u) rank x)) w'
    end
  else Returned (Next (set_ScaledSendRankBWUnit (set_ScaledSendRankBW d rank v) "B/s")) w.
Proof.
  unfold scale_send. cbv zeta. destruct (fneq _ _); [|reflexivity].
  unfold call_Float64s. rewrite !bind_unfold. simpl.
  destruct (Float64s _ _) as [[u xs] [e|]]; by destruct xs.
Qed.

Lemma scale_recv_exact rank d w :
  scale_recv Float64s rank d w =
  let v := index (RecvRankBW d) rank in
  if fneq v (S754_zero false) then
    let '(u, values, err) := Float64s "B/s" [v] in
    let w' := add_scaler_calls [("B/s", [v])] w in
    match err, values with
    | Some e, _ => Returned (Return (None, Some e)) w'
    | None, [] => Panicked w'
    | None, x :: _ =>
        Returned (Next (set_ScaledRecvRankBW (set_ScaledRecvRankBWUnit d u) rank x)) w'
    end
  else Returned (Next (set_ScaledRecvRankBWUnit (set_ScaledRecvRankBW d rank v) "B/s")) w.
Proof.
  unfold scale_recv. cbv zeta. destruct (fneq _ _); [|reflexivity].
  unfold call_Float64s. rewrite !bind_unfold. simpl.
  destruct (Float64s _ _) as [[u xs] [e|]]; by destruct xs.
Qed.

Lemma last_snoc_call (w : World) (c : string * list float64) :
  last (scaler_calls (add_scaler_calls [c] w)) = Some c.
Proof. simpl. apply last_snoc. Qed.

Lemma scale_send_decides rank d w :
  scaler_decides_step Float64s (scale_send Float64s rank d w).
Proof.
  rewrite scale_send_exact. cbv zeta. destruct (fneq _ _); [|done].
  destruct (Float64s _ _) as [[u xs] [e|]] eqn:HF.
  - exists u, xs. eexists. split; [apply last_snoc_call|done].
  - destruct xs; [|done]. exists u. eexists. split; [apply last_snoc_call|done].
Qed.

Lemma scale_recv_decides rank d w :
  scaler_decides_step Float64s (scale_recv Float64s rank d w).
Proof.
  rewrite scale_recv_exact. cbv zeta. destruct (fneq _ _); [|done].
  destruct (Float64s _ _) as [[u xs] [e|]] eqn:HF.
  - exists u, xs. eexists. split; [apply last_snoc_call|done].
  - destruct xs; [|done]. exists u. eexists. split; [apply last_snoc_call|done].
Qed.

Lemma rank_body_decides sc rc et rank d w :
  scaler_decides_step Float64s (rank_body Float64s sc rc et rank d w).
Proof.
  unfold rank_body. rewrite bind_unfold.
  pose proof (scale_send_decides rank
                (set_RecvRankBW (set_SendRankBW d rank
                   (fdiv (float64_of_int (index sc rank)) (index et rank))) rank
                   (fdiv (float64_of_int (index rc rank)) (index et rank))) w) as Hs.
  destruct (scale_send _ _ _ _) as [[d1|[p err]] w1|c w1|w1]; try done.
  apply scale_recv_decides.
Qed.

Lemma rank_loop_decides sc rc et n : forall rank d w,
  scaler_decides Float64s (rank_loop Float64s sc rc et n rank d w).
Proof.
  induction n as [|n IH]; intros rank d w; [done|].
  simpl. rewrite bind_unfold.
  pose proof (rank_body_decides sc rc et rank d w) as Hb.
  destruct (rank_body _ _ _ _ _ _ _) as [[d1|[[p|] [e|]]] w1|c w1|w1];
    first [apply IH|done].
Qed.

Lemma call_loop_decides ranks sc rc sds rds et n : forall call d w,
  scaler_decides Float64s (call_loop Float64s ranks sc rc sds rds et n call d w).
Proof.
  induction n as [|n IH]; intros call d w; [done|].
  simpl. rewrite bind_unfold.
  pose proof (rank_loop_decides (index sc call) (index rc call) (index et call)
                (Z.to_nat ranks) 0 new_CallData w) as Hc.
  unfold GetFromCallCounts.
  destruct (rank_loop _ _ _ _ _ _ _ _) as [[[cd|] [e|]] w1|c w1|w1];
    first [apply IH|done].
Qed.

Lemma rank_body_next_exact sc rc et rank d w d' w' :
  rank_body Float64s sc rc et rank d w = Returned (Next d') w' ->
  w' = add_scaler_calls (calls_of_rank sc rc et rank) w /\
  exists us xs ur xr,
    stored_scaled Float64s (rate sc et rank) = Some (us, xs) /\
    stored_scaled Float64s (rate rc et rank) = Some (ur, xr) /\
    ScaledSendRankBW d' = <[rank := xs]> (ScaledSendRankBW d) /\
    ScaledSendRankBWUnit d' = us /\
    ScaledRecvRankBW d' = <[rank := xr]> (ScaledRecvRankBW d) /\
    ScaledRecvRankBWUnit d' = ur.
Proof.
  unfold rank_body. rewrite bind_unfold, scale_send_exact. cbv zeta.
  cbn [SendRankBW set_RecvRankBW set_SendRankBW]. rewrite index_insert_same.
  fold (rate sc et rank). fold (rate rc et rank).
  unfold calls_of_rank, stored_scaled.
  destruct (fneq (rate sc et rank) _) eqn:Hs.
  - destruct (Float64s "B/s" [rate sc et rank]) as [[us xss] [e|]] eqn:HFs; [by destruct xss|].
    destruct xss as [|xs xss]; [done|].
    rewrite scale_recv_exact. cbv zeta.
    cbn [RecvRankBW set_ScaledSendRankBW set_ScaledSendRankBWUnit set_RecvRankBW].
    rewrite index_insert_same. fold (rate rc et rank).
    destruct (fneq (rate rc et rank) _) eqn:Hr.
    + destruct (Float64s "B/s" [rate rc et rank]) as [[ur xrs] [e|]] eqn:HFr;
        [by destruct xrs|].
      destruct xrs as [|xr xrs]; [done|]. intros [= <- <-].
      split; [by rewrite add_scaler_calls_app|]. by exists us, xs, ur, xr.
    + intros [= <- <-]. split; [by rewrite app_nil_r|].
      by exists us, xs, "B/s", (rate rc et rank).
  - rewrite scale_recv_exact. cbv zeta.
    cbn [RecvRankBW set_ScaledSendRankBW set_ScaledSendRankBWUnit set_RecvRankBW].
    rewrite index_insert_same. fold (rate rc et rank).
    destruct (fneq (rate rc et rank) _) eqn:Hr.
    + destruct (Float64s "B/s" [rate rc et rank]) as [[ur xrs] [e|]] eqn:HFr;
        [by destruct xrs|].
      destruct xrs as [|xr xrs]; [done|]. intros [= <- <-].
      split; [done|]. by exists "B/s", (rate sc et rank), ur, xr.
    + intros [= <- <-]. split; [by rewrite add_scaler_calls_nil|].
      by exists "B/s", (rate sc et rank), "B/s", (rate rc et rank).
Qed.

Lemma rank_loop_exact sc rc et n : forall rank d w d' w',
  rank_loop Float64s sc rc et n rank d w = Returned (Some d', None) w' ->
  w' = add_scaler_calls (concat (calls_of_rank sc rc et <$> seqZ rank (Z.of_nat n))) w /\
  forall r, rank <= r < rank + Z.of_nat n ->
    exists us xs ur xr,
      stored_scaled Float64s (rate sc et r) = Some (us, xs) /\
      stored_scaled Float64s (rate rc et r) = Some (ur, xr) /\
      ScaledSendRankBW d' !! r = Some xs /\
      ScaledRecvRankBW d' !! r = Some xr /\
      (r = rank + Z.of_nat n - 1 ->
         ScaledSendRankBWUnit d' = us /\ ScaledRecvRankBWUnit d' = ur).
Proof.
  induction n as [|n IH]; intros rank d w d' w'.
  - intros [= <- <-]. split; [by rewrite add_scaler_calls_nil|]. intros r Hr. lia.
  - cbn [rank_loop]. rewrite bind_unfold.
    destruct (rank_body _ _ _ _ _ _ _) as [[d1|x] w1| |] eqn:Hb; try done.
    2:{ apply rank_body_return in Hb as (e & ->). by intros [= ->]. }
    intros Hl. apply rank_body_next_exact in Hb as (-> & us & xs & ur & xr & S1 & S2 & B1 & B2 & B3 & B4).
    pose proof (rank_loop_returns _ _ _ _ _ _ _ _ _ _ Hl)
      as (_ & _ & _ & _ & L5 & L6 & L7 & L8 & _).
    apply IH in Hl as [-> Hrest]. split.
    + rewrite add_scaler_calls_app. f_equal.
      rewrite (seqZ_cons rank (Z.of_nat (S n))) by lia. cbn [fmap list_fmap concat].
      replace (Z.pred (Z.of_nat (S n))) with (Z.of_nat n) by lia.
      by replace (Z.succ rank) with (rank + 1) by lia.
    + intros r Hr. destruct (decide (r = rank)) as [->|Hne].
      * exists us, xs, ur, xr. specialize (L5 rank). specialize (L6 rank).
        rewrite decide_False in L5, L6 by lia.
        rewrite L5, L6, B1, B3, !lookup_insert_eq. split_and!; try done.
        intros Hlast. assert (n = 0%nat) as -> by lia.
        rewrite decide_True in L7, L8 by done. by rewrite L7, L8.
      * destruct (Hrest r) as (us' & xs' & ur' & xr' & ? & ? & ? & ? & Hu); [lia|].
        exists us', xs', ur', xr'. split_and!; try done.
        intros Hlast. apply Hu. lia.
Qed.

(** X1 (src/internal/pkg/bandwidth/bandwidth.go, GetFromCallCounts): the
    two maps of amounts of data are never filled: in every record returned by
    GetFromCallCounts, and in every record stored by GetFromCallsCounts,
    SendData and RecvData are empty. *)
Theorem byte_maps_stay_empty numCalls ranks sc rc sds rds et scs rcs ets d :
  (exists w w', GetFromCallCounts Float64s ranks sc rc sds rds et w
                  = Returned (Some d, None) w') \/
  (exists w w' bw call,
      GetFromCallsCounts Float64s numCalls ranks scs rcs sds rds ets w
        = Returned (Some bw, None) w' /\
      CallData_ bw !! call = Some (Some d)) ->
  SendData d = ∅ /\ RecvData d = ∅.
Proof.
  intros [(w & w' & HG)|(w & w' & bw & call & HG & Hcall)].
  - by apply rank_loop_returns in HG as (-> & -> & _).
  - apply call_loop_returns in HG. specialize (HG call). case_decide.
    + destruct HG as (cd & w0 & w1 & Hcd & HG). simplify_eq.
      by apply rank_loop_returns in HG as (-> & -> & _).
    + simpl in HG. rewrite lookup_empty in HG. congruence.
Qed.

(** X2 (bandwidth.go, GetFromCallCounts): in a returned record the scaled
    value of every rank below [ranks] is the bandwidth itself when it is
    zero and otherwise the first value of the scaler's answer to that
    bandwidth in B/s; the send and the receive unit labels of the record are
    the ones obtained for the last rank, [ranks - 1]. *)
Theorem scaled_values_from_scaler ranks sc rc sds rds et w d w' r :
  GetFromCallCounts Float64s ranks sc rc sds rds et w = Returned (Some d, None) w' ->
  0 <= r < ranks ->
  exists us xs ur xr,
    stored_scaled Float64s (rate sc et r) = Some (us, xs) /\
    stored_scaled Float64s (rate rc et r) = Some (ur, xr) /\
    ScaledSendRankBW d !! r = Some xs /\
    ScaledRecvRankBW d !! r = Some xr /\
    (r = ranks - 1 -> ScaledSendRankBWUnit d = us /\ ScaledRecvRankBWUnit d = ur).
Proof.
  intros HG Hr. apply rank_loop_exact in HG as [_ HG].
  destruct (HG r) as (us & xs & ur & xr & ? & ? & ? & ? & Hu); [lia|].
  exists us, xs, ur, xr. split_and!; try done. intros ->. apply Hu. lia.
Qed.

(** X3 (bandwidth.go, GetFromCallCounts): a successful call makes exactly
    these scaler calls, in this order: for each rank from 0 to [ranks - 1]
    its send bandwidth and then its receive bandwidth, each only when it is
    not zero; so at most two calls per rank. *)
Theorem scaler_calls_in_rank_order ranks sc rc sds rds et w d w' :
  GetFromCallCounts Float64s ranks sc rc sds rds et w = Returned (Some d, None) w' ->
  scaler_calls w' = scaler_calls w ++ concat (calls_of_rank sc rc et <$> seqZ 0 ranks) /\
  (length (scaler_calls w') <= length (scaler_calls w) + 2 * Z.to_nat ranks)%nat.
Proof.
  intros HG. apply rank_loop_exact in HG as [-> _]. rewrite seqZ_of_to_nat.
  split; [done|]. simpl. rewrite length_app. apply Nat.add_le_mono_l.
  rewrite <- (length_seqZ 0 ranks). induction (seqZ 0 ranks) as [|r l IH]; [done|].
  cbn [fmap list_fmap concat]. rewrite length_app. cbn [length].
  assert (length (calls_of_rank sc rc et r) <= 2)%nat.
  { unfold calls_of_rank. rewrite length_app. repeat case_match; simpl; lia. }
  lia.
Qed.

(** X4 (bandwidth.go, GetFromCallCounts and GetFromCallsCounts): whatever
    the inputs, either a result is returned without error, or nil is
    returned with the error of the last scaler call made, or the call panics
    right after a scaler call answered with no value and no error; the
    process is never exited. *)
Theorem outcome_decided_by_scaler numCalls ranks sc rc sds rds et scs rcs ets w :
  scaler_decides Float64s (GetFromCallCounts Float64s ranks sc rc sds rds et w) /\
  scaler_decides Float64s (GetFromCallsCounts Float64s numCalls ranks scs rcs sds rds ets w).
Proof. split; [apply rank_loop_decides|apply call_loop_decides]. Qed.

Lemma rank_body_local sc rc et sc' rc' et' rank d w :
  index sc rank = index sc' rank -> index rc rank = index rc' rank ->
  index et rank = index et' rank ->
  rank_body Float64s sc rc et rank d w = rank_body Float64s sc' rc' et' rank d w.
Proof. intros Hs Hr Ht. unfold rank_body. by rewrite Hs, Hr, Ht. Qed.

Lemma rank_loop_local sc rc et sc' rc' et' n : forall rank d w,
  (forall r, rank <= r < rank + Z.of_nat n ->
     index sc r = index sc' r /\ index rc r = index rc' r /\ index et r = index et' r) ->
  rank_loop Float64s sc rc et n rank d w = rank_loop Float64s sc' rc' et' n rank d w.
Proof.
  induction n as [|n IH]; intros rank d w Hagree; [reflexivity|].
  cbn [rank_loop]. rewrite !bind_unfold.
  destruct (Hagree rank) as (Hs & Hr & Ht); [lia|].
  rewrite (rank_body_local sc rc et sc' rc' et') by done.
  destruct (rank_body _ _ _ _ _ _ _) as [[d1|x] w1| |]; try reflexivity.
  apply IH. intros r Hr'. apply Hagree. lia.
Qed.

Lemma call_loop_local ranks scs rcs sds rds ets scs' rcs' sds' rds' ets' n : forall call d w,
  (forall c r, call <= c < call + Z.of_nat n -> 0 <= r < ranks ->
     index (index scs c) r = index (index scs' c) r /\
     index (index rcs c) r = index (index rcs' c) r /\
     index (index ets c) r = index (index ets' c) r) ->
  call_loop Float64s ranks scs rcs sds rds ets n call d w
  = call_loop Float64s ranks scs' rcs' sds' rds' ets' n call d w.
Proof.
  induction n as [|n IH]; intros call d w Hagree; [reflexivity|].
  cbn [call_loop]. rewrite !bind_unfold. unfold GetFromCallCounts.
  rewrite (rank_loop_local (index scs call) (index rcs call) (index ets call)
             (index scs' call) (index rcs' call) (index ets' call)).
  2:{ intros r Hr. apply Hagree; lia. }
  destruct (rank_loop _ _ _ _ _ _ _ _) as [[cd [e|]] w1| |]; try reflexivity.
  apply IH. intros c r Hc Hr. apply Hagree; lia.
Qed.

(** X5 (bandwidth.go, GetFromCallCounts and GetFromCallsCounts): only the
    entries of the calls below [numCalls] and of the ranks below [ranks] are
    read: two inputs whose counts and times read the same on that range give
    the same run, whatever else the maps hold and whatever the datatype
    sizes. *)
Theorem only_calls_and_ranks_in_range_are_read
    numCalls ranks scs rcs sds rds ets scs' rcs' sds' rds' ets' w :
  (forall c r, 0 <= c < numCalls -> 0 <= r < ranks ->
     index (index scs c) r = index (index scs' c) r /\
     index (index rcs c) r = index (index rcs' c) r /\
     index (index ets c) r = index (index ets' c) r) ->
  GetFromCallsCounts Float64s numCalls ranks scs rcs sds rds ets w
  = GetFromCallsCounts Float64s numCalls ranks scs' rcs' sds' rds' ets' w.
Proof.
  intros Hagree. apply call_loop_local. intros c r Hc Hr. apply Hagree; lia.
Qed.

Lemma fdiv_zero_by_positive (t : float64) :
  fpos t = true -> fdiv (float64_of_int 0) t = S754_zero false.
Proof. by destruct t as [s|[|]| |[|] m e]. Qed.

(** X6 (bandwidth.go, GetFromCallCounts): a rank whose count reads 0 and
    whose execution time is positive gets the bandwidth +0, and that zero as
    its scaled value. *)
Theorem idle_rank_has_zero_bandwidth ranks sc rc sds rds et w d w' r :
  GetFromCallCounts Float64s ranks sc rc sds rds et w = Returned (Some d, None) w' ->
  0 <= r < ranks ->
  fpos (index et r) = true ->
  (index sc r = 0 ->
     SendRankBW d !! r = Some (S754_zero false) /\
     ScaledSendRankBW d !! r = Some (S754_zero false)) /\
  (index rc r = 0 ->
     RecvRankBW d !! r = Some (S754_zero false) /\
     ScaledRecvRankBW d !! r = Some (S754_zero false)).
Proof.
  intros HG Hr Ht. apply rank_loop_returns in HG as (_ & _ & L3 & L4 & L5 & L6 & _).
  specialize (L3 r). specialize (L4 r). specialize (L5 r). specialize (L6 r).
  rewrite decide_True in L3 by lia. rewrite decide_True in L4 by lia.
  rewrite decide_True in L5 by lia. rewrite decide_True in L6 by lia.
  destruct L5 as (x & Hx & Hxz). destruct L6 as (y & Hy & Hyz).
  split; intros Hz.
  - assert (rate sc et r = S754_zero false) as Hrate.
    { unfold rate. rewrite Hz. by apply fdiv_zero_by_positive. }
    rewrite Hrate in *. rewrite L3, Hx. split; [done|]. f_equal. by apply Hxz.
  - assert (rate rc et r = S754_zero false) as Hrate.
    { unfold rate. rewrite Hz. by apply fdiv_zero_by_positive. }
    rewrite Hrate in *. rewrite L4, Hy. split; [done|]. f_equal. by apply Hyz.
Qed.

Lemma returned_in_any_world {A} (m : M A) (a : A) (w0 w0' : World) :
  scaler_only m -> m w0 = Returned a w0' ->
  forall w, exists w', m w = Returned a w' /\ stdout w' = stdout w /\ files w' = files w.
Proof.
  intros (v & l & _ & Hm) H0 w. rewrite Hm in H0. destruct v; simplify_eq/=.
  exists (add_scaler_calls l w). by rewrite Hm.
Qed.

(** X7 (bandwidth.go, GetFromCallsCounts): a CallsData returned without
    error has exactly the keys 0 to [numCalls - 1], none of them nil, and
    the record of a call is the one GetFromCallCounts returns for the maps
    of that call. *)
Theorem CallsData_has_every_call numCalls ranks scs rcs sds rds ets w bw w' :
  GetFromCallsCounts Float64s numCalls ranks scs rcs sds rds ets w
    = Returned (Some bw, None) w' ->
  (forall c, is_Some (CallData_ bw !! c) <-> 0 <= c < numCalls) /\
  size (CallData_ bw) = Z.to_nat numCalls /\
  forall c, 0 <= c < numCalls ->
    exists d,
      CallData_ bw !! c = Some (Some d) /\
      forall w0,
        verdict (GetFromCallCounts Float64s ranks (index scs c) (index rcs c) sds rds
                   (index ets c) w0) = VReturned (Some d, None).
Proof.
  intros HG. apply call_loop_returns in HG.
  assert (forall c, is_Some (CallData_ bw !! c) <-> 0 <= c < numCalls) as Hdom.
  { intros c. specialize (HG c). case_decide.
    - destruct HG as (cd & _ & _ & -> & _). split; [lia|by eexists].
    - rewrite HG. simpl. rewrite lookup_empty. split; [by intros [? ?]|lia]. }
  split_and!; [done|by apply size_of_range|].
  intros c Hc. specialize (HG c). rewrite decide_True in HG by lia.
  destruct HG as (cd & w0 & w1 & Hcd & Hrun). exists cd. split; [done|].
  intros w2.
  destruct (returned_in_any_world _ _ _ _
              (scaler_only_GetFromCallCounts Float64s ranks (index scs c) (index rcs c)
                 sds rds (index ets c)) Hrun w2) as (w3 & -> & _).
  done.
Qed.

Lemma call_loop_prefix ranks scs rcs sds rds ets m : forall n call d w,
  (m <= n)%nat ->
  (forall d' w', call_loop Float64s ranks scs rcs sds rds ets m call d w
                   <> Returned (Some d', None) w') ->
  call_loop Float64s ranks scs rcs sds rds ets n call d w
  = call_loop Float64s ranks scs rcs sds rds ets m call d w.
Proof.
  induction m as [|m IH]; intros n call d w Hle Hfail.
  - by destruct (Hfail d w).
  - destruct n as [|n]; [lia|]. revert Hfail. cbn [call_loop]. rewrite !bind_unfold.
    destruct (GetFromCallCounts _ _ _ _ _ _ _ _) as [[cd [e|]] w1| |]; try reflexivity.
    intros Hfail. apply IH; [lia|done].
Qed.

(** X8 (bandwidth.go, GetFromCallsCounts): the loop stops at the first
    call that does not succeed: when the first [m] calls do not all succeed,
    asking for more calls changes nothing, neither the result nor the scaler
    calls made. *)
Theorem later_calls_are_not_computed m n ranks scs rcs sds rds ets w :
  0 <= m <= n ->
  (forall bw w', GetFromCallsCounts Float64s m ranks scs rcs sds rds ets w
                   <> Returned (Some bw, None) w') ->
  GetFromCallsCounts Float64s n ranks scs rcs sds rds ets w
  = GetFromCallsCounts Float64s m ranks scs rcs sds rds ets w.
Proof.
  intros Hmn Hfail. unfold GetFromCallsCounts. apply call_loop_prefix; [lia|done].
Qed.

End BandwidthMore.

(** * Further properties of the bandwidth command *)

Lemma discipline_bind {A B} path said (m : M A) (k : A -> M B) w :
  report_discipline path [] w (m w) ->
  (forall a w1, m w = Returned a w1 -> report_discipline path said w1 (k a w1)) ->
  report_discipline path said w ((m ≫= k) w).
Proof.
  intros (Hf & Hl & Hs) Hk. rewrite bind_unfold.
  destruct (m w) as [a w1|c w1|w1]; [|done..].
  destruct (Hk a w1 eq_refl) as (Hf' & Hl' & Hs'). simpl in Hf, Hl, Hs.
  rewrite app_nil_r in Hs. split_and!.
  - intros p Hp. by rewrite Hf', Hf.
  - by rewrite Hl', Hl.
  - destruct (k a w1) as [b w2|c w2|w2]; simpl in *; by rewrite <- Hs.
Qed.

Lemma discipline_ret {A} path (a : A) w : report_discipline path [] w (Returned a w).
Proof. split_and!; [done..|]. simpl. by rewrite app_nil_r. Qed.

Lemma discipline_panic {A} path said w : report_discipline path said w (@panic A w).
Proof. by split_and!. Qed.

Lemma discipline_error_exit {A} path said (msg : string) w :
  report_discipline path said w
    ((_ ← Printf ("ERROR: " +:+ msg); @os_Exit A 1) w).
Proof. split_and!; [done..|]. simpl. split; [done|]. by exists msg. Qed.

Lemma discipline_Printf path (line : string) w :
  report_discipline path [line] w (Printf line w).
Proof. by split_and!. Qed.

Lemma discipline_scaler_only {T} path (m : M (result T)) w
    (Float64s : string -> list float64 -> string * list float64 * option error) :
  scaler_only m -> scaler_decides Float64s (m w) -> report_discipline path [] w (m w).
Proof.
  intros Hm Hd. destruct (scaler_only_frame m w Hm) as [Hs Hf].
  pose proof (scaler_only_logger m w Hm) as Hl. split_and!.
  - intros p _. by rewrite Hf.
  - done.
  - destruct (m w) as [a w1|c w1|w1]; simpl in *; [by rewrite app_nil_r|done|done].
Qed.

(** From a world [w2] that differs from [w] by the lines of the logger, a
    part that does not use the logger completes the body of [main]. *)
Lemma main_discipline_lift {A} path msgs said w w2 (o : Outcome A) :
  stdout w2 = stdout w ++ log_lines (logger w) msgs ->
  (forall p, log_out (logger w) <> MultiWriter_Stdout p -> files w2 !! p = files w !! p) ->
  log_out (logger w2) = log_out (logger w) ->
  msgs = [calculating] \/ msgs = [calculating; saving] ->
  (forall a w', o = Returned a w' ->
     msgs = [calculating; saving] /\
     said = ["Data successfully saved in " +:+ path +:+ nl]) ->
  report_discipline path said w2 o ->
  main_discipline path w o.
Proof.
  intros Hs Hf Hl Hmsgs Hret (Hf' & Hl' & Hs'). split_and!.
  - intros p Hp Hlog. by rewrite Hf', Hf.
  - by rewrite Hl', Hl.
  - exists msgs. split; [done|].
    destruct o as [a w'|c w'|w']; simpl in *.
    + destruct (Hret a w' eq_refl) as [-> ->]. split; [done|].
      by rewrite Hs', Hs, <- app_assoc.
    + destruct Hs' as (-> & msg & ->). split; [done|]. exists msg.
      by rewrite Hs, <- app_assoc.
    + by rewrite Hs', Hs.
Qed.

Lemma report_text_as_specified numRanks bw allCalls :
  (0 < numRanks -> forall c, c ∈ allCalls -> is_Some (index (CallData_ bw) c)) ->
  report_text numRanks bw allCalls
  = spec_report numRanks (unscaled_send bw) (unscaled_recv bw) allCalls.
Proof.
  intros Hall. unfold report_text, spec_report. f_equal.
  apply list_fmap_ext. intros i c Hc. unfold block_text, spec_block.
  rewrite call_header_as_specified, !string_app_assoc. do 3 f_equal.
  destruct (decide (0 < numRanks)) as [Hpos|Hneg].
  - destruct (Hall Hpos c) as [d Hd]; [by eapply list_elem_of_lookup_2|].
    rewrite Hd. f_equal. apply list_fmap_ext. intros j r _.
    unfold rank_line, spec_rank_line, unscaled_send, unscaled_recv. by rewrite Hd.
  - replace (seqZ 0 numRanks) with (@nil Z).
    + by destruct (index (CallData_ bw) c).
    + unfold seqZ. by replace (Z.to_nat numRanks) with 0%nat by lia.
Qed.

Section DriverMore.

Variable Float64s : string -> list float64 -> string * list float64 * option error.
Variable filepath_Join : string -> string -> string.
Variable create_error : string -> option error.
Variable write_error : string -> string -> option error.

Lemma discipline_WriteString path s w :
  report_discipline path [] w (WriteString write_error path s w).
Proof.
  unfold WriteString. destruct (write_error _ _); [apply discipline_ret|].
  split_and!; simpl; [|done|by rewrite app_nil_r]. intros p Hp. by rewrite lookup_insert_ne.
Qed.

Lemma discipline_os_Create path w :
  report_discipline path [] w (os_Create create_error path w).
Proof.
  unfold os_Create. destruct (create_error _); [apply discipline_ret|].
  split_and!; simpl; [|done|by rewrite app_nil_r]. intros p Hp. by rewrite lookup_insert_ne.
Qed.

Lemma discipline_write_failed {A} path e w :
  report_discipline path [] w (@write_failed A path e w).
Proof. apply (discipline_error_exit path []). Qed.

Lemma discipline_write_ranks path d n : forall rank w,
  report_discipline path [] w (write_ranks write_error path d n rank w).
Proof.
  induction n as [|n IH]; intros rank w; [apply discipline_ret|].
  cbn [write_ranks]. destruct d as [cd|]; [|apply discipline_panic].
  apply discipline_bind; [apply discipline_WriteString|].
  intros [e|] w1 _; [apply discipline_write_failed|apply IH].
Qed.

Lemma discipline_write_calls path bwData numRanks allCalls : forall w,
  report_discipline path [] w (write_calls write_error path bwData numRanks allCalls w).
Proof.
  induction allCalls as [|c cs IH]; intros w; [apply discipline_ret|].
  cbn [write_calls]. apply discipline_bind; [apply discipline_WriteString|].
  intros [e|] w1 _; [apply discipline_write_failed|].
  destruct bwData as [bw|]; [|apply discipline_panic].
  apply discipline_bind; [apply discipline_write_ranks|]. intros _ w2 _.
  apply discipline_bind; [apply discipline_WriteString|].
  intros [e|] w3 _; [apply discipline_write_failed|apply IH].
Qed.

(** What [save_report] does once the logger has been given the string of
    line 284. *)
Lemma discipline_create_and_write path bwData numRanks allCalls w :
  report_discipline path ["Data successfully saved in " +:+ path +:+ nl] w
    ((err ← os_Create create_error path;
      match err with
      | Some e =>
          _ ← Printf ("ERROR: unable to create output file " +:+ path
                        +:+ ": " +:+ e +:+ nl);
          os_Exit 1
      | None =>
          _ ← write_calls write_error path bwData numRanks allCalls;
          Printf ("Data successfully saved in " +:+ path +:+ nl)
      end) w).
Proof.
  apply discipline_bind; [apply discipline_os_Create|].
  intros [e|] w1 _.
  { apply (discipline_error_exit path _
             ("unable to create output file " +:+ path +:+ ": " +:+ e +:+ nl)). }
  apply discipline_bind; [apply discipline_write_calls|]. intros _ w2 _.
  apply discipline_Printf.
Qed.

Lemma main_discipline_save_report outputDir leadRank numRanks allCalls r w w1 :
  let path := filepath_Join outputDir (GetOutputFilename leadRank) in
  stdout w1 = stdout w ++ log_lines (logger w) [calculating] ->
  (forall p, log_out (logger w) <> MultiWriter_Stdout p -> files w1 !! p = files w !! p) ->
  logger w1 = logger (logged write_error calculating w) ->
  main_discipline path w
    (save_report filepath_Join create_error write_error outputDir leadRank numRanks
       allCalls r w1).
Proof.
  intros path Hs Hf Hl.
  assert (log_out (logger w1) = log_out (logger w)) as Hout
    by (by rewrite Hl, logged_log_out).
  unfold save_report. destruct r as [bwData [e|]].
  { eapply (main_discipline_lift path [calculating] []); [done|done|done|by left|done|].
    apply (discipline_error_exit path _
             ("bandwidth.GetFromCallsCounts() failed: " +:+ e +:+ nl)). }
  rewrite bind_log_Println. fold path. fold saving.
  eapply (main_discipline_lift path [calculating; saving]);
    [| | |by right|done|apply discipline_create_and_write].
  - rewrite logged_stdout, Hs, <- app_assoc. f_equal.
    by rewrite (log_lines_cons write_error calculating [saving] w), Hl.
  - intros p Hp. rewrite logged_files by (by rewrite Hout). by apply Hf.
  - by rewrite logged_log_out.
Qed.

(** X9 (src/internal/pkg/bandwidth/bandwidth.go, main): whatever the data
    and whatever fails, the body of [main] for a communicator, from line 262
    on, touches no file other than the report file and the log file.  To the
    standard output it adds the lines of the logger, for the string of line
    262 and then, if it gets there, for that of line 284, which are no lines
    when the logger discards them, and after these: exactly one line,
    starting with ERROR, when it exits, which it only does with status 1;
    nothing before a panic; and exactly the line saying where the data was
    saved when it returns. *)
Theorem main_prints_and_touches_little outputDir leadRank callsData commCounts execTimes w :
  let path := filepath_Join outputDir (GetOutputFilename leadRank) in
  main_discipline path w
    (main_comm Float64s filepath_Join create_error write_error outputDir leadRank
       callsData commCounts execTimes w).
Proof.
  intros path. unfold main_comm.
  destruct (reduce_send callsData) as [allCalls sendData].
  rewrite bind_log_Println. fold calculating.
  set (w0 := logged write_error calculating w).
  assert (stdout w0 = stdout w ++ log_lines (logger w) [calculating]) as Hs
    by apply logged_stdout.
  assert (forall p, log_out (logger w) <> MultiWriter_Stdout p ->
            files w0 !! p = files w !! p) as Hf by (intros p; apply logged_files).
  assert (log_out (logger w0) = log_out (logger w)) as Hl by apply logged_log_out.
  destruct commCounts as [|first rest].
  { eapply (main_discipline_lift path [calculating] []);
      [done|done|done|by left|done|apply discipline_panic]. }
  destruct (Z.eqb_spec (counts.Raw.CommSize (counts.Raw.Counts first)) 0) as [Hn|Hn].
  { eapply (main_discipline_lift path [calculating] []); [done|done|done|by left|done|].
    apply (discipline_error_exit path _
             ("invalid number of ranks: "
              +:+ fmt_d (counts.Raw.CommSize (counts.Raw.Counts first)) +:+ nl)). }
  destruct (Z.eqb_spec (counts.Raw.SendDatatypeSize (counts.Raw.Counts first)) 0) as [Hsd|Hsd].
  { eapply (main_discipline_lift path [calculating] []); [done|done|done|by left|done|].
    apply (discipline_error_exit path _
             ("invalid send datatype size: "
              +:+ fmt_d (counts.Raw.SendDatatypeSize (counts.Raw.Counts first)) +:+ nl)). }
  destruct (Z.eqb_spec (counts.Raw.RecvDatatypeSize (counts.Raw.Counts first)) 0) as [Hrd|Hrd].
  { eapply (main_discipline_lift path [calculating] []); [done|done|done|by left|done|].
    apply (discipline_error_exit path _
             ("invalid recv datatype size: "
              +:+ fmt_d (counts.Raw.RecvDatatypeSize (counts.Raw.Counts first)) +:+ nl)). }
  rewrite bind_unfold.
  pose proof (scaler_only_GetFromCallsCounts Float64s (Z.of_nat (size callsData))
                (counts.Raw.CommSize (counts.Raw.Counts first)) sendData
                (reduce_recv callsData)
                (counts.Raw.SendDatatypeSize (counts.Raw.Counts first))
                (counts.Raw.RecvDatatypeSize (counts.Raw.Counts first)) execTimes) as Hso.
  pose proof (discipline_scaler_only path _ w0 Float64s Hso
                (call_loop_decides Float64s _ _ _ _ _ _ _ _ _ w0)) as HG.
  destruct (GetFromCallsCounts _ _ _ _ _ _ _ _ w0) as [r w1|c w1|w1] eqn:Hrun.
  - destruct HG as (HGf & HGl & HGs). simpl in HGf, HGl, HGs.
    rewrite app_nil_r in HGs.
    apply main_discipline_save_report.
    + by rewrite HGs.
    + intros p Hp. rewrite <- Hf by done.
      pose proof (scaler_only_frame _ w0 Hso) as [_ Hfiles].
      rewrite Hrun in Hfiles. simpl in Hfiles. by rewrite Hfiles.
    + done.
  - eapply (main_discipline_lift path [calculating] []); [done|done|done|by left|done|done].
  - eapply (main_discipline_lift path [calculating] []); [done|done|done|by left|done|done].
Qed.

Lemma write_failed_not_returned {A} path e w (a : A) w' :
  @write_failed A path e w <> Returned a w'.
Proof. done. Qed.

Lemma write_ranks_returned path d n : forall rank w w' old,
  files w !! path = Some old ->
  write_ranks write_error path d n rank w = Returned tt w' ->
  (n <> 0%nat -> is_Some d) /\
  w' = mkWorld (stdout w)
         (<[path := old +:+
                    match d with
                    | Some cd =>
                        foldr String.append EmptyString
                          (rank_line cd <$> seqZ rank (Z.of_nat n))
                    | None => EmptyString
                    end]> (files w))
         (scaler_calls w) (logger w).
Proof.
  induction n as [|n IH]; intros rank w w' old Hold.
  - intros [= <-]. split; [done|].
    replace (match d with Some cd => _ | None => _ end) with EmptyString by (by destruct d).
    rewrite string_app_nil_r, insert_id by done. by destruct w.
  - cbn [write_ranks]. destruct d as [cd|]; [|done].
    rewrite bind_unfold. unfold WriteString at 1. rewrite Hold. simpl.
    destruct (write_error old _) as [e|]; [done|].
    intros Hrest. split; [by eexists|].
    eapply IH in Hrest as [_ ->]; [|simpl; apply lookup_insert_eq].
    cbn [files stdout scaler_calls logger]. rewrite insert_insert_eq.
    rewrite (seqZ_cons rank (Z.of_nat (S n))) by lia.
    cbn [fmap list_fmap foldr]. rewrite string_app_assoc.
    replace (Z.pred (Z.of_nat (S n))) with (Z.of_nat n) by lia.
    by replace (Z.succ rank) with (rank + 1) by lia.
Qed.

Lemma write_calls_returned path bw numRanks : forall allCalls w w' old,
  files w !! path = Some old ->
  write_calls write_error path (Some bw) numRanks allCalls w = Returned tt w' ->
  (0 < numRanks -> forall c, c ∈ allCalls -> is_Some (index (CallData_ bw) c)) /\
  w' = mkWorld (stdout w)
         (<[path := old +:+ report_text numRanks bw allCalls]> (files w))
         (scaler_calls w) (logger w).
Proof.
  induction allCalls as [|c cs IH]; intros w w' old Hold.
  - intros [= <-]. split; [by intros _ c ?%elem_of_nil|].
    unfold report_text. simpl. rewrite string_app_nil_r, insert_id by done. by destruct w.
  - cbn [write_calls]. rewrite bind_unfold. unfold WriteString at 1. rewrite Hold. simpl.
    destruct (write_error old _) as [e|]; [done|].
    rewrite bind_unfold.
    destruct (write_ranks _ _ _ _ _ _) as [[] w1| |] eqn:Hranks; [|done..].
    eapply write_ranks_returned in Hranks as [Hsome ->]; [|simpl; apply lookup_insert_eq].
    rewrite bind_unfold. unfold WriteString at 1. cbn [files stdout scaler_calls logger].
    rewrite lookup_insert_eq. cbn [default].
    destruct (write_error _ nl) as [e|]; [done|].
    intros Hrest. eapply IH in Hrest as [Hall ->]; [|simpl; apply lookup_insert_eq].
    cbn [files stdout scaler_calls logger]. rewrite !insert_insert_eq. split.
    + intros Hpos c' [->|Hc']%elem_of_cons; [|by apply Hall].
      apply Hsome. lia.
    + do 2 f_equal. unfold report_text. cbn [fmap list_fmap foldr].
      unfold block_text. rewrite seqZ_of_to_nat. by rewrite !string_app_assoc.
Qed.

Lemma call_loop_no_error_some ranks scs rcs sds rds ets n call d w p w' :
  call_loop Float64s ranks scs rcs sds rds ets n call d w = Returned (p, None) w' ->
  is_Some p.
Proof.
  intros H. pose proof (call_loop_decides Float64s ranks scs rcs sds rds ets n call d w) as Hd.
  rewrite H in Hd. destruct p; [by eexists|done].
Qed.

(** The world in which the body of [main] returns: that of the logger after
    its two lines, with the report in the report file, the scaler calls of
    the aggregation and one more line on the standard output. *)
Lemma main_comm_returned outputDir leadRank callsData commCounts execTimes w w2 :
  main_comm Float64s filepath_Join create_error write_error outputDir leadRank
    callsData commCounts execTimes w = Returned tt w2 ->
  exists first rest bw w1,
    let numRanks := counts.Raw.CommSize (counts.Raw.Counts first) in
    let path := filepath_Join outputDir (GetOutputFilename leadRank) in
    let allCalls := sort_Ints (reduce_send callsData).1 in
    let wl := logged write_error saving (logged write_error calculating w) in
    commCounts = first :: rest /\
    numRanks <> 0 /\
    GetFromCallsCounts Float64s (Z.of_nat (size callsData)) numRanks
      (reduce_send callsData).2 (reduce_recv callsData)
      (counts.Raw.SendDatatypeSize (counts.Raw.Counts first))
      (counts.Raw.RecvDatatypeSize (counts.Raw.Counts first)) execTimes w
      = Returned (Some bw, None) w1 /\
    create_error path = None /\
    (0 < numRanks -> forall c, c ∈ allCalls -> is_Some (index (CallData_ bw) c)) /\
    w2 = mkWorld (stdout wl ++ ["Data successfully saved in " +:+ path +:+ nl])
           (<[path := report_text numRanks bw allCalls]> (files wl))
           (scaler_calls w1) (logger wl).
Proof.
  unfold main_comm. destruct (reduce_send callsData) as [allCalls sendData] eqn:Hred.
  rewrite bind_log_Println. fold calculating.
  destruct commCounts as [|first rest]; [done|].
  destruct (Z.eqb_spec (counts.Raw.CommSize (counts.Raw.Counts first)) 0) as [Hn|Hn]; [done|].
  destruct (Z.eqb_spec (counts.Raw.SendDatatypeSize (counts.Raw.Counts first)) 0); [done|].
  destruct (Z.eqb_spec (counts.Raw.RecvDatatypeSize (counts.Raw.Counts first)) 0); [done|].
  rewrite bind_unfold.
  destruct (GetFromCallsCounts _ _ _ _ _ _ _ _ _) as [[p [e|]] w1| |] eqn:HG; [done| |done..].
  destruct (call_loop_no_error_some _ _ _ _ _ _ _ _ _ _ _ _ HG) as [bw ->].
  destruct (scaler_only_returned _ _ _ _
              (scaler_only_GetFromCallsCounts Float64s (Z.of_nat (size callsData))
                 (counts.Raw.CommSize (counts.Raw.Counts first)) sendData
                 (reduce_recv callsData)
                 (counts.Raw.SendDatatypeSize (counts.Raw.Counts first))
                 (counts.Raw.RecvDatatypeSize (counts.Raw.Counts first)) execTimes) HG)
    as (l & -> & Hany).
  unfold save_report. rewrite bind_log_Println. fold saving.
  rewrite logged_add_scaler_calls.
  rewrite bind_unfold. unfold os_Create.
  destruct (create_error _) as [e|] eqn:Hcreate; [done|].
  rewrite bind_unfold.
  destruct (write_calls _ _ _ _ _ _) as [[] w3| |] eqn:Hw; [|done..].
  eapply write_calls_returned in Hw as [Hall ->]; [|simpl; apply lookup_insert_eq].
  intros [= <-]. exists first, rest, bw, (add_scaler_calls l w). simpl.
  split_and!; try done.
  rewrite insert_insert_eq. by rewrite !logged_scaler_calls.
Qed.

(** X10 (bandwidth.go, main): the body of [main] returns only with a
    complete report: when it returns, the header is valid, the aggregator
    has returned a CallsData without error and the report file holds, in
    place of whatever it held before, the report of the specification for
    all the call ids in ascending order and nothing else.  The files are
    those that the logger left after its two lines, but for the report file:
    every file other than the report file and the log file is as it was, and
    so is the log file when the logger discards its lines. *)
Theorem main_returns_with_full_report
    outputDir leadRank callsData commCounts execTimes w w2 :
  main_comm Float64s filepath_Join create_error write_error outputDir leadRank
    callsData commCounts execTimes w = Returned tt w2 ->
  exists first rest bw,
    let numRanks := counts.Raw.CommSize (counts.Raw.Counts first) in
    let path := filepath_Join outputDir (GetOutputFilename leadRank) in
    let allCalls := sort_Ints (reduce_send callsData).1 in
    let report := spec_report numRanks (unscaled_send bw) (unscaled_recv bw) allCalls in
    commCounts = first :: rest /\
    numRanks <> 0 /\
    verdict (GetFromCallsCounts Float64s (Z.of_nat (size callsData)) numRanks
               (reduce_send callsData).2 (reduce_recv callsData)
               (counts.Raw.SendDatatypeSize (counts.Raw.Counts first))
               (counts.Raw.RecvDatatypeSize (counts.Raw.Counts first)) execTimes w)
      = VReturned (Some bw, None) /\
    StronglySorted Z.lt allCalls /\
    (forall c, c ∈ allCalls <-> is_Some (callsData !! c)) /\
    files w2
    = <[path := report]> (files (logged write_error saving (logged write_error calculating w))) /\
    (forall p, p <> path -> log_out (logger w) <> MultiWriter_Stdout p ->
       files w2 !! p = files w !! p) /\
    (log_out (logger w) = ioutil_Discard -> files w2 = <[path := report]> (files w)).
Proof.
  intros Hret.
  apply main_comm_returned in Hret
    as (first & rest & bw & w1 & -> & Hn & HG & _ & Hall & ->).
  exists first, rest, bw. cbv zeta. cbn [files]. rewrite HG.
  destruct (sorted_calls callsData) as [Hsorted Hin].
  rewrite (report_text_as_specified _ _ _ Hall).
  split_and!; try done.
  - intros p Hp Hlog. rewrite lookup_insert_ne by done.
    rewrite logged_files by (by rewrite logged_log_out). by apply logged_files.
  - intros Hd. rewrite (logged_discard _ calculating) by done.
    by rewrite logged_discard.
Qed.

(** X11 (bandwidth.go, main): when the aggregator returns an error, the
    body of [main] prints the error after "ERROR:
    bandwidth.GetFromCallsCounts() failed:" and exits with status 1 without
    creating, truncating or writing any file: it does so in the world [w0]
    that the logger left at line 262, whose files are those of [w] but for
    the log file, and which is [w] itself when the logger discards its
    lines. *)
Theorem no_report_when_aggregator_fails
    outputDir leadRank callsData first rest execTimes w p e w1 :
  let numRanks := counts.Raw.CommSize (counts.Raw.Counts first) in
  let sendDatatypeSize := counts.Raw.SendDatatypeSize (counts.Raw.Counts first) in
  let recvDatatypeSize := counts.Raw.RecvDatatypeSize (counts.Raw.Counts first) in
  let w0 := logged write_error calculating w in
  numRanks <> 0 -> sendDatatypeSize <> 0 -> recvDatatypeSize <> 0 ->
  GetFromCallsCounts Float64s (Z.of_nat (size callsData)) numRanks
    (reduce_send callsData).2 (reduce_recv callsData)
    sendDatatypeSize recvDatatypeSize execTimes w = Returned (p, Some e) w1 ->
  main_comm Float64s filepath_Join create_error write_error outputDir leadRank
    callsData (first :: rest) execTimes w
  = Exited 1
      (mkWorld (stdout w0 ++ ["ERROR: bandwidth.GetFromCallsCounts() failed: " +:+ e +:+ nl])
         (files w0) (scaler_calls w1) (logger w0)) /\
  (forall p, log_out (logger w) <> MultiWriter_Stdout p -> files w0 !! p = files w !! p) /\
  (log_out (logger w) = ioutil_Discard -> w0 = w).
Proof.
  intros numRanks sds rds w0 Hn Hs Hr HG.
  split_and!; [|intros q; apply logged_files|apply logged_discard].
  rewrite main_comm_calls_aggregator by done. fold numRanks sds rds.
  rewrite bind_log_Println. fold calculating. fold w0.
  destruct (scaler_only_returned _ _ _ _
              (scaler_only_GetFromCallsCounts Float64s (Z.of_nat (size callsData)) numRanks
                 (reduce_send callsData).2 (reduce_recv callsData) sds rds execTimes) HG)
    as (l & -> & Hany).
  rewrite bind_unfold, Hany. unfold save_report. rewrite bind_unfold.
  unfold Printf, os_Exit. simpl. unfold w0. by rewrite logged_scaler_calls.
Qed.

Lemma write_calls_panics path bw numRanks : forall allCalls w old,
  (forall content piece, write_error content piece = None) ->
  0 < numRanks ->
  files w !! path = Some old ->
  (exists c, c ∈ allCalls /\ index (CallData_ bw) c = None) ->
  exists w', write_calls write_error path (Some bw) numRanks allCalls w = Panicked w'.
Proof.
  intros allCalls w old Hwrites Hpos. revert w old.
  induction allCalls as [|c0 cs IH]; intros w old Hold (c & Hc & Hnil).
  { by apply elem_of_nil in Hc. }
  cbn [write_calls]. rewrite bind_unfold.
  rewrite (WriteString_appends _ Hwrites _ _ _ old) by done.
  destruct (index (CallData_ bw) c0) as [cd|] eqn:Hc0.
  - rewrite bind_unfold.
    rewrite (write_ranks_appends _ Hwrites _ _ _ _ _ (old +:+ call_header c0))
      by (simpl; apply lookup_insert_eq).
    rewrite bind_unfold.
    erewrite (WriteString_appends _ Hwrites) by (simpl; apply lookup_insert_eq).
    eapply IH; [simpl; apply lookup_insert_eq|].
    exists c. split; [|done]. apply elem_of_cons in Hc as [->|Hc]; [congruence|done].
  - rewrite bind_unfold. destruct (Z.to_nat numRanks) as [|k] eqn:Hk; [lia|].
    by eexists.
Qed.

(** X12 (bandwidth.go, main): the report loop reads the record of every
    call id of the parsed data, while the aggregator only computes the ids
    below the number of calls: with a non-empty communicator, a valid
    header, a successful aggregation and working file operations, a call id
    outside that range makes the body of [main] panic on a nil record. *)
Theorem call_id_out_of_range_panics
    outputDir leadRank callsData first rest execTimes w bw w1 c :
  let numRanks := counts.Raw.CommSize (counts.Raw.Counts first) in
  let sendDatatypeSize := counts.Raw.SendDatatypeSize (counts.Raw.Counts first) in
  let recvDatatypeSize := counts.Raw.RecvDatatypeSize (counts.Raw.Counts first) in
  let outputFilePath := filepath_Join outputDir (GetOutputFilename leadRank) in
  (forall content piece, write_error content piece = None) ->
  create_error outputFilePath = None ->
  0 < numRanks -> sendDatatypeSize <> 0 -> recvDatatypeSize <> 0 ->
  GetFromCallsCounts Float64s (Z.of_nat (size callsData)) numRanks
    (reduce_send callsData).2 (reduce_recv callsData)
    sendDatatypeSize recvDatatypeSize execTimes w = Returned (Some bw, None) w1 ->
  is_Some (callsData !! c) ->
  ~ (0 <= c < Z.of_nat (size callsData)) ->
  exists w',
    main_comm Float64s filepath_Join create_error write_error outputDir leadRank
      callsData (first :: rest) execTimes w = Panicked w'.
Proof.
  intros numRanks sds rds path Hwrites Hcreate Hpos Hs Hr HG Hc Hout.
  rewrite main_comm_calls_aggregator by (done || lia). fold numRanks sds rds.
  rewrite bind_log_Println.
  destruct (scaler_only_returned _ _ _ _
              (scaler_only_GetFromCallsCounts Float64s (Z.of_nat (size callsData)) numRanks
                 (reduce_send callsData).2 (reduce_recv callsData) sds rds execTimes) HG)
    as (l & _ & Hany).
  rewrite bind_unfold, Hany. unfold save_report. fold path.
  rewrite bind_log_Println.
  rewrite bind_unfold. unfold os_Create. rewrite Hcreate. rewrite bind_unfold.
  edestruct (write_calls_panics path bw numRanks) as (w' & ->);
    [done|done|simpl; apply lookup_insert_eq| |by eexists].
  exists c. split; [by apply sorted_calls|].
  apply call_loop_returns in HG. specialize (HG c).
  rewrite decide_False in HG by lia. unfold index. by rewrite HG.
Qed.

(** X13 (bandwidth.go, main and GetOutputFilename): the report file is
    named after the lead rank only and is created anew each time.  Let the
    body of [main] run from line 262 on for a communicator, then [parse_next]
    be whatever [main] does before it gets there again (the parsers for the
    next communicator and the logger at line 246), then the body run again
    for the same output directory and lead rank.  When all this returns, the
    first run had left its report in the file, and the file now holds the
    report of the second run alone; the second run changed no other file
    but the log file. *)
Theorem second_report_replaces_first
    outputDir leadRank callsData1 commCounts1 execTimes1
    (parse_next : M (gmap Z counts.CallData * list counts.Raw.t * gmap Z (gmap Z float64)))
    w w3 :
  let path := filepath_Join outputDir (GetOutputFilename leadRank) in
  (_ ← main_comm Float64s filepath_Join create_error write_error outputDir leadRank
         callsData1 commCounts1 execTimes1;
   '(callsData2, commCounts2, execTimes2) ← parse_next;
   main_comm Float64s filepath_Join create_error write_error outputDir leadRank
     callsData2 commCounts2 execTimes2) w = Returned tt w3 ->
  exists w1 first1 rest1 bw1 w2 callsData2 commCounts2 execTimes2 first rest bw,
    let numRanks := counts.Raw.CommSize (counts.Raw.Counts first) in
    main_comm Float64s filepath_Join create_error write_error outputDir leadRank
      callsData1 commCounts1 execTimes1 w = Returned tt w1 /\
    commCounts1 = first1 :: rest1 /\
    files w1 !! path
    = Some (spec_report (counts.Raw.CommSize (counts.Raw.Counts first1))
              (unscaled_send bw1) (unscaled_recv bw1)
              (sort_Ints (reduce_send callsData1).1)) /\
    parse_next w1 = Returned (callsData2, commCounts2, execTimes2) w2 /\
    commCounts2 = first :: rest /\
    verdict (GetFromCallsCounts Float64s (Z.of_nat (size callsData2)) numRanks
               (reduce_send callsData2).2 (reduce_recv callsData2)
               (counts.Raw.SendDatatypeSize (counts.Raw.Counts first))
               (counts.Raw.RecvDatatypeSize (counts.Raw.Counts first)) execTimes2 w)
      = VReturned (Some bw, None) /\
    files w3 !! path
    = Some (spec_report numRanks (unscaled_send bw) (unscaled_recv bw)
              (sort_Ints (reduce_send callsData2).1)) /\
    (forall p, p <> path -> log_out (logger w2) <> MultiWriter_Stdout p ->
       files w3 !! p = files w2 !! p).
Proof.
  intros path. rewrite bind_unfold.
  destruct (main_comm _ _ _ _ _ _ callsData1 _ _ _) as [[] w1| |] eqn:H1; [|done..].
  rewrite bind_unfold.
  destruct (parse_next w1) as [[[callsData2 commCounts2] execTimes2] w2| |] eqn:Hp; [|done..].
  intros H2.
  apply main_comm_returned in H1
    as (first1 & rest1 & bw1 & v1 & -> & _ & _ & _ & Hall1 & Hw1).
  apply main_comm_returned in H2 as (first & rest & bw & v2 & -> & _ & HG & _ & Hall & ->).
  exists w1, first1, rest1, bw1, w2, callsData2, (first :: rest), execTimes2, first, rest, bw.
  cbv zeta. cbn [files].
  rewrite <- (report_text_as_specified _ _ _ Hall1), <- (report_text_as_specified _ _ _ Hall).
  split; [done|]. split; [done|].
  split; [rewrite Hw1; cbn [files]; apply lookup_insert_eq|].
  split; [done|]. split; [done|]. split.
  { erewrite scaler_only_verdict by apply scaler_only_GetFromCallsCounts.
    by rewrite HG. }
  split; [apply lookup_insert_eq|].
  intros p Hne Hlog. rewrite lookup_insert_ne by done.
  rewrite logged_files by (by rewrite logged_log_out). by apply logged_files.
Qed.

(** X14 (bandwidth.go, main, GetFromCallsCounts and GetFromCallCounts): from
    the parsed data to the record: after a successful aggregation in the
    body of [main], the send (resp. receive) bandwidth of a call id below the
    number of calls and of a rank below the communicator size is the float64
    quotient of the [int] sum of the raw send (resp. receive) counts of that
    call and rank by the execution time read for them. *)
Theorem bandwidth_from_raw_counts callsData numRanks sds rds execTimes w bw w1 c r :
  GetFromCallsCounts Float64s (Z.of_nat (size callsData)) numRanks
    (reduce_send callsData).2 (reduce_recv callsData) sds rds execTimes w
    = Returned (Some bw, None) w1 ->
  0 <= c < Z.of_nat (size callsData) ->
  0 <= r < numRanks ->
  exists d,
    CallData_ bw !! c = Some (Some d) /\
    SendRankBW d !! r
    = Some (fdiv (float64_of_int (wrap (exact_sum (raw_send callsData c r))))
              (index (index execTimes c) r)) /\
    RecvRankBW d !! r
    = Some (fdiv (float64_of_int (wrap (exact_sum (raw_recv callsData c r))))
              (index (index execTimes c) r)).
Proof.
  intros HG Hc Hr. apply call_loop_returns in HG. specialize (HG c).
  rewrite decide_True in HG by lia. destruct HG as (d & w0 & w0' & Hd & Hrun).
  exists d. split; [done|].
  apply rank_loop_returns in Hrun as (_ & _ & L3 & L4 & _).
  rewrite L3, L4. rewrite !decide_True by lia. unfold rate.
  by rewrite send_total_sum, recv_total_sum.
Qed.

End DriverMore.

(** * Further properties of the reduction of the raw counts *)

Lemma add_counts_lookup rank counts : forall (m : gmap Z Z) rank',
  add_counts rank counts m !! rank' =
  if decide (rank = rank') then
    match counts with
    | [] => m !! rank
    | _ :: _ => Some (wrap (index m rank + exact_sum counts))
    end
  else m !! rank'.
Proof.
  unfold add_counts. induction counts as [|c cs IH]; intros m rank'; simpl.
  - by case_decide; subst.
  - rewrite IH. case_decide as Heq; [|by rewrite lookup_insert_ne].
    subst rank'. rewrite index_insert_same, lookup_insert_eq. unfold int_add.
    destruct cs as [|c' cs]; simpl.
    + do 2 f_equal. lia.
    + rewrite wrap_add_l. do 2 f_equal. lia.
Qed.

Lemma reduce_ranks_lookup (ranksData : gmap Z (list Z)) (rank : Z) :
  reduce_ranks ranksData !! rank =
  match ranksData !! rank with
  | Some (c :: cs) => Some (wrap (exact_sum (c :: cs)))
  | _ => None
  end.
Proof.
  unfold reduce_ranks. revert rank.
  apply (map_fold_weak_ind
           (fun (r : gmap Z Z) (m : gmap Z (list Z)) => forall rank,
              r !! rank = match m !! rank with
                          | Some (c :: cs) => Some (wrap (exact_sum (c :: cs)))
                          | _ => None
                          end)).
  - intros rank. by rewrite !lookup_empty.
  - intros i x m r Hi IH rank. rewrite add_counts_lookup.
    case_decide as Heq.
    + subst rank. rewrite lookup_insert_eq. pose proof (IH i) as IHi. rewrite Hi in IHi.
      destruct x as [|c cs]; [done|]. unfold index. by rewrite IHi.
    + rewrite lookup_insert_ne by done. apply IH.
Qed.

Lemma reduce_ranks_in_order_lookup (l : list (Z * list Z)) :
  NoDup l.*1 ->
  forall rank,
    (rank ∉ l.*1 -> reduce_ranks_in_order l !! rank = None) /\
    (forall counts, (rank, counts) ∈ l ->
       reduce_ranks_in_order l !! rank =
       match counts with
       | [] => None
       | _ :: _ => Some (wrap (exact_sum counts))
       end).
Proof.
  unfold reduce_ranks_in_order.
  induction l as [|[k v] l IH] using rev_ind; intros Hnd rank.
  - split; [done|]. by intros counts ?%elem_of_nil.
  - rewrite fmap_app in Hnd. apply NoDup_app in Hnd as (Hnd & Hk & _).
    rewrite fold_left_app. cbn [fold_left]. rewrite add_counts_lookup.
    assert (k ∉ l.*1) as Hkl.
    { intros Hin. apply (Hk k Hin). simpl. by left. }
    destruct (IH Hnd rank) as [IHnone IHsome]. destruct (IH Hnd k) as [IHk _].
    split.
    + intros Hrank. rewrite fmap_app in Hrank. simpl in Hrank.
      rewrite decide_False by (intros ->; apply Hrank, elem_of_app; right; by left).
      apply IHnone. intros Hin. apply Hrank, elem_of_app. by left.
    + intros counts [Hin|Hin]%elem_of_app.
      * rewrite decide_False; [by apply IHsome|].
        intros ->. apply Hkl. apply list_elem_of_fmap. by exists (rank, counts).
      * apply list_elem_of_singleton in Hin. injection Hin as -> ->.
        rewrite decide_True by done. destruct v as [|c cs]; [by apply IHk|].
        unfold index. by rewrite (IHk Hkl).
Qed.

Lemma reduce_ranks_any_order (ranksData : gmap Z (list Z)) (l : list (Z * list Z)) :
  l ≡ₚ map_to_list ranksData -> reduce_ranks_in_order l = reduce_ranks ranksData.
Proof.
  intros Hperm. apply map_eq. intros rank. rewrite reduce_ranks_lookup.
  assert (NoDup l.*1) as Hnd by (rewrite Hperm; apply NoDup_fst_map_to_list).
  destruct (reduce_ranks_in_order_lookup l Hnd rank) as [Hnone Hsome].
  destruct (ranksData !! rank) as [counts|] eqn:Hlk.
  - rewrite (Hsome counts); [by destruct counts|].
    rewrite Hperm. by apply elem_of_map_to_list.
  - apply Hnone. rewrite Hperm. intros ([k v] & -> & Hin)%list_elem_of_fmap.
    apply elem_of_map_to_list in Hin. simpl in Hlk. congruence.
Qed.

Lemma reduce_in_order_spec (l : list (Z * counts.CallData)) inner :
  (reduce_in_order l inner).1 = l.*1 /\
  forall c, (reduce_in_order l inner).2 !! c =
            if decide (c ∈ l.*1) then Some (reduce_ranks_in_order (inner c)) else None.
Proof.
  unfold reduce_in_order. induction l as [|[k v] l [IH1 IH2]] using rev_ind.
  - split; [done|]. intros c. rewrite decide_False by apply not_elem_of_nil. done.
  - rewrite fold_left_app. cbn [fold_left].
    destruct (fold_left _ l _) as [allCalls data]. simpl in *. split.
    + by rewrite fmap_app, IH1.
    + intros c. rewrite fmap_app. simpl. destruct (decide (k = c)) as [->|Hne].
      * rewrite lookup_insert_eq, decide_True; [done|]. apply elem_of_app. right. by left.
      * rewrite lookup_insert_ne, IH2 by done.
        destruct (decide (c ∈ l.*1)) as [Hin|Hin].
        -- rewrite decide_True; [done|]. apply elem_of_app. by left.
        -- rewrite decide_False; [done|].
           intros [?|?%list_elem_of_singleton]%elem_of_app; congruence.
Qed.

Lemma keys_of_permutation (callsData : gmap Z counts.CallData) l c :
  l ≡ₚ map_to_list callsData -> c ∈ l.*1 <-> is_Some (callsData !! c).
Proof.
  intros Hperm. rewrite Hperm, list_elem_of_fmap. split.
  - intros ([k v] & -> & Hin). apply elem_of_map_to_list in Hin. by eexists.
  - intros [v Hv]. exists (c, v). split; [done|]. by apply elem_of_map_to_list.
Qed.

(** X15 (bandwidth.go, main): the totals given to the aggregator and the
    order of the calls in the report do not depend on the order in which Go
    walks the maps: whatever the order of the calls in each of the two
    post-processing loops and whatever the order of the ranks of each call,
    the send totals, the receive totals and the sorted list of call ids are
    the same. *)
Theorem reduction_independent_of_map_order
    (callsData : gmap Z counts.CallData) l_send l_recv inner_send inner_recv :
  l_send ≡ₚ map_to_list callsData ->
  l_recv ≡ₚ map_to_list callsData ->
  orders_ranks_of counts.SendData callsData inner_send ->
  orders_ranks_of counts.RecvData callsData inner_recv ->
  (reduce_in_order l_send inner_send).2 = (reduce_send callsData).2 /\
  (reduce_in_order l_recv inner_recv).2 = reduce_recv callsData /\
  sort_Ints (reduce_in_order l_send inner_send).1 = sort_Ints (reduce_send callsData).1.
Proof.
  intros Hs Hr Hinner_s Hinner_r.
  destruct (reduce_in_order_spec l_send inner_send) as [Hs1 Hs2].
  destruct (reduce_in_order_spec l_recv inner_recv) as [_ Hr2].
  split_and!.
  - apply map_eq. intros c. rewrite Hs2, reduce_send_lookup.
    pose proof (keys_of_permutation callsData l_send c Hs) as Hkeys.
    destruct (callsData !! c) as [cd|] eqn:Hc.
    + rewrite decide_True by (apply Hkeys; by eexists). simpl. f_equal.
      apply reduce_ranks_any_order. by apply Hinner_s.
    + rewrite decide_False; [done|]. intros Hin. by apply Hkeys in Hin as [? ?].
  - apply map_eq. intros c. rewrite Hr2, reduce_recv_lookup.
    pose proof (keys_of_permutation callsData l_recv c Hr) as Hkeys.
    destruct (callsData !! c) as [cd|] eqn:Hc.
    + rewrite decide_True by (apply Hkeys; by eexists). simpl. f_equal.
      apply reduce_ranks_any_order. by apply Hinner_r.
    + rewrite decide_False; [done|]. intros Hin. by apply Hkeys in Hin as [? ?].
  - rewrite Hs1. unfold sort_Ints.
    apply (StronglySorted_unique_strong Z.le).
    + intros x1 x2 _ _ ? ?. lia.
    + apply StronglySorted_merge_sort; apply _.
    + apply StronglySorted_merge_sort; apply _.
    + rewrite !merge_sort_Permutation.
      destruct (reduce_send_calls callsData) as [Hnd Hin].
      apply NoDup_Permutation; [|done|].
      * rewrite Hs. apply NoDup_fst_map_to_list.
      * intros c. rewrite Hin. by apply keys_of_permutation.
Qed.

(** X16 (bandwidth.go, main): the maps of totals built by the two
    post-processing loops have an inner map for exactly the call ids of the
    parsed data, and in it an entry for exactly the ranks whose raw list is
    not empty, holding the [int] sum of the list. *)
Theorem totals_have_entries_for_counted_ranks
    (callsData : gmap Z counts.CallData) (callId rank : Z) :
  (is_Some ((reduce_send callsData).2 !! callId) <-> is_Some (callsData !! callId)) /\
  (is_Some (reduce_recv callsData !! callId) <-> is_Some (callsData !! callId)) /\
  index (reduce_send callsData).2 callId !! rank
  = match raw_send callsData callId rank with
    | [] => None
    | c :: cs => Some (wrap (exact_sum (c :: cs)))
    end /\
  index (reduce_recv callsData) callId !! rank
  = match raw_recv callsData callId rank with
    | [] => None
    | c :: cs => Some (wrap (exact_sum (c :: cs)))
    end.
Proof.
  split_and!.
  - rewrite reduce_send_lookup. by rewrite fmap_is_Some.
  - rewrite reduce_recv_lookup. by rewrite fmap_is_Some.
  - unfold raw_send, index at 1. rewrite reduce_send_lookup.
    destruct (callsData !! callId) as [cd|]; simpl; [|by rewrite lookup_empty].
    rewrite reduce_ranks_lookup. unfold index at 2.
    by destruct (_ !! rank) as [[|c cs]|].
  - unfold raw_recv, index at 1. rewrite reduce_recv_lookup.
    destruct (callsData !! callId) as [cd|]; simpl; [|by rewrite lookup_empty].
    rewrite reduce_ranks_lookup. unfold index at 2.
    by destruct (_ !! rank) as [[|c cs]|].
Qed.

(** * The name of the report file *)

Lemma string_app_length (s1 s2 : string) :
  String.length (s1 +:+ s2) = (String.length s1 + String.length s2)%nat.
Proof.
  induction s1 as [|a s1 IH]; [done|].
  change (S (String.length (s1 +:+ s2)) = S (String.length s1 + String.length s2)).
  by rewrite IH.
Qed.

Lemma string_app_inv_tail (s1 s2 t : string) : s1 +:+ t = s2 +:+ t -> s1 = s2.
Proof.
  revert s2. induction s1 as [|a s1 IH]; intros [|b s2] Heq; [done| | |].
  - apply (f_equal String.length) in Heq.
    rewrite !string_app_length in Heq. simpl in Heq. lia.
  - apply (f_equal String.length) in Heq.
    rewrite !string_app_length in Heq. simpl in Heq. lia.
  - change (String a (s1 +:+ t) = String b (s2 +:+ t)) in Heq.
    injection Heq as -> Heq. f_equal. by apply IH.
Qed.

Lemma string_app_inv_head (t s1 s2 : string) : t +:+ s1 = t +:+ s2 -> s1 = s2.
Proof.
  induction t as [|a t IH]; [done|].
  change (String a (t +:+ s1) = String a (t +:+ s2) -> s1 = s2).
  intros [= Heq]. by apply IH.
Qed.

(** X17 (bandwidth.go, GetOutputFilename): two lead ranks never share a
    report file name. *)
Theorem GetOutputFilename_inj (leadRank1 leadRank2 : Z) :
  GetOutputFilename leadRank1 = GetOutputFilename leadRank2 -> leadRank1 = leadRank2.
Proof.
  unfold GetOutputFilename, fmt_d. intros Heq.
  apply string_app_inv_head, string_app_inv_tail in Heq.
  by apply (inj pretty) in Heq.
Qed.

(** * The report and the scaler *)

Lemma block_text_of_rates Float64s numCalls ranks scs rcs sds rds ets w bw w' c :
  GetFromCallsCounts Float64s numCalls ranks scs rcs sds rds ets w
    = Returned (Some bw, None) w' ->
  block_text ranks (index (CallData_ bw) c) c = block_of_rates numCalls ranks scs rcs ets c.
Proof.
  intros HG. apply call_loop_returns in HG. specialize (HG c).
  unfold block_text, block_of_rates, index at 1. case_decide as Hc.
  - rewrite decide_True by lia. destruct HG as (d & w0 & w1 & -> & Hrun). simpl.
    apply rank_loop_returns in Hrun as (_ & _ & L3 & L4 & _).
    do 3 f_equal. apply list_fmap_ext. intros i r Hr.
    apply list_elem_of_lookup_2, elem_of_seqZ in Hr.
    unfold rank_line, line_of_rates, index. rewrite L3, L4.
    by rewrite !decide_True by lia.
  - rewrite decide_False by lia. rewrite HG. simpl. by rewrite lookup_empty.
Qed.

Lemma report_text_of_rates Float64s numCalls ranks scs rcs sds rds ets w bw w' allCalls :
  GetFromCallsCounts Float64s numCalls ranks scs rcs sds rds ets w
    = Returned (Some bw, None) w' ->
  report_text ranks bw allCalls
  = foldr String.append EmptyString (block_of_rates numCalls ranks scs rcs ets <$> allCalls).
Proof.
  intros HG. unfold report_text. f_equal. apply list_fmap_ext. intros i c _.
  by eapply block_text_of_rates.
Qed.

Section ReportAndScaler.

Variable filepath_Join : string -> string -> string.
Variable create_error : string -> option error.
Variable write_error : string -> string -> option error.

(** X18 (bandwidth.go, main and GetFromCallCounts): the scaled values and
    the unit labels never reach the report: when the body of [main] returns
    with one scaler and with another on the same data, both leave the same
    files and the same standard output. *)
Theorem report_independent_of_scaler Float64s1 Float64s2
    outputDir leadRank callsData commCounts execTimes w w1 w2 :
  main_comm Float64s1 filepath_Join create_error write_error outputDir leadRank
    callsData commCounts execTimes w = Returned tt w1 ->
  main_comm Float64s2 filepath_Join create_error write_error outputDir leadRank
    callsData commCounts execTimes w = Returned tt w2 ->
  files w1 = files w2 /\ stdout w1 = stdout w2.
Proof.
  intros H1 H2.
  apply main_comm_returned in H1 as (f1 & r1 & bw1 & v1 & Hc1 & _ & HG1 & _ & _ & ->).
  apply main_comm_returned in H2 as (f2 & r2 & bw2 & v2 & Hc2 & _ & HG2 & _ & _ & ->).
  simplify_eq. simpl. split; [|done].
  by rewrite (report_text_of_rates _ _ _ _ _ _ _ _ _ _ _ _ HG1),
             (report_text_of_rates _ _ _ _ _ _ _ _ _ _ _ _ HG2).
Qed.

End ReportAndScaler.

(** * The getbins command *)

Lemma ends_with_newline_app (s t : string) :
  ends_with_newline t = true -> ends_with_newline (s +:+ t) = true.
Proof.
  intros Ht. induction s as [|c s IH]; [done|].
  change (String c s +:+ t) with (String c (s +:+ t)). cbn [ends_with_newline].
  destruct (s +:+ t) eqn:Hst; [|done].
  destruct s; [|done]. change (t = EmptyString) in Hst. by rewrite Hst in Ht.
Qed.

Lemma getbins_discipline_bind {A B} n1 n2 (m : M A) (k : A -> M B) w :
  getbins_discipline n1 w (m w) ->
  (forall a w1, m w = Returned a w1 -> getbins_discipline n2 w1 (k a w1)) ->
  getbins_discipline (n1 + n2) w ((m ≫= k) w).
Proof.
  intros (Hl & ls1 & Hr1 & Hd1 & Hm) Hk. rewrite bind_unfold.
  destruct (m w) as [a w1|c w1|w1]; [| |done].
  - destruct Hm as [Hs1 Hn1]. simpl in Hl.
    destruct (Hk a w1 eq_refl) as (Hl' & ls2 & Hr2 & Hd2 & Hk').
    split; [by rewrite Hl', Hl|].
    exists (ls1 ++ ls2). split; [by apply Forall_app|].
    split; [intros Hd; rewrite Hd1, Hd2 by congruence; done|].
    destruct (k a w1) as [b w2|c w2|w2]; [| |done].
    + destruct Hk' as [Hs2 Hn2]. split; [by rewrite Hs2, Hs1, app_assoc|].
      intros Hv. rewrite length_app, Hn1, Hn2 by congruence. done.
    + destruct Hk' as (-> & Hn2 & msg & Hs2). split; [done|]. split.
      * rewrite length_app.
        destruct (log_out (logger w)) as [|logFile] eqn:Hout.
        -- rewrite Hd1 by done. simpl. lia.
        -- rewrite Hn1 by done. lia.
      * exists msg. by rewrite Hs2, Hs1, <- !app_assoc.
  - simpl in Hl. destruct Hm as (-> & Hn1 & msg & Hs1).
    split; [done|]. exists ls1. split; [done|]. split; [done|].
    split; [done|]. split; [lia|]. by exists msg.
Qed.

Lemma getbins_discipline_ret {A} (a : A) w : getbins_discipline 0 w (Returned a w).
Proof.
  split; [done|]. exists []. split; [done|]. split; [done|].
  split; [simpl; by rewrite app_nil_r|done].
Qed.

Lemma getbins_discipline_error_exit {A} n (msg : string) w :
  getbins_discipline n w ((_ ← Printf ("ERROR: " +:+ msg); @os_Exit A 1) w).
Proof.
  split; [done|]. exists []. split; [done|]. split; [done|].
  split; [done|]. split; [simpl; lia|]. by exists msg.
Qed.

Lemma quiet_discipline {A} (m : M A) w : quiet m -> getbins_discipline 0 w (m w).
Proof.
  intros Hq. destruct (Hq w) as (a & w' & -> & Hs & Hl).
  split; [simpl; by rewrite Hl|]. exists []. split; [done|]. split; [done|].
  split; [simpl; by rewrite app_nil_r|done].
Qed.

Lemma getbins_discipline_logged we (n : Z) w :
  getbins_discipline 1 w
    (log_Printf we ("Ready to create " +:+ fmt_d n +:+ " bins" +:+ nl) w).
Proof.
  split; [apply logged_log_out|].
  exists (log_lines (logger w) ["Ready to create " +:+ fmt_d n +:+ " bins" +:+ nl]).
  split_and!.
  - simpl. destruct (log_out (logger w)); [done|].
    apply Forall_singleton. exists (log_header (logger w) (log_count (logger w))), n.
    unfold log_line.
    by rewrite ends_with_newline_app by (do 2 apply ends_with_newline_app; reflexivity).
  - apply log_lines_discard.
  - change (log_Printf we ("Ready to create " +:+ fmt_d n +:+ " bins" +:+ nl) w)
      with (Returned tt (logged we ("Ready to create " +:+ fmt_d n +:+ " bins" +:+ nl) w)).
    split; [apply logged_stdout|].
    intros Hv. simpl. by destruct (log_out (logger w)).
Qed.

Section GetBinsFacts.

Variable Bins : Type.
Variable bins_GetFromFile : string -> list Z -> M (Bins * option error).
Variable bins_Save : string -> Z -> Z -> Z -> Bins -> M (option error).
Variable bins_GetFromInputDescr : string -> M (list Z).
Variable counts_GetJobIdFromLeadRank : string -> Z -> M (Z * option error).
Variable counts_GetSendCountFile : Z -> Z -> M string.
Variable getbins_Join : string -> string -> string.
Variable getbins_write_error : string -> string -> option error.

Hypothesis GetFromFile_quiet : forall inputFile listBins,
  quiet (bins_GetFromFile inputFile listBins).
Hypothesis Save_quiet : forall outputDir jobId commId leadRank b,
  quiet (bins_Save outputDir jobId commId leadRank b).
Hypothesis GetFromInputDescr_quiet : forall descr,
  quiet (bins_GetFromInputDescr descr).
Hypothesis GetJobId_quiet : forall inputDir leadRank,
  quiet (counts_GetJobIdFromLeadRank inputDir leadRank).
Hypothesis GetSendCountFile_quiet : forall jobId leadRank,
  quiet (counts_GetSendCountFile jobId leadRank).

Lemma getBinsFromCountFile_discipline inputFile jobId commId leadRank listBins outputDir w :
  getbins_discipline 0 w
    (getBinsFromCountFile Bins bins_GetFromFile bins_Save inputFile jobId commId leadRank
       listBins outputDir w).
Proof.
  unfold getBinsFromCountFile.
  destruct (String.eqb _ _); [apply getbins_discipline_ret|].
  apply (getbins_discipline_bind 0 0); [by apply quiet_discipline|].
  intros [b [e|]] w1 _; [apply getbins_discipline_ret|].
  apply (getbins_discipline_bind 0 0); [by apply quiet_discipline|].
  intros [e|] w2 _; apply getbins_discipline_ret.
Qed.

Lemma getbins_comm_discipline inputDir binThresholds outputDir leadRank commId w :
  getbins_discipline 1 w
    (getbins_comm Bins bins_GetFromFile bins_Save bins_GetFromInputDescr
       counts_GetJobIdFromLeadRank counts_GetSendCountFile getbins_Join
       getbins_write_error inputDir binThresholds outputDir leadRank commId w).
Proof.
  unfold getbins_comm.
  apply (getbins_discipline_bind 0 1); [by apply quiet_discipline|].
  intros listBins w0 _.
  apply (getbins_discipline_bind 0 1); [by apply quiet_discipline|].
  intros [jobId [e|]] w1 _.
  { apply (getbins_discipline_error_exit 1
             ("counts.GetJobIdFromLeadRank() failed: " +:+ e +:+ nl)). }
  apply (getbins_discipline_bind 1 0); [apply getbins_discipline_logged|].
  intros _ w2 _.
  apply (getbins_discipline_bind 0 0); [by apply quiet_discipline|].
  intros countFilePath w3 _.
  apply (getbins_discipline_bind 0 0); [apply getBinsFromCountFile_discipline|].
  intros [e|] w4 _; [|apply getbins_discipline_ret].
  apply (getbins_discipline_error_exit 0 ("getBinsFromCountFile() failed: " +:+ e +:+ nl)).
Qed.

Lemma getbins_commIds_discipline inputDir binThresholds outputDir leadRank commIds : forall w,
  getbins_discipline (length commIds) w
    (getbins_commIds Bins bins_GetFromFile bins_Save bins_GetFromInputDescr
       counts_GetJobIdFromLeadRank counts_GetSendCountFile getbins_Join
       getbins_write_error inputDir binThresholds outputDir leadRank commIds w).
Proof.
  induction commIds as [|commId rest IH]; intros w; [apply getbins_discipline_ret|].
  cbn [getbins_commIds length].
  apply (getbins_discipline_bind 1 (length rest)); [apply getbins_comm_discipline|].
  intros _ w1 _. apply IH.
Qed.

(** X19 (src/cmd/getbins/getbins.go, main and getBinsFromCountFile): as
    long as the five functions of packages bins and counts return without
    printing and without using the logger, the loop of [main] over the lead
    ranks and their communicators, in whatever order the map is walked,
    writes to the standard output the lines "Ready to create n bins" of the
    logger, none when the logger discards its lines and otherwise one per
    communicator when the loop returns and at most one per communicator when
    it exits, and nothing else but, when it exits, which it does with status
    1 only, one last line starting with ERROR; it does not panic. *)
Theorem getbins_exits_after_one_error inputDir binThresholds outputDir entries w :
  getbins_discipline (communicators entries) w
    (getbins_leads Bins bins_GetFromFile bins_Save bins_GetFromInputDescr
       counts_GetJobIdFromLeadRank counts_GetSendCountFile getbins_Join
       getbins_write_error inputDir binThresholds outputDir entries w).
Proof.
  revert w. induction entries as [|[leadRank commIds] rest IH]; intros w.
  { apply getbins_discipline_ret. }
  cbn [getbins_leads].
  replace (communicators ((leadRank, commIds) :: rest))
    with (length commIds + communicators rest)%nat
    by (unfold communicators; cbn [fmap list_fmap concat snd]; by rewrite length_app).
  apply getbins_discipline_bind; [apply getbins_commIds_discipline|].
  intros _ w1 _. apply IH.
Qed.

End GetBinsFacts.

Section GetBinsErrors.

Variable Bins : Type.
Variable bins_GetFromFile : string -> list Z -> M (Bins * option error).
Variable bins_Save : string -> Z -> Z -> Z -> Bins -> M (option error).
Variable bins_GetFromInputDescr : string -> M (list Z).
Variable counts_GetJobIdFromLeadRank : string -> Z -> M (Z * option error).
Variable counts_GetSendCountFile : Z -> Z -> M string.
Variable getbins_Join : string -> string -> string.
Variable getbins_write_error : string -> string -> option error.

(** X20 (getbins.go, main and getBinsFromCountFile): when, for the first
    communicator that [main] processes, the thresholds are read, the job id
    is found, the name of the count file is given and is not empty, but
    [bins.GetFromFile] fails on it, [main] stops there: it prints the error
    under the two prefixes "ERROR: getBinsFromCountFile() failed:" and
    "unable to get bins:" and exits with status 1, in the world that
    [bins.GetFromFile] left, so that [bins.Save] has not run and no other
    communicator is processed.  Each function runs in the world that the one
    before it left, the name of the count file being asked for after the
    logger was given the number of thresholds. *)
Theorem getbins_reports_unreadable_count_file
    inputDir binThresholds outputDir leadRank commId commIds rest
    w listBins w0 jobId w1 file w2 b e w3 :
  let countFilePath := getbins_Join inputDir file in
  bins_GetFromInputDescr binThresholds w = Returned listBins w0 ->
  counts_GetJobIdFromLeadRank inputDir leadRank w0 = Returned (jobId, None) w1 ->
  counts_GetSendCountFile jobId leadRank
    (logged getbins_write_error
       ("Ready to create " +:+ fmt_d (Z.of_nat (length listBins)) +:+ " bins" +:+ nl) w1)
    = Returned file w2 ->
  countFilePath <> EmptyString ->
  bins_GetFromFile countFilePath listBins w2 = Returned (b, Some e) w3 ->
  getbins_leads Bins bins_GetFromFile bins_Save bins_GetFromInputDescr
    counts_GetJobIdFromLeadRank counts_GetSendCountFile getbins_Join
    getbins_write_error inputDir binThresholds outputDir
    ((leadRank, commId :: commIds) :: rest) w
  = Exited 1
      (mkWorld
         (stdout w3 ++ ["ERROR: getBinsFromCountFile() failed: unable to get bins: "
                        +:+ e +:+ nl])
         (files w3) (scaler_calls w3) (logger w3)).
Proof.
  intros path Hdescr Hjob Hfile Hpath Hread.
  cbn [getbins_leads getbins_commIds]. rewrite !bind_unfold.
  unfold getbins_comm. rewrite bind_unfold, Hdescr, bind_unfold, Hjob.
  rewrite bind_log_Printf, bind_unfold, Hfile. fold path.
  rewrite bind_unfold. unfold getBinsFromCountFile.
  destruct (String.eqb_spec path EmptyString) as [?|_]; [done|].
  rewrite bind_unfold, Hread. reflexivity.
Qed.

End GetBinsErrors.

(** * The further theorems at concrete inputs *)

Lemma byte_maps_stay_empty_witness :
  exists d w',
    GetFromCallCounts Float64s_spec 2 (index sample_send 0) (index sample_recv 0) 4 4
      (index sample_times 0) empty_world = Returned (Some d, None) w' /\
    SendData d = ∅ /\ RecvData d = ∅.
Proof.
  eexists _, _. split; [vm_compute; reflexivity|].
  apply (byte_maps_stay_empty Float64s_spec 0 2 (index sample_send 0)
           (index sample_recv 0) 4 4 (index sample_times 0) ∅ ∅ ∅).
  left. eexists empty_world, _. vm_compute. reflexivity.
Defined.

Lemma scaled_values_from_scaler_witness :
  0 <= 1 < 2 /\
  exists d w',
    GetFromCallCounts Float64s_spec 2 idle_then_busy_send idle_then_busy_recv 4 4
      one_second_each empty_world = Returned (Some d, None) w' /\
    exists us xs ur xr,
      stored_scaled Float64s_spec (rate idle_then_busy_send one_second_each 1)
        = Some (us, xs) /\
      stored_scaled Float64s_spec (rate idle_then_busy_recv one_second_each 1)
        = Some (ur, xr) /\
      ScaledSendRankBW d !! 1 = Some xs /\
      ScaledRecvRankBW d !! 1 = Some xr /\
      (1 = 2 - 1 -> ScaledSendRankBWUnit d = us /\ ScaledRecvRankBWUnit d = ur).
Proof.
  assert (0 <= 1 < 2) as Hrange by lia. split; [exact Hrange|].
  eexists _, _. split; [vm_compute; reflexivity|].
  eapply (scaled_values_from_scaler Float64s_spec 2 idle_then_busy_send idle_then_busy_recv
            4 4 one_second_each empty_world _ _ 1); [vm_compute; reflexivity|exact Hrange].
Defined.

Lemma scaler_calls_in_rank_order_witness :
  exists d w',
    GetFromCallCounts Float64s_spec 2 (index sample_send 0) (index sample_recv 0) 4 4
      (index sample_times 0) empty_world = Returned (Some d, None) w' /\
    scaler_calls w'
    = scaler_calls empty_world
      ++ concat (calls_of_rank (index sample_send 0) (index sample_recv 0)
                   (index sample_times 0) <$> seqZ 0 2) /\
    (length (scaler_calls w') <= length (scaler_calls empty_world) + 2 * Z.to_nat 2)%nat.
Proof.
  eexists _, _. split; [vm_compute; reflexivity|].
  eapply (scaler_calls_in_rank_order Float64s_spec 2 (index sample_send 0)
            (index sample_recv 0) 4 4 (index sample_times 0) empty_world).
  vm_compute. reflexivity.
Defined.

Lemma only_calls_and_ranks_in_range_are_read_witness :
  (forall c r, 0 <= c < 1 -> 0 <= r < 2 ->
     index (index sample_send c) r = index (index sample_send_extra c) r /\
     index (index sample_recv c) r = index (index sample_recv c) r /\
     index (index sample_times c) r = index (index sample_times c) r) /\
  GetFromCallsCounts Float64s_spec 1 2 sample_send sample_recv 4 4 sample_times empty_world
  = GetFromCallsCounts Float64s_spec 1 2 sample_send_extra sample_recv 8 8 sample_times
      empty_world.
Proof.
  assert (forall c r, 0 <= c < 1 -> 0 <= r < 2 ->
     index (index sample_send c) r = index (index sample_send_extra c) r /\
     index (index sample_recv c) r = index (index sample_recv c) r /\
     index (index sample_times c) r = index (index sample_times c) r) as Hagree.
  { intros c r Hc Hr. assert (c = 0) as -> by lia.
    assert (r = 0 \/ r = 1) as [-> | ->] by lia; vm_compute; done. }
  split; [exact Hagree|].
  exact (only_calls_and_ranks_in_range_are_read Float64s_spec 1 2 sample_send sample_recv
           4 4 sample_times sample_send_extra sample_recv 8 8 sample_times empty_world
           Hagree).
Defined.

Lemma idle_rank_has_zero_bandwidth_witness :
  0 <= 1 < 2 /\ fpos (index (index sample_times 0) 1) = true /\
  index (index sample_recv 0) 1 = 0 /\
  exists d w',
    GetFromCallCounts Float64s_spec 2 (index sample_send 0) (index sample_recv 0) 4 4
      (index sample_times 0) empty_world = Returned (Some d, None) w' /\
    RecvRankBW d !! 1 = Some (S754_zero false) /\
    ScaledRecvRankBW d !! 1 = Some (S754_zero false).
Proof.
  assert (0 <= 1 < 2) as Hrange by lia.
  split; [exact Hrange|]. split; [vm_compute; reflexivity|]. split; [vm_compute; reflexivity|].
  eexists _, _. split; [vm_compute; reflexivity|].
  eapply (idle_rank_has_zero_bandwidth Float64s_spec 2 (index sample_send 0)
            (index sample_recv 0) 4 4 (index sample_times 0) empty_world _ _ 1);
    [vm_compute; reflexivity|exact Hrange|vm_compute; reflexivity|vm_compute; reflexivity].
Defined.

Lemma CallsData_has_every_call_witness :
  exists bw w',
    GetFromCallsCounts Float64s_spec 2 2 two_calls_send two_calls_recv 4 4 two_calls_times
      empty_world = Returned (Some bw, None) w' /\
    (forall c, is_Some (CallData_ bw !! c) <-> 0 <= c < 2) /\
    size (CallData_ bw) = Z.to_nat 2.
Proof.
  eexists _, _. split; [vm_compute; reflexivity|].
  edestruct (CallsData_has_every_call Float64s_spec 2 2 two_calls_send two_calls_recv 4 4
               two_calls_times empty_world) as (Hdom & Hsize & _); [vm_compute; reflexivity|].
  split; [exact Hdom|exact Hsize].
Defined.

Lemma later_calls_are_not_computed_witness :
  0 <= 2 <= 5 /\
  (forall bw w',
     GetFromCallsCounts Float64s_small_only 2 2 two_calls_send two_calls_recv 4 4
       two_calls_times empty_world <> Returned (Some bw, None) w') /\
  GetFromCallsCounts Float64s_small_only 5 2 two_calls_send two_calls_recv 4 4
    two_calls_times empty_world
  = GetFromCallsCounts Float64s_small_only 2 2 two_calls_send two_calls_recv 4 4
      two_calls_times empty_world.
Proof.
  assert (0 <= 2 <= 5) as Hle by lia.
  assert (forall bw w',
     GetFromCallsCounts Float64s_small_only 2 2 two_calls_send two_calls_recv 4 4
       two_calls_times empty_world <> Returned (Some bw, None) w') as Hfail.
  { intros bw w' H. vm_compute in H. discriminate. }
  split; [exact Hle|]. split; [exact Hfail|].
  exact (later_calls_are_not_computed Float64s_small_only 2 5 2 two_calls_send
           two_calls_recv 4 4 two_calls_times empty_world Hle Hfail).
Defined.

Lemma main_returns_with_full_report_witness :
  exists w2 bw,
    main_comm Float64s_spec sample_join never_fails1 never_fails2 "out" 3
      sample_callsData (sample_header 2 4 4) sample_times verbose_world = Returned tt w2 /\
    files w2
    = <[sample_join "out" (GetOutputFilename 3) :=
          spec_report 2 (unscaled_send bw) (unscaled_recv bw)
            (sort_Ints (reduce_send sample_callsData).1)]>
        (files (logged never_fails2 saving (logged never_fails2 calculating verbose_world))) /\
    (forall p, p <> sample_join "out" (GetOutputFilename 3) ->
       log_out (logger verbose_world) <> MultiWriter_Stdout p ->
       files w2 !! p = files verbose_world !! p).
Proof.
  eexists.
  edestruct (main_returns_with_full_report Float64s_spec sample_join never_fails1
               never_fails2 "out" 3 sample_callsData (sample_header 2 4 4) sample_times
               verbose_world)
    as (first & rest & bw & Hc & _ & _ & _ & _ & Hfiles & Hothers & _);
    [vm_compute; reflexivity|].
  exists bw. split; [vm_compute; reflexivity|].
  injection Hc as <- <-. split; [exact Hfiles|exact Hothers].
Defined.

Lemma no_report_when_aggregator_fails_witness :
  let w0 := logged never_fails2 calculating verbose_world in
  exists p e w1,
    GetFromCallsCounts Float64s_small_only
      (Z.of_nat (size sample_callsData)) 2
      (reduce_send sample_callsData).2 (reduce_recv sample_callsData) 4 4 sample_times
      verbose_world = Returned (p, Some e) w1 /\
    main_comm Float64s_small_only sample_join never_fails1 never_fails2 "out" 3
      sample_callsData (sample_header 2 4 4) sample_times verbose_world
    = Exited 1
        (mkWorld
           (stdout w0 ++ ["ERROR: bandwidth.GetFromCallsCounts() failed: " +:+ e +:+ nl])
           (files w0) (scaler_calls w1) (logger w0)) /\
    (forall q, log_out (logger verbose_world) <> MultiWriter_Stdout q ->
       files w0 !! q = files verbose_world !! q) /\
    (log_out (logger verbose_world) = ioutil_Discard -> w0 = verbose_world).
Proof.
  assert (2 <> 0) as H2 by lia. assert (4 <> 0) as H4 by lia.
  intros w0. eexists _, _, _. split; [vm_compute; reflexivity|].
  eapply (no_report_when_aggregator_fails Float64s_small_only sample_join never_fails1
            never_fails2 "out" 3 sample_callsData
            (counts.Raw.mk (counts.Raw.mkHeader 2 4 4)) [] sample_times verbose_world
            _ _ _ H2 H4 H4).
  vm_compute. reflexivity.
Defined.

Lemma call_id_out_of_range_panics_witness :
  is_Some (gap_callsData !! 2) /\ ~ (0 <= 2 < Z.of_nat (size gap_callsData)) /\
  exists w',
    main_comm Float64s_spec sample_join never_fails1 never_fails2 "out" 3
      gap_callsData (sample_header 2 4 4) sample_times empty_world = Panicked w'.
Proof.
  assert (0 < 2) as H2 by lia. assert (4 <> 0) as H4 by lia.
  assert (is_Some (gap_callsData !! 2)) as Hin by (vm_compute; by eexists).
  assert (~ (0 <= 2 < Z.of_nat (size gap_callsData))) as Hout by (vm_compute; intros [_ ?]; done).
  split; [exact Hin|]. split; [exact Hout|].
  eapply (call_id_out_of_range_panics Float64s_spec sample_join never_fails1 never_fails2
            "out" 3 gap_callsData (counts.Raw.mk (counts.Raw.mkHeader 2 4 4)) []
            sample_times empty_world _ _ 2 (fun _ _ => eq_refl) eq_refl H2 H4 H4);
    [vm_compute; reflexivity|exact Hin|exact Hout].
Defined.

Lemma second_report_replaces_first_witness :
  exists w1 w2 w3 bw,
    main_comm Float64s_spec sample_join never_fails1 never_fails2 "out" 3
      sample_callsData (sample_header 2 4 4) sample_times verbose_world = Returned tt w1 /\
    sample_parse_next w1
    = Returned (other_callsData, sample_header 2 4 4, sample_times) w2 /\
    (_ ← main_comm Float64s_spec sample_join never_fails1 never_fails2 "out" 3
           sample_callsData (sample_header 2 4 4) sample_times;
     '(callsData2, commCounts2, execTimes2) ← sample_parse_next;
     main_comm Float64s_spec sample_join never_fails1 never_fails2 "out" 3
       callsData2 commCounts2 execTimes2) verbose_world = Returned tt w3 /\
    files w3 !! sample_join "out" (GetOutputFilename 3)
    = Some (spec_report 2 (unscaled_send bw) (unscaled_recv bw)
              (sort_Ints (reduce_send other_callsData).1)) /\
    (forall p, p <> sample_join "out" (GetOutputFilename 3) ->
       log_out (logger w2) <> MultiWriter_Stdout p ->
       files w3 !! p = files w2 !! p).
Proof.
  eexists _, _, _.
  edestruct (second_report_replaces_first Float64s_spec sample_join never_fails1
               never_fails2 "out" 3 sample_callsData (sample_header 2 4 4) sample_times
               sample_parse_next verbose_world)
    as (w1 & first1 & rest1 & bw1 & w2 & cd2 & cc2 & et2 & first & rest & bw
        & H1 & _ & _ & Hp & Hc & _ & Hfile & Hothers); [vm_compute; reflexivity|].
  exists bw. split; [vm_compute; reflexivity|]. split; [vm_compute; reflexivity|].
  split; [vm_compute; reflexivity|].
  assert (Returned (A := unit) tt w1 = Returned tt _) as Hw1
    by (rewrite <- H1; vm_compute; reflexivity).
  injection Hw1 as ->.
  assert (Returned (cd2, cc2, et2) w2 = Returned _ _) as Hw2
    by (rewrite <- Hp; vm_compute; reflexivity).
  injection Hw2 as -> -> -> ->.
  injection Hc as <- <-. split; [exact Hfile|exact Hothers].
Defined.

Example second_report_example :
  exists w3,
    (_ ← main_comm Float64s_spec sample_join never_fails1 never_fails2 "out" 3
           sample_callsData (sample_header 2 4 4) sample_times;
     '(callsData2, commCounts2, execTimes2) ← sample_parse_next;
     main_comm Float64s_spec sample_join never_fails1 never_fails2 "out" 3
       callsData2 commCounts2 execTimes2) verbose_world = Returned tt w3 /\
    files w3 !! "out/bandwidth-percall-comm3.md"
    = Some ("# Call 0" +:+ nl
            +:+ "send BW (B/s)" +:+ tab +:+ "receive BW (B/s)" +:+ nl
            +:+ "7.00" +:+ tab +:+ "1.00" +:+ nl
            +:+ "4.50" +:+ tab +:+ "1.00" +:+ nl
            +:+ nl) /\
    files w3 !! "bandwidth.log"
    = Some ("[0] -> Calculating bandwidths..." +:+ nl
            +:+ "[1] -> Saving results..." +:+ nl
            +:+ "[2] -> Loading execution times..." +:+ nl
            +:+ "[3] -> Calculating bandwidths..." +:+ nl
            +:+ "[4] -> Saving results..." +:+ nl).
Proof.
  eexists. split_and!; vm_compute; reflexivity.
Qed.

Lemma bandwidth_from_raw_counts_witness :
  0 <= 0 < Z.of_nat (size sample_callsData) /\ 0 <= 1 < 2 /\
  exists bw w1 d,
    GetFromCallsCounts Float64s_spec (Z.of_nat (size sample_callsData)) 2
      (reduce_send sample_callsData).2 (reduce_recv sample_callsData) 4 4 sample_times
      empty_world = Returned (Some bw, None) w1 /\
    CallData_ bw !! 0 = Some (Some d) /\
    SendRankBW d !! 1
    = Some (fdiv (float64_of_int (wrap (exact_sum (raw_send sample_callsData 0 1))))
              (index (index sample_times 0) 1)) /\
    RecvRankBW d !! 1
    = Some (fdiv (float64_of_int (wrap (exact_sum (raw_recv sample_callsData 0 1))))
              (index (index sample_times 0) 1)).
Proof.
  assert (0 <= 0 < Z.of_nat (size sample_callsData)) as Hc by (vm_compute; done).
  assert (0 <= 1 < 2) as Hr by lia.
  split; [exact Hc|]. split; [exact Hr|].
  assert (exists bw w1,
            GetFromCallsCounts Float64s_spec (Z.of_nat (size sample_callsData)) 2
              (reduce_send sample_callsData).2 (reduce_recv sample_callsData) 4 4
              sample_times empty_world = Returned (Some bw, None) w1) as (bw & w1 & HG)
    by (eexists _, _; vm_compute; reflexivity).
  destruct (bandwidth_from_raw_counts Float64s_spec sample_callsData 2 4 4 sample_times
              empty_world bw w1 0 1 HG Hc Hr) as (d & Hd).
  exists bw, w1, d. split; [exact HG|exact Hd].
Defined.

Lemma reversed_ranks_orders side callsData :
  orders_ranks_of side callsData (reversed_ranks side callsData).
Proof.
  intros callId callData Hc. unfold reversed_ranks. rewrite Hc. apply reverse_Permutation.
Qed.

Lemma reduction_independent_of_map_order_witness :
  (reduce_in_order (reverse (map_to_list two_calls_callsData))
     (reversed_ranks counts.SendData two_calls_callsData)).2
  = (reduce_send two_calls_callsData).2 /\
  (reduce_in_order (map_to_list two_calls_callsData)
     (reversed_ranks counts.RecvData two_calls_callsData)).2
  = reduce_recv two_calls_callsData /\
  sort_Ints (reduce_in_order (reverse (map_to_list two_calls_callsData))
               (reversed_ranks counts.SendData two_calls_callsData)).1
  = sort_Ints (reduce_send two_calls_callsData).1.
Proof.
  apply reduction_independent_of_map_order.
  - apply reverse_Permutation.
  - reflexivity.
  - apply reversed_ranks_orders.
  - apply reversed_ranks_orders.
Defined.

Lemma GetOutputFilename_inj_witness :
  GetOutputFilename 3 = GetOutputFilename (1 + 2) /\ 3 = 1 + 2.
Proof.
  assert (GetOutputFilename 3 = GetOutputFilename (1 + 2)) as Heq by reflexivity.
  split; [exact Heq|]. exact (GetOutputFilename_inj 3 (1 + 2) Heq).
Defined.

Lemma report_independent_of_scaler_witness :
  exists w1 w2,
    main_comm Float64s_spec sample_join never_fails1 never_fails2 "out" 3
      sample_callsData (sample_header 2 4 4) sample_times empty_world = Returned tt w1 /\
    main_comm Float64s_identity sample_join never_fails1 never_fails2 "out" 3
      sample_callsData (sample_header 2 4 4) sample_times empty_world = Returned tt w2 /\
    scaler_calls w1 = scaler_calls w2 /\
    files w1 = files w2 /\ stdout w1 = stdout w2.
Proof.
  eexists _, _. split; [vm_compute; reflexivity|]. split; [vm_compute; reflexivity|].
  split; [vm_compute; reflexivity|].
  eapply (report_independent_of_scaler sample_join never_fails1 never_fails2
            Float64s_spec Float64s_identity "out" 3 sample_callsData (sample_header 2 4 4)
            sample_times empty_world); vm_compute; reflexivity.
Defined.

Lemma sample_GetFromFile_quiet inputFile listBins :
  quiet (sample_GetFromFile inputFile listBins).
Proof. intros w. by eexists _, _. Qed.

Lemma sample_Save_quiet outputDir jobId commId leadRank b :
  quiet (sample_Save outputDir jobId commId leadRank b).
Proof. intros w. by eexists _, _. Qed.

Lemma sample_GetFromInputDescr_quiet descr : quiet (sample_GetFromInputDescr descr).
Proof. intros w. by eexists _, _. Qed.

Lemma sample_GetJobId_quiet inputDir leadRank : quiet (sample_GetJobId inputDir leadRank).
Proof. intros w. unfold sample_GetJobId. destruct (leadRank <? 2); by eexists _, _. Qed.

Lemma sample_GetSendCountFile_quiet jobId leadRank :
  quiet (sample_GetSendCountFile jobId leadRank).
Proof. intros w. by eexists _, _. Qed.

Lemma getbins_exits_after_one_error_witness :
  getbins_discipline (communicators [(0, [0; 1]); (1, [2]); (2, [3])]) verbose_world
    (getbins_leads (list Z) sample_GetFromFile sample_Save sample_GetFromInputDescr
       sample_GetJobId sample_GetSendCountFile sample_join never_fails2
       "in" "200" "out" [(0, [0; 1]); (1, [2]); (2, [3])] verbose_world) /\
  getbins_leads (list Z) sample_GetFromFile sample_Save sample_GetFromInputDescr
    sample_GetJobId sample_GetSendCountFile sample_join never_fails2
    "in" "200" "out" [(0, [0; 1]); (1, [2]); (2, [3])] verbose_world
  = Exited 1
      (mkWorld ["[0] Ready to create 1 bins" +:+ nl;
                "[1] Ready to create 1 bins" +:+ nl;
                "[2] Ready to create 1 bins" +:+ nl;
                "ERROR: counts.GetJobIdFromLeadRank() failed: no count file" +:+ nl]
         {[ "bandwidth.log" := "[0] Ready to create 1 bins" +:+ nl
                               +:+ "[1] Ready to create 1 bins" +:+ nl
                               +:+ "[2] Ready to create 1 bins" +:+ nl ]}
         [] (log_next (log_next (log_next verbose_logger)))).
Proof.
  split; [|vm_compute; reflexivity].
  exact (getbins_exits_after_one_error (list Z) sample_GetFromFile sample_Save
           sample_GetFromInputDescr sample_GetJobId sample_GetSendCountFile sample_join
           never_fails2
           sample_GetFromFile_quiet sample_Save_quiet sample_GetFromInputDescr_quiet
           sample_GetJobId_quiet sample_GetSendCountFile_quiet
           "in" "200" "out" [(0, [0; 1]); (1, [2]); (2, [3])] verbose_world).
Defined.

Lemma getbins_reports_unreadable_count_file_witness :
  let w1 := logged never_fails2 ("Ready to create " +:+ fmt_d 1 +:+ " bins" +:+ nl)
              verbose_world in
  sample_join "in" ("send-counters.job0.rank0.txt") <> EmptyString /\
  getbins_leads (list Z) failing_GetFromFile sample_Save sample_GetFromInputDescr
    sample_GetJobId sample_GetSendCountFile sample_join never_fails2
    "in" "200" "out" [(0, [0; 1]); (1, [2])] verbose_world
  = Exited 1
      (mkWorld
         (stdout w1
          ++ ["ERROR: getBinsFromCountFile() failed: unable to get bins: "
              +:+ "cannot open file" +:+ nl])
         (files w1) (scaler_calls w1) (logger w1)).
Proof.
  intros w1.
  assert (sample_join "in" ("send-counters.job0.rank0.txt") <> EmptyString) as Hpath
    by (vm_compute; discriminate).
  split; [exact Hpath|].
  exact (getbins_reports_unreadable_count_file (list Z) failing_GetFromFile sample_Save
           sample_GetFromInputDescr sample_GetJobId sample_GetSendCountFile sample_join
           never_fails2
           "in" "200" "out" 0 0 [1] [(1, [2])] verbose_world [200] verbose_world 0
           verbose_world "send-counters.job0.rank0.txt" w1 []
           "cannot open file" w1 eq_refl eq_refl eq_refl Hpath eq_refl).
Defined.
